(** * Papagei: retention pruning, health polling and the start gate

    A shallow embedding of the JavaScript/TypeScript sources of the
    repository:

    - [scripts/prune-history.mjs]: [readJson], [resolveRetentionDays],
      [toTimestamp], [prune];
    - [scripts/dev-backend.mjs]: the launcher's top level;
    - the page component (status-aware revision): [checkHealth], [start];

    together with the host operations they call (property access,
    [String], [Number.parseInt], truthiness, the [fs] calls), written
    after ECMAScript and Node. [JSON.parse], [JSON.stringify] and
    [Date.parse] are parameters of the development; reference versions
    of the three, on a fragment, run the examples. The session
    controller of the backend is not among the sources and is modelled
    from the specification. *)

From Stdlib Require Import ZArith Ascii String DecimalString DecimalN DecimalPos Lia.
From stdpp Require Import base option list strings gmap.

Set Warnings "-register-all".

Local Open Scope Z_scope.

(** ** Host values *)

(** A double as [JSON.parse] yields it, carried by the decimal that
    [Number::toString] prints: an integer, a non-integer
    [(-1)^neg * s / 10^e] with [s] not a multiple of ten, or an
    infinity (a literal past the double range). [NInt 0] stands for
    both zeroes: the code below never tells them apart. *)
Inductive number :=
  | NInt (z : Z)
  | NFrac (neg : bool) (s e : positive)
  | NInf (neg : bool).

(** The value of a JSON document after [JSON.parse]. The members of an
    object are in insertion order. *)
Inductive json :=
  | JNull
  | JBool (b : bool)
  | JNum (n : number)
  | JStr (s : string)
  | JArr (items : list json)
  | JObj (members : list (string * json)).

(** A JavaScript value that is a JSON value or [undefined] ([None]). *)
Definition jsval := option json.

(** What a [catch] receives. *)
Inductive exn :=
  | TypeError (msg : string)
  | SyntaxError (msg : string)
  | Error (msg : string)
  | SystemError (code : string).

Definition exn_message (e : exn) : string :=
  match e with
  | TypeError m | SyntaxError m | Error m => m
  | SystemError c => c
  end.

(** The completion of an expression: a value or a throw. *)
Inductive completion (A : Type) :=
  | Normal (a : A)
  | Throw (e : exn).
Arguments Normal {A} a.
Arguments Throw {A} e.

#[global] Instance completion_ret : MRet completion := fun A a => Normal a.

#[global] Instance completion_bind : MBind completion := fun A B k c =>
  match c with
  | Normal a => k a
  | Throw e => Throw e
  end.

(** [try { body } catch (e) { handler }] *)
Definition try_catch {A} (body : completion A) (handler : exn -> A) : A :=
  match body with
  | Normal a => a
  | Throw e => handler e
  end.

(** *** Property access *)

Fixpoint own_property (members : list (string * json)) (key : string) : jsval :=
  match members with
  | [] => None
  | (k, v) :: rest => if String.eqb k key then Some v else own_property rest key
  end.

(** [value?.key] for a key that no prototype defines: a member of an
    object, [undefined] otherwise. *)
Definition opt_get (value : jsval) (key : string) : jsval :=
  match value with
  | Some (JObj members) => own_property members key
  | _ => None
  end.

(** [value.key], which throws on [null] and [undefined]. *)
Definition get (value : jsval) (key : string) : completion jsval :=
  match value with
  | None => Throw (TypeError "Cannot read properties of undefined")
  | Some JNull => Throw (TypeError "Cannot read properties of null")
  | _ => Normal (opt_get value key)
  end.

(** [a ?? b] *)
Definition nullish (a : jsval) (b : jsval) : jsval :=
  match a with
  | None | Some JNull => b
  | _ => a
  end.

(** [Boolean(value)] *)
Definition truthy (value : jsval) : bool :=
  match value with
  | None | Some JNull => false
  | Some (JBool b) => b
  | Some (JNum (NInt z)) => negb (z =? 0)
  | Some (JNum _) => true
  | Some (JStr s) => negb (String.eqb s "")
  | Some (JArr _) | Some (JObj _) => true
  end.

(** *** [String(value)] *)

Definition digits_of_N (n : N) : string :=
  NilZero.string_of_uint (N.to_uint n).

Fixpoint zeros (n : nat) : string :=
  match n with
  | O => ""
  | S n => String "0" (zeros n)
  end.

Fixpoint strip_trailing_zeros (s : string) : string :=
  match s with
  | EmptyString => ""
  | String c rest =>
      match strip_trailing_zeros rest with
      | EmptyString => if Ascii.eqb c "0" then "" else String c ""
      | rest' => String c rest'
      end
  end.

Fixpoint take_string (n : nat) (s : string) : string :=
  match n, s with
  | S n, String c rest => String c (take_string n rest)
  | _, _ => ""
  end.

Fixpoint drop_string (n : nat) (s : string) : string :=
  match n, s with
  | S n, String _ rest => drop_string n rest
  | _, _ => s
  end.

(** [Number::toString] on a positive value [s * 10^(n-k)]: [digits] are
    the [k] digits of [s], without trailing zeros. *)
Definition number_to_string_digits (digits : string) (n : Z) : string :=
  let k := Z.of_nat (String.length digits) in
  if (k <=? n) && (n <=? 21) then
    digits +:+ zeros (Z.to_nat (n - k))
  else if (0 <? n) && (n <=? 21) then
    take_string (Z.to_nat n) digits +:+ "." +:+ drop_string (Z.to_nat n) digits
  else if (-6 <? n) && (n <=? 0) then
    "0." +:+ zeros (Z.to_nat (- n)) +:+ digits
  else
    let exponent :=
      (if n - 1 <? 0 then "-" else "+") +:+ digits_of_N (Z.abs_N (n - 1)) in
    if k =? 1 then digits +:+ "e" +:+ exponent
    else take_string 1 digits +:+ "." +:+ drop_string 1 digits +:+ "e" +:+ exponent.

Definition number_to_string (x : number) : string :=
  match x with
  | NInt 0 => "0"
  | NInt z =>
      let all := digits_of_N (Z.abs_N z) in
      (if z <? 0 then "-" else "") +:+
      number_to_string_digits (strip_trailing_zeros all) (Z.of_nat (String.length all))
  | NFrac neg s e =>
      let digits := digits_of_N (Npos s) in
      (if neg then "-" else "") +:+
      number_to_string_digits digits (Z.of_nat (String.length digits) - Zpos e)
  | NInf neg => if neg then "-Infinity" else "Infinity"
  end.

(** [x > bound] *)
Definition number_above (x : number) (bound : Z) : bool :=
  match x with
  | NInt z => bound <? z
  | NFrac false s e => bound * 10 ^ Zpos e <? Zpos s
  | NFrac true s e => bound * 10 ^ Zpos e <? Zneg s
  | NInf neg => negb neg
  end.

Definition has_own (members : list (string * json)) (key : string) : bool :=
  match own_property members key with
  | Some _ => true
  | None => false
  end.

(** [String(value)]. An array joins its elements with commas, [null]
    printing as nothing; an object prints as ["[object Object]"] through
    [Object.prototype.toString], unless a member named [toString] hides
    it: no JSON value is callable, [valueOf] returns the object, and the
    conversion throws. *)
Fixpoint to_string (v : json) : completion string :=
  match v with
  | JNull => Normal "null"
  | JBool b => Normal (if b then "true" else "false")
  | JNum x => Normal (number_to_string x)
  | JStr s => Normal s
  | JArr items =>
      let element (v : json) : completion string :=
        match v with
        | JNull => Normal ""
        | _ => to_string v
        end in
      let fix join (items : list json) : completion string :=
        match items with
        | [] => Normal ""
        | [v] => element v
        | v :: rest =>
            s ← element v;
            r ← join rest;
            Normal (s +:+ "," +:+ r)
        end in
      join items
  | JObj members =>
      if has_own members "toString"
      then Throw (TypeError "Cannot convert object to primitive value")
      else Normal "[object Object]"
  end.

Definition String_ (value : jsval) : completion string :=
  match value with
  | None => Normal "undefined"
  | Some v => to_string v
  end.


(** *** [Number.parseInt(text, 10)] *)

(** Skips the leading [StrWhiteSpaceChar]s of a text in UTF-8: the
    ASCII ones, U+00A0, U+1680, U+2000 to U+200A, U+2028, U+2029, U+202F,
    U+205F, U+3000 and U+FEFF. *)
Fixpoint trim_start (s : string) : string :=
  match s with
  | EmptyString => ""
  | String c rest =>
      if Ascii.is_space c then trim_start rest
      else
        match c, rest with
        | "194"%char, String "160"%char r => trim_start r
        | "225"%char, String "154"%char (String "128"%char r) => trim_start r
        | "226"%char, String "128"%char (String c3 r) =>
            let n := N_of_ascii c3 in
            if ((128 <=? n) && (n <=? 138) || (n =? 168) || (n =? 169) || (n =? 175))%N
            then trim_start r else s
        | "226"%char, String "129"%char (String "159"%char r) => trim_start r
        | "227"%char, String "128"%char (String "128"%char r) => trim_start r
        | "239"%char, String "187"%char (String "191"%char r) => trim_start r
        | _, _ => s
        end
  end.

Definition digit_cons (c : ascii) : option (Decimal.uint -> Decimal.uint) :=
  match c with
  | "0" => Some Decimal.D0
  | "1" => Some Decimal.D1
  | "2" => Some Decimal.D2
  | "3" => Some Decimal.D3
  | "4" => Some Decimal.D4
  | "5" => Some Decimal.D5
  | "6" => Some Decimal.D6
  | "7" => Some Decimal.D7
  | "8" => Some Decimal.D8
  | "9" => Some Decimal.D9
  | _ => None
  end%char.

(** The longest prefix of decimal digits. *)
Fixpoint leading_digits (s : string) : Decimal.uint :=
  match s with
  | EmptyString => Decimal.Nil
  | String c rest =>
      match digit_cons c with
      | Some d => d (leading_digits rest)
      | None => Decimal.Nil
      end
  end.

(** [Number.parseInt(text, 10)]; [None] is [NaN]. The result is the
    mathematical integer: the double that JavaScript rounds it to, or
    the infinity it overflows to, lies on the same side of every bound
    the code compares it with. *)
Definition parseInt (text : string) : option Z :=
  let s := trim_start text in
  let '(sign, s) :=
    match s with
    | String "-" r => (-1, r)
    | String "+" r => (1, r)
    | _ => (1, s)
    end in
  match leading_digits s with
  | Decimal.Nil => None
  | digits => Some (sign * Z.of_N (N.of_uint digits))
  end.

(** ** The file system *)

Inductive node :=
  | File (content : string)
  | Dir.

Abbreviation FS := (gmap string node).

Definition existsSync (fs : FS) (p : string) : bool :=
  match fs !! p with
  | Some _ => true
  | None => false
  end.

Definition readFileSync (fs : FS) (p : string) : completion string :=
  match fs !! p with
  | Some (File content) => Normal content
  | Some Dir => Throw (SystemError "EISDIR")
  | None => Throw (SystemError "ENOENT")
  end.

(** The calls of [fs] that change the disk. *)
Inductive fs_op :=
  | mkdirSync_recursive (p : string)
  | writeFileSync (p data : string)
  | renameSync (oldPath newPath : string).

(** One call, run to its end; [None] when it throws, the disk untouched.
    [renameSync] swaps the entry in one step. *)
Definition apply_op (op : fs_op) (fs : FS) : option FS :=
  match op with
  | mkdirSync_recursive p =>
      match fs !! p with
      | None => Some (<[p := Dir]> fs)
      | Some Dir => Some fs
      | Some (File _) => None
      end
  | writeFileSync p data =>
      match fs !! p with
      | Some Dir => None
      | _ => Some (<[p := File data]> fs)
      end
  | renameSync oldPath newPath =>
      match fs !! oldPath, fs !! newPath with
      | None, _ => None
      | Some (File _), Some Dir => None
      | Some Dir, Some (File _) => None
      | Some n, _ => Some (<[newPath := n]> (delete oldPath fs))
      end
  end.

(** The calls in order, up to the first that throws. *)
Fixpoint exec_ops (ops : list fs_op) (fs : FS) : FS * bool :=
  match ops with
  | [] => (fs, true)
  | op :: rest =>
      match apply_op op fs with
      | Some fs' => exec_ops rest fs'
      | None => (fs, false)
      end
  end.

(** The exception of a call that throws, with the code that Linux
    gives it. *)
Definition op_error (op : fs_op) (fs : FS) : exn :=
  SystemError
    match op with
    | mkdirSync_recursive _ => "EEXIST"
    | writeFileSync _ _ => "EISDIR"
    | renameSync oldPath newPath =>
        match fs !! oldPath, fs !! newPath with
        | None, _ => "ENOENT"
        | Some Dir, Some (File _) => "ENOTDIR"
        | _, _ => "EISDIR"
        end
    end.

(** The exception of the first call that throws, if one does. *)
Fixpoint exec_error (ops : list fs_op) (fs : FS) : option exn :=
  match ops with
  | [] => None
  | op :: rest =>
      match apply_op op fs with
      | Some fs' => exec_error rest fs'
      | None => Some (op_error op fs)
      end
  end.

(** The disk when the process dies while it runs [ops]: between two
    calls, or inside a [writeFileSync] that has put down only the start
    of its data. *)
Inductive crash_state : FS -> list fs_op -> FS -> Prop :=
  | crash_before fs ops :
      crash_state fs ops fs
  | crash_in_write fs p data written rest ops :
      data = written +:+ rest ->
      fs !! p ≠ Some Dir ->
      crash_state fs (writeFileSync p data :: ops) (<[p := File written]> fs)
  | crash_after fs op ops fs1 fs2 :
      apply_op op fs = Some fs1 ->
      crash_state fs1 ops fs2 ->
      crash_state fs (op :: ops) fs2.

(** ** [scripts/prune-history.mjs] *)

Module PruneHistory.

Definition DEFAULT_RETENTION_DAYS : Z := 60.
Definition MAX_RETENTION_DAYS : Z := 3650.

(** What the script prints, line by line. *)
Inductive message :=
  | NoHistoryFile
  | InvalidHistory
  | NothingOlder (days : Z)
  | DryRunReport (removed : Z) (total : nat) (days : Z)
  | RemovedReport (removed : Z) (kept : nat).

(** A run of [prune()]: the value it returns or the exception that
  escapes it, the lines printed, and the calls on the disk that the run
  sets out to make, in order: [exec_ops] runs them, up to the first that
  throws. Every read of the disk comes before the first of these
  calls. *)
Record outcome := {
  result : completion Z;
  console : list message;
  effects : list fs_op;
}.

(** [items.filter(callback)] for a callback that updates a captured
  variable: the variable is threaded through the calls, and a throw
  ends the iteration. *)
Fixpoint Array_filter {S : Type} (callback : json -> S -> completion (bool * S))
    (items : list json) (captured : S) : completion (list json * S) :=
  match items with
  | [] => Normal ([], captured)
  | item :: rest =>
      '(keep, captured) ← callback item captured;
      '(kept, captured) ← Array_filter callback rest captured;
      Normal (if keep : bool then item :: kept else kept, captured)
  end.

Section Script.

(** [JSON.parse(raw)], which throws a [SyntaxError] on a text that is
  not JSON. *)
Variable JSON_parse : string -> completion json.

(** [JSON.stringify(value, null, 2)] *)
Variable JSON_stringify : json -> string.

(** [Date.parse(text)], in milliseconds; [None] is [NaN]. *)
Variable Date_parse : string -> option Z.

(** [path.join(rootDir, "history")], in POSIX form. *)
Variable historyDir : string.

Definition historyFile : string := historyDir +:+ "/history.json".
Definition settingsFile : string := historyDir +:+ "/settings.json".

Definition dryRun (argv : list string) : bool :=
  existsb (String.eqb "--dry-run") argv.

Definition readJson (fs : FS) (filePath : string) (fallback : json) : json :=
  if negb (existsSync fs filePath) then fallback
  else
    try_catch
      (raw ← readFileSync fs filePath;
       JSON_parse raw)
      (fun _ => fallback).

(** [settings?.historyRetentionDays] *)
Definition configured (fs : FS) : jsval :=
  opt_get (Some (readJson fs settingsFile (JObj []))) "historyRetentionDays".

Definition resolveRetentionDays (fs : FS) : completion Z :=
  text ← String_ (nullish (configured fs)
                          (Some (JNum (NInt DEFAULT_RETENTION_DAYS))));
  match parseInt text with
  | None => Normal DEFAULT_RETENTION_DAYS
  | Some value =>
      if (value <? 1) || (value >? MAX_RETENTION_DAYS)
      then Normal DEFAULT_RETENTION_DAYS
      else Normal value
  end.

(** [null] is [None]. *)
Definition toTimestamp (value : jsval) : completion (option Z) :=
  text ← String_ value;
  Normal (Date_parse text).

(** The callback of the filter in [prune]; the captured variable is
  [removed]. *)
Definition prune_callback (cutoffMs : Z) (item : json) (removed : Z)
    : completion (bool * Z) :=
  createdAtMs ← toTimestamp (opt_get (Some item) "createdAt");
  match createdAtMs with
  | None => Normal (true, removed)
  | Some createdAtMs =>
      if createdAtMs <? cutoffMs then Normal (false, removed + 1)
      else Normal (true, removed)
  end.

Definition cutoff (now days : Z) : Z :=
  now - days * 24 * 60 * 60 * 1000.

Definition tempPath : string := historyFile +:+ ".tmp".

Definition uncaught (e : exn) : outcome :=
  {| result := Throw e; console := []; effects := [] |}.

(** [prune()], with [process.argv] and the value of [Date.now()]. *)
Definition prune (argv : list string) (now : Z) (fs : FS) : outcome :=
  if negb (existsSync fs historyFile) then
    {| result := Normal 0; console := [NoHistoryFile]; effects := [] |}
  else
    match readJson fs historyFile (JArr []) with
    | JArr history =>
        match resolveRetentionDays fs with
        | Throw e => uncaught e
        | Normal days =>
            let cutoffMs := cutoff now days in
            match Array_filter (prune_callback cutoffMs) history 0 with
            | Throw e => uncaught e
            | Normal (kept, removed) =>
                if removed =? 0 then
                  {| result := Normal 0; console := [NothingOlder days];
                     effects := [] |}
                else if dryRun argv then
                  {| result := Normal 0;
                     console := [DryRunReport removed (length history) days];
                     effects := [] |}
                else
                  let calls :=
                    [ mkdirSync_recursive historyDir;
                      writeFileSync tempPath (JSON_stringify (JArr kept));
                      renameSync tempPath historyFile ] in
                  match exec_error calls fs with
                  | Some e =>
                      (* a call throws: nothing is printed, nothing returned *)
                      {| result := Throw e; console := []; effects := calls |}
                  | None =>
                      {| result := Normal 0;
                         console := [RemovedReport removed (length kept)];
                         effects := calls |}
                  end
            end
        end
    | _ =>
        {| result := Normal 1; console := [InvalidHistory]; effects := [] |}
    end.

(** The disk after the script has run. *)
Definition disk_after (argv : list string) (now : Z) (fs : FS) : FS :=
  fst (exec_ops (effects (prune argv now fs)) fs).

(** [process.exitCode = prune()]: an uncaught exception, of a read or
  of one of the calls on the disk, ends the process with 1. *)
Definition exit_code (argv : list string) (now : Z) (fs : FS) : Z :=
  let run := prune argv now fs in
  match result run, snd (exec_ops (effects run) fs) with
  | Normal code, true => code
  | _, _ => 1
  end.

(** After the spec: the record's [createdAt] parses and is older than
  the cutoff, [now - retentionDays]. *)
Definition older_than (cutoffMs : Z) (item : json) : bool :=
  match toTimestamp (opt_get (Some item) "createdAt") with
  | Normal (Some createdAtMs) => createdAtMs <? cutoffMs
  | _ => false
  end.

Definition keeps (cutoffMs : Z) (item : json) : bool :=
  negb (older_than cutoffMs item).

(** The three calls of a run that writes [kept]. *)
Definition write_calls (kept : list json) : list fs_op :=
  [ mkdirSync_recursive historyDir;
    writeFileSync tempPath (JSON_stringify (JArr kept));
    renameSync tempPath historyFile ].

(** No call on the disk throws. *)
Definition calls_succeed (argv : list string) (now : Z) (fs : FS) : Prop :=
  snd (exec_ops (effects (prune argv now fs)) fs) = true.

End Script.

End PruneHistory.

(** ** [scripts/dev-backend.mjs] *)

Module Launcher.

(** What the launcher does, in the order it does it. [spawnSync]
    returns when its child has ended, with the child's exit status
    ([None]: killed by a signal, or never started); [spawn] returns at
    once, the disk being as it is at that moment. *)
Inductive event :=
  | spawnSync_returned (command : string) (args : list string) (status : option Z)
  | console_warn (text : string)
  | console_log (text : string)
  | spawn (command : string) (args : list string) (disk : FS).

(** [value || fallback] on an environment variable. *)
Definition or_default (value : option string) (fallback : string) : string :=
  match value with
  | None | Some EmptyString => fallback
  | Some v => v
  end.

Section Launch.

(** [process.env], [process.argv], [process.execPath], the working
    directory. *)
Variable env : gmap string string.
Variable argv : list string.
Variable execPath cwd : string.

(** A child process run to its end: what it leaves on the disk and
    its exit status. *)
Variable run_child : string -> list string -> FS -> FS * option Z.

Definition backendHost : string := or_default (env !! "PAPAGEI_BACKEND_HOST") "127.0.0.1".
Definition backendPort : string := or_default (env !! "PAPAGEI_BACKEND_PORT") "4380".
Definition useReload : bool := existsb (String.eqb "--reload") argv.
Definition pruneScript : string := cwd +:+ "/scripts/prune-history.mjs".

Definition args : list string :=
  ["-m"; "uvicorn"; "papagei_backend.server:app";
   "--host"; backendHost; "--port"; backendPort]
  ++ (if useReload then ["--reload"] else []).

(** The top level of the module, up to the [spawn] of the backend. *)
Definition main (disk : FS) : list event :=
  let '(disk, status) := run_child execPath [pruneScript] disk in
  [spawnSync_returned execPath [pruneScript] status]
  ++ (if decide (status = Some 0) then []
      else [console_warn "[dev:backend] History pruning failed. Continuing backend startup."])
  ++ [console_log ("[dev:backend] Starting backend at http://" +:+ backendHost +:+ ":"
                   +:+ backendPort +:+ (if useReload then " (reload)" else ""));
      spawn "python" args disk].

End Launch.

Definition is_spawn (e : event) : bool :=
  match e with
  | spawn _ _ _ => true
  | _ => false
  end.

Definition is_spawnSync (e : event) : bool :=
  match e with
  | spawnSync_returned _ _ _ => true
  | _ => false
  end.

End Launcher.

(** ** The page component: [checkHealth] and [start] *)

Module Status.
Inductive t := idle | recording | transcribing | error.
End Status.

Module BackendState.
Inductive t := offline | loading | ready | error.
End BackendState.

Module Page.

(** The component's state, as far as [checkHealth] and [start] set it. *)
Record state := {
  status : Status.t;
  error : option json;
  backendOk : option bool;
  backendState : BackendState.t;
  backendMessage : json;
  backendPhases : json;
  backendPhaseIndex : number;
  backendStartedAt : option number;
  backendUptime : option number;
  backendPid : option number;
  backendProgress : number;
}.

(** A settled [fetch]: the response's [ok] and [status], what
    [r.json()] and [r.text()] resolve to or reject with. *)
Record response := {
  ok : bool;
  http_status : Z;
  json_body : completion json;
  text_body : completion string;
}.

Inductive request :=
  | GET_health
  | POST_start.

(** What [checkHealth] resolves to. *)
Record health := {
  ready : bool;
  health_status : BackendState.t;
  message : json;
}.

Definition as_number (v : jsval) : option number :=
  match v with
  | Some (JNum n) => Some n
  | _ => None
  end.

Definition unreachable (s : state) : health * state :=
  ({| ready := false; health_status := BackendState.offline;
      message := JStr "Backend not reachable" |},
   {| status := status s; error := error s;
      backendOk := Some false;
      backendState := BackendState.offline;
      backendMessage := JStr "Backend not reachable";
      backendPhases := backendPhases s;
      backendPhaseIndex := backendPhaseIndex s;
      backendStartedAt := backendStartedAt s;
      backendUptime := backendUptime s;
      backendPid := backendPid s;
      backendProgress := backendProgress s |}).

(** [status === "error" ? "error" : status === "ready" ? "ready" : "loading"] *)
Definition normalize (status : jsval) : BackendState.t :=
  match status with
  | Some (JStr s) =>
      if String.eqb s "error" then BackendState.error
      else if String.eqb s "ready" then BackendState.ready
      else BackendState.loading
  | _ => BackendState.loading
  end.

(** The body of the [try] of [checkHealth]; [fetched] is how
    [fetch(BACKEND/health)] settles. No state is set before the last
    expression that can throw. *)
Definition checkHealth_try (fetched : completion response) (s : state)
    : completion (health * state) :=
  r ← fetched;
  if negb (ok r) then Normal (unreachable s)
  else
    data ← json_body r;
    data_status ← get (Some data) "status";
    data_ready ← get (Some data) "ready";
    let reported :=
      nullish data_status
        (Some (JStr (if truthy data_ready then "ready" else "loading"))) in
    let normalized := normalize reported in
    data_message ← get (Some data) "message";
    data_error ← get (Some data) "error";
    let message :=
      default (JStr "") (nullish data_message (nullish data_error (Some (JStr "")))) in
    data_phases ← get (Some data) "phases";
    let phases := default (JArr []) (nullish data_phases (Some (JArr []))) in
    data_phase_index ← get (Some data) "phase_index";
    let phaseIndex :=
      match data_phase_index with
      | Some (JNum (NInf _)) => NInt 0
      | Some (JNum n) => n
      | _ => NInt 0
      end in
    data_started_at ← get (Some data) "started_at";
    data_uptime_seconds ← get (Some data) "uptime_seconds";
    data_pid ← get (Some data) "pid";
    data_progress ← get (Some data) "progress";
    Normal
      ({| ready := truthy data_ready; health_status := normalized; message := message |},
       {| status := status s; error := error s;
          backendOk := Some true;
          backendState := normalized;
          backendMessage := message;
          backendPhases := phases;
          backendPhaseIndex := phaseIndex;
          backendStartedAt := as_number data_started_at;
          backendUptime := as_number data_uptime_seconds;
          backendPid := as_number data_pid;
          backendProgress := default (NInt 0) (as_number data_progress) |}).

(** [checkHealth()]: the [try] and its [catch]. A [Throw] would be a
    rejected promise. *)
Definition checkHealth (fetched : completion response) (s : state)
    : completion (health * state) :=
  Normal (try_catch (checkHealth_try fetched s) (fun _ => unreachable s)).

(** After C6 as the code has it: what [checkHealth] is to resolve to,
    outcome by outcome. [offline] when the request fails, the response
    is not OK, or the body is not JSON or is [null]. Otherwise the
    [status] member of the body decides when it is there, [error] and
    [ready] as they are and any other value as [loading], and the
    truthiness of [ready] decides when it is not. *)
Definition polled_as (fetched : completion response) (polled : health) : Prop :=
  match fetched with
  | Throw _ => health_status polled = BackendState.offline /\ ready polled = false
  | Normal r =>
      if ok r then
        match json_body r with
        | Throw _ | Normal JNull =>
            health_status polled = BackendState.offline /\ ready polled = false
        | Normal data =>
            ready polled = truthy (opt_get (Some data) "ready")
            /\ health_status polled
               = match opt_get (Some data) "status" with
                 | Some (JStr reported) =>
                     if String.eqb reported "error" then BackendState.error
                     else if String.eqb reported "ready" then BackendState.ready
                     else BackendState.loading
                 | None | Some JNull =>
                     if truthy (opt_get (Some data) "ready") then BackendState.ready
                     else BackendState.loading
                 | Some _ => BackendState.loading
                 end
        end
      else health_status polled = BackendState.offline /\ ready polled = false
  end.

Definition set_status_error (st : Status.t) (err : option json) (s : state) : state :=
  {| status := st; error := err;
     backendOk := backendOk s;
     backendState := backendState s;
     backendMessage := backendMessage s;
     backendPhases := backendPhases s;
     backendPhaseIndex := backendPhaseIndex s;
     backendStartedAt := backendStartedAt s;
     backendUptime := backendUptime s;
     backendPid := backendPid s;
     backendProgress := backendProgress s |}.

(** [message || fallback] *)
Definition message_or (message : json) (fallback : string) : json :=
  if truthy (Some message) then message else JStr fallback.

(** [start()]. [health_fetched] and [start_fetched] are how the two
    requests settle, the second only if it is made. Returns the state
    the component ends in and the requests sent, in order. *)
Definition start (health_fetched start_fetched : completion response) (s : state)
    : state * list request :=
  let s := set_status_error (status s) None s in
  match checkHealth health_fetched s with
  | Throw e => (set_status_error Status.error (Some (JStr (exn_message e))) s, [GET_health])
  | Normal (polled, s) =>
      if negb (ready polled) then
        let text :=
          match health_status polled with
          | BackendState.loading =>
              message_or (message polled) "Backend is loading the model. Please wait."
          | _ => JStr "Backend is offline. Start it with: npm run dev:backend"
          end in
        (set_status_error Status.error (Some text) s, [GET_health])
      else
        let posted : completion unit :=
          r ← start_fetched;
          if negb (ok r) then
            msg ← text_body r;
            Throw (Error (if String.eqb msg "" then
                            "start failed (" +:+ number_to_string (NInt (http_status r)) +:+ ")"
                          else msg))
          else Normal tt in
        (match posted with
         | Normal _ => set_status_error Status.recording None s
         | Throw e => set_status_error Status.error (Some (JStr (exn_message e))) s
         end,
         [GET_health; POST_start])
  end.

End Page.

(** ** The session controller *)

Module SessionController.

Inductive SessionState := Idle | Recording | Transcribing | Error.

Inductive failure :=
  | ModelNotReady
  | AlreadyRecording
  | NotRecording
  | AlreadyTranscribing
  | TranscriptionFailure.

(** Where one start-to-stop cycle stands. *)
Inductive progress := capturing | transcribing | completed | failed.

Record session := {
  owner : nat;
  stage : progress;
}.

(** The process-wide state, and the sessions opened so far, newest
    first. *)
Record controller := {
  state : SessionState;
  sessions : list session;
}.

Definition initial : controller := {| state := Idle; sessions := [] |}.

(** What arrives at the controller: a caller's [start()], with the
    monitor's [LoadStatus.ready] at that moment, a caller's [stop()],
    and the end of the engine's call made by a [stop()]. *)
Inductive call :=
  | start (ready : bool)
  | stop
  | transcribed (text : string)
  | transcription_failed (reason : string).

Definition set_newest (p : progress) (l : list session) : list session :=
  match l with
  | [] => []
  | s :: rest => {| owner := owner s; stage := p |} :: rest
  end.

(** Modelled from the spec: the controller itself (the backend's
    [papagei_backend/server.py]) is not among the sources. One
    transition of the table of section 4.1, run as the single critical
    section that section 5 requires: [start()] fails with
    [ModelNotReady] when the model is not ready and with
    [AlreadyRecording] in [Recording] and [Transcribing], and otherwise
    moves to [Recording]; [stop()] fails with [NotRecording] in [Idle]
    and [Error] and with [AlreadyTranscribing] in [Transcribing], and
    otherwise moves to [Transcribing]; the engine's answer moves from
    [Transcribing] to [Idle] or to [Error]. *)
Definition step (c : controller) (caller : nat) (what : call)
    : controller * option failure :=
  match what with
  | start ready =>
      if negb ready then (c, Some ModelNotReady)
      else
        match state c with
        | Recording | Transcribing => (c, Some AlreadyRecording)
        | Idle | Error =>
            ({| state := Recording;
                sessions := {| owner := caller; stage := capturing |} :: sessions c |},
             None)
        end
  | stop =>
      match state c with
      | Idle | Error => (c, Some NotRecording)
      | Transcribing => (c, Some AlreadyTranscribing)
      | Recording =>
          ({| state := Transcribing;
              sessions := set_newest transcribing (sessions c) |}, None)
      end
  | transcribed _ =>
      match state c with
      | Transcribing =>
          ({| state := Idle; sessions := set_newest completed (sessions c) |}, None)
      | _ => (c, None)
      end
  | transcription_failed _ =>
      match state c with
      | Transcribing =>
          ({| state := Error; sessions := set_newest failed (sessions c) |},
           Some TranscriptionFailure)
      | _ => (c, None)
      end
  end.

(** The calls of all callers, in the order in which they enter the
    critical section. *)
Fixpoint run (c : controller) (calls : list (nat * call)) : controller :=
  match calls with
  | [] => c
  | (caller, what) :: rest => run (fst (step c caller what)) rest
  end.

Definition in_progress (s : session) : bool :=
  match stage s with
  | capturing | transcribing => true
  | completed | failed => false
  end.

Definition active (c : controller) : list session :=
  List.filter in_progress (sessions c).

(** The process-wide state and the sessions agree. *)
Definition consistent (c : controller) : Prop :=
  match state c with
  | Idle | Error => active c = []
  | Recording =>
      exists o rest,
        sessions c = {| owner := o; stage := capturing |} :: rest
        /\ List.filter in_progress rest = []
  | Transcribing =>
      exists o rest,
        sessions c = {| owner := o; stage := transcribing |} :: rest
        /\ List.filter in_progress rest = []
  end.

End SessionController.

(** ** Reference host functions

    [JSON.parse], [JSON.stringify(_, null, 2)] and [Date.parse] on the
    fragment that the examples below use: numbers of at most fifteen
    significant digits, below 1e308 in magnitude and with no digit past
    the 300th decimal place, strings with the two-character escapes
    only, object keys that are not array
    indices, and date-times in universal time, of the form
    [YYYY-MM-DDTHH:mm:ss.sssZ], the milliseconds optional. Outside the
    fragment the parsers fail, also on texts that the host reads, such
    as a date-time without the [Z], which the host reads in local
    time. *)

Module Reference.

Definition newline : string := String "010" "".

(** *** [JSON.stringify(value, null, 2)] *)

Definition escape (c : ascii) : string :=
  if Ascii.eqb c "034" || Ascii.eqb c "\" then String "\" (String c EmptyString)
  else if Ascii.eqb c "008" then "\b"
  else if Ascii.eqb c "009" then "\t"
  else if Ascii.eqb c "010" then "\n"
  else if Ascii.eqb c "012" then "\f"
  else if Ascii.eqb c "013" then "\r"
  else String c "".

Fixpoint quote_body (s : string) : string :=
  match s with
  | EmptyString => ""
  | String c rest => escape c +:+ quote_body rest
  end.

Definition quote (s : string) : string :=
  String "034" (quote_body s +:+ String "034" EmptyString).

Fixpoint join_lines (lines : list string) : string :=
  match lines with
  | [] => ""
  | [l] => l
  | l :: rest => l +:+ "," +:+ newline +:+ join_lines rest
  end.

Fixpoint stringify_at (indent : string) (v : json) : string :=
  match v with
  | JNull => "null"
  | JBool b => if b then "true" else "false"
  | JNum (NInf _) => "null"
  | JNum x => number_to_string x
  | JStr s => quote s
  | JArr [] => "[]"
  | JArr items =>
      let inner := indent +:+ "  " in
      "[" +:+ newline
      +:+ join_lines (map (fun item => inner +:+ stringify_at inner item) items)
      +:+ newline +:+ indent +:+ "]"
  | JObj [] => "{}"
  | JObj members =>
      let inner := indent +:+ "  " in
      "{" +:+ newline
      +:+ join_lines
            (map (fun m => inner +:+ quote (fst m) +:+ ": " +:+ stringify_at inner (snd m))
                 members)
      +:+ newline +:+ indent +:+ "}"
  end.

Definition JSON_stringify (v : json) : string := stringify_at "" v.

(** *** [JSON.parse(text)] *)

Fixpoint skip_ws (s : string) : string :=
  match s with
  | String c rest =>
      match c with
      | " " | "009" | "010" | "013" => skip_ws rest
      | _ => s
      end%char
  | EmptyString => ""
  end.

Definition unescape (c : ascii) : option ascii :=
  match c with
  | "034" => Some "034"
  | "\" => Some "\"
  | "/" => Some "/"
  | "b" => Some "008"
  | "t" => Some "009"
  | "n" => Some "010"
  | "f" => Some "012"
  | "r" => Some "013"
  | _ => None
  end%char.

(** The text after an opening quote, up to the closing one. *)
Fixpoint parse_string_body (s : string) : option (string * string) :=
  match s with
  | EmptyString => None
  | String "034" rest => Some ("", rest)
  | String "\" (String e rest) =>
      c ← unescape e;
      '(t, rest) ← parse_string_body rest;
      Some (String c t, rest)
  | String c rest =>
      if (N_of_ascii c <? 32)%N then None
      else
        '(t, rest) ← parse_string_body rest;
        Some (String c t, rest)
  end.

Fixpoint span_digits (s : string) : string * string :=
  match s with
  | String c rest =>
      match digit_cons c with
      | Some _ => let '(d, r) := span_digits rest in (String c d, r)
      | None => ("", s)
      end
  | EmptyString => ("", "")
  end.

Definition N_of_digits (s : string) : N := N.of_uint (leading_digits s).

(** [m = s * 10^t] with [s] not a multiple of ten. *)
Fixpoint strip_tens (fuel : nat) (m : N) (t : Z) : N * Z :=
  match fuel with
  | O => (m, t)
  | S fuel =>
      if ((m mod 10 =? 0) && negb (m =? 0))%N then strip_tens fuel (m / 10)%N (t + 1)
      else (m, t)
  end.

(** The double nearest to [(-1)^neg * mantissa * 10^exponent], for a
    mantissa that a double holds exactly. *)
Definition make_number (neg : bool) (mantissa : N) (exponent : Z) : option number :=
  if (mantissa =? 0)%N then Some (NInt 0)
  else
    let '(s, e) := strip_tens 400 mantissa exponent in
    let k := String.length (digits_of_N s) in
    if (15 <? k)%nat || (e <? -300) || (308 <? e + Z.of_nat k) then None
    else
      match s with
      | N0 => None
      | Npos p =>
          if 0 <=? e then Some (NInt ((if neg then -1 else 1) * Zpos p * 10 ^ e))
          else Some (NFrac neg p (Z.to_pos (- e)))
      end.

Definition parse_number (s : string) : option (number * string) :=
  let '(neg, s) :=
    match s with
    | String "-" r => (true, r)
    | _ => (false, s)
    end in
  let '(int_part, s) := span_digits s in
  match int_part with
  | EmptyString => None
  | String "0" (String _ _) => None
  | _ =>
      '(frac_part, s) ←
        match s with
        | String "." r =>
            let '(d, r) := span_digits r in
            if String.eqb d "" then None else Some (d, r)
        | _ => Some ("", s)
        end;
      '(exp, s) ←
        match s with
        | String "e" r | String "E" r =>
            let '(sign, r) :=
              match r with
              | String "-" r' => (-1, r')
              | String "+" r' => (1, r')
              | _ => (1, r)
              end in
            let '(d, r) := span_digits r in
            if String.eqb d "" then None else Some (sign * Z.of_N (N_of_digits d), r)
        | _ => Some (0, s)
        end;
      x ← make_number neg (N_of_digits (int_part +:+ frac_part))
                      (exp - Z.of_nat (String.length frac_part));
      Some (x, s)
  end.

Fixpoint expect (word : string) (s : string) : option string :=
  match word, s with
  | EmptyString, _ => Some s
  | String c w, String d r => if Ascii.eqb c d then expect w r else None
  | _, _ => None
  end.

(** [obj[key] = value] on the members read so far. *)
Fixpoint set_member (members : list (string * json)) (key : string) (value : json)
    : list (string * json) :=
  match members with
  | [] => [(key, value)]
  | (k, v) :: rest =>
      if String.eqb k key then (k, value) :: rest
      else (k, v) :: set_member rest key value
  end.

Fixpoint parse_value (fuel : nat) (s : string) : option (json * string) :=
  match fuel with
  | O => None
  | S fuel =>
      match skip_ws s with
      | String "n" r => r ← expect "ull" r; Some (JNull, r)
      | String "t" r => r ← expect "rue" r; Some (JBool true, r)
      | String "f" r => r ← expect "alse" r; Some (JBool false, r)
      | String "034" r => '(t, r) ← parse_string_body r; Some (JStr t, r)
      | String "[" r =>
          match skip_ws r with
          | String "]" r => Some (JArr [], r)
          | r => '(items, r) ← parse_items fuel r; Some (JArr items, r)
          end
      | String "{" r =>
          match skip_ws r with
          | String "}" r => Some (JObj [], r)
          | r => '(members, r) ← parse_members fuel [] r; Some (JObj members, r)
          end
      | s => '(x, r) ← parse_number s; Some (JNum x, r)
      end
  end
with parse_items (fuel : nat) (s : string) : option (list json * string) :=
  match fuel with
  | O => None
  | S fuel =>
      '(v, r) ← parse_value fuel s;
      match skip_ws r with
      | String "," r => '(vs, r) ← parse_items fuel r; Some (v :: vs, r)
      | String "]" r => Some ([v], r)
      | _ => None
      end
  end
with parse_members (fuel : nat) (seen : list (string * json)) (s : string)
    : option (list (string * json) * string) :=
  match fuel with
  | O => None
  | S fuel =>
      match skip_ws s with
      | String "034" r =>
          '(key, r) ← parse_string_body r;
          match skip_ws r with
          | String ":" r =>
              '(v, r) ← parse_value fuel r;
              let seen := set_member seen key v in
              match skip_ws r with
              | String "," r => parse_members fuel seen r
              | String "}" r => Some (seen, r)
              | _ => None
              end
          | _ => None
          end
      | _ => None
      end
  end.

Definition JSON_parse (text : string) : completion json :=
  match parse_value (2 * String.length text + 2) text with
  | Some (v, rest) =>
      if String.eqb (skip_ws rest) "" then Normal v
      else Throw (SyntaxError "Unexpected non-whitespace character after JSON")
  | None => Throw (SyntaxError "Unexpected token")
  end.

(** *** [Date.parse(text)] *)

(** Exactly [n] digits, as a number. *)
Definition fixed_digits (n : nat) (s : string) : option (Z * string) :=
  let '(d, _) := span_digits (take_string n s) in
  if (String.length d =? n)%nat then Some (Z.of_N (N_of_digits d), drop_string n s)
  else None.

(** Days from 1970-01-01 to the given day of the proleptic Gregorian
    calendar; a day past the end of the month counts on into the next
    one. *)
Definition days_from_civil (y m d : Z) : Z :=
  let y := if m <=? 2 then y - 1 else y in
  let era := y / 400 in
  let yoe := y - era * 400 in
  let doy := (153 * (if 2 <? m then m - 3 else m + 9) + 2) / 5 + d - 1 in
  let doe := yoe * 365 + yoe / 4 - yoe / 100 + doy in
  era * 146097 + doe - 719468.

(** A day up to 31 is read in every month, and the hour 24 at
    [24:00:00.000] only, as V8 does. *)
Definition Date_parse (text : string) : option Z :=
  '(y, s) ← fixed_digits 4 text;
  s ← expect "-" s;
  '(m, s) ← fixed_digits 2 s;
  s ← expect "-" s;
  '(d, s) ← fixed_digits 2 s;
  s ← expect "T" s;
  '(h, s) ← fixed_digits 2 s;
  s ← expect ":" s;
  '(mi, s) ← fixed_digits 2 s;
  s ← expect ":" s;
  '(sec, s) ← fixed_digits 2 s;
  '(ms, s) ←
    match s with
    | String "." r => fixed_digits 3 r
    | _ => Some (0, s)
    end;
  if String.eqb s "Z"
     && (1 <=? m) && (m <=? 12) && (1 <=? d) && (d <=? 31)
     && ((h <=? 23) || (h =? 24) && (mi =? 0) && (sec =? 0) && (ms =? 0))
     && (mi <=? 59) && (sec <=? 59)
  then Some ((((days_from_civil y m d * 24 + h) * 60 + mi) * 60 + sec) * 1000 + ms)
  else None.

End Reference.

(** ** Fixtures for the examples *)

Module Fixtures.

(** A text with its apostrophes turned into double quotes. *)
Fixpoint quoted (s : string) : string :=
  match s with
  | EmptyString => EmptyString
  | String c rest => String (if Ascii.eqb c "'" then "034"%char else c) (quoted rest)
  end.

Definition record (id createdAt text : string) : json :=
  JObj [("id", JStr id); ("createdAt", JStr createdAt);
        ("seconds", JNum (NFrac false 125 1)); ("text", JStr text)].

Definition old_record : json := record "a1" "2020-05-17T08:30:00.000Z" "first".
Definition boundary_record : json := record "b2" "2024-01-31T00:00:00.000Z" "second".
Definition undated_record : json := record "c3" "yesterday" "third".
Definition recent_record : json := record "d4" "2024-02-20T12:00:00Z" "fourth".

Definition history_text : string :=
  quoted "[
  {'id': 'a1', 'createdAt': '2020-05-17T08:30:00.000Z', 'seconds': 12.5, 'text': 'first'},
  {'id': 'b2', 'createdAt': '2024-01-31T00:00:00.000Z', 'seconds': 12.5, 'text': 'second'},
  {'id': 'c3', 'createdAt': 'yesterday', 'seconds': 12.5, 'text': 'third'},
  {'id': 'd4', 'createdAt': '2024-02-20T12:00:00Z', 'seconds': 12.5, 'text': 'fourth'}
]".

(** A disk with four records and a retention of thirty days. *)
Definition disk : FS :=
  <["/app/history" := Dir]>
  (<["/app/history/history.json" := File history_text]>
  (<["/app/history/settings.json" := File (quoted "{'historyRetentionDays': 30}")]> ∅)).

(** The same disk with a history of two records, the second of which
    has an object with a member named [toString] as its [createdAt]. *)
Definition poisoned_disk : FS :=
  <["/app/history/history.json" :=
      File (quoted
              "[{'id': 'a1', 'createdAt': '2020-05-17T08:30:00.000Z'},
 {'id': 'b2', 'createdAt': {'toString': 1}}]")]> disk.

(** The same disk with a history document that is not JSON. *)
Definition truncated_disk : FS :=
  <["/app/history/history.json" := File (quoted "[{'id': 'a1', 'crea")]> disk.

(** 2024-03-01T00:00:00Z, thirty days after the [createdAt] of
    [boundary_record]. *)
Definition now : Z := 1709251200000.

Definition argv : list string := ["node"; "/app/scripts/prune-history.mjs"].

(** A [200] response with the given body. *)
Definition ok_response (body : string) : Page.response :=
  {| Page.ok := true; Page.http_status := 200;
     Page.json_body := Reference.JSON_parse body;
     Page.text_body := Normal body |}.

(** The state in which the component mounts. *)
Definition mounted : Page.state :=
  {| Page.status := Status.idle; Page.error := None;
     Page.backendOk := None;
     Page.backendState := BackendState.offline;
     Page.backendMessage := JStr EmptyString;
     Page.backendPhases := JArr [];
     Page.backendPhaseIndex := NInt 0;
     Page.backendStartedAt := None;
     Page.backendUptime := None;
     Page.backendPid := None;
     Page.backendProgress := NInt 0 |}.

(** A body whose [status] says loading while its [ready] is true. *)
Definition loading_but_ready : string :=
  quoted "{'status': 'loading', 'ready': true, 'recording': false}".

(** The prune script as the child of the launcher: [node] run on the
    script with the reference host functions, at the time [now]. *)
Definition run_prune_script (command : string) (args : list string) (fs : FS)
    : FS * option Z :=
  (PruneHistory.disk_after Reference.JSON_parse Reference.JSON_stringify
     Reference.Date_parse "/app/history" (command :: args) now fs,
   Some (PruneHistory.exit_code Reference.JSON_parse Reference.JSON_stringify
           Reference.Date_parse "/app/history" (command :: args) now fs)).

(** A disk whose settings hold the given JSON text as the retention. *)
Definition settings_with (value : string) : FS :=
  {[ "/app/history/settings.json" :=
       File (quoted "{'historyRetentionDays': " +:+ value +:+ "}") ]}.

End Fixtures.

(** ** More of the disk *)

(** The paths a call can change. *)
Definition targets (op : fs_op) : list string :=
  match op with
  | mkdirSync_recursive p => [p]
  | writeFileSync p _ => [p]
  | renameSync oldPath newPath => [oldPath; newPath]
  end.

(** ** The launcher's child *)

(** [node] run on the prune script at the time [now], as the child
    of the launcher's [spawnSync]: what it leaves on the disk and its
    exit status. *)
Definition prune_child (JSON_parse : string -> completion json)
    (JSON_stringify : json -> string) (Date_parse : string -> option Z)
    (historyDir : string) (now : Z)
    (command : string) (args : list string) (fs : FS) : FS * option Z :=
  (PruneHistory.disk_after JSON_parse JSON_stringify Date_parse historyDir
     (command :: args) now fs,
   Some (PruneHistory.exit_code JSON_parse JSON_stringify Date_parse historyDir
           (command :: args) now fs)).

(** ** [scripts/dev-all.mjs] *)

Module DevAll.

(** How the request of [checkHealth] ends: with a response whose body
    has been received, with the [timeout] event, or with the [error]
    event. *)
Inductive probe :=
  | responded (statusCode : Z) (body : string)
  | timed_out
  | failed.

(** What [checkHealth] resolves with. *)
Record health := {
  ok : bool;
  status : Z;
  timeout : bool;
}.

(** What the script does, in order. *)
Inductive event :=
  | console_log (text : string)
  | runCommand (command : string).

(** [value === true] *)
Definition is_true (value : jsval) : bool :=
  match value with
  | Some (JBool true) => true
  | _ => false
  end.

Section Script.

Variable JSON_parse : string -> completion json.

(** The base address of the backend. *)
Variable backendBase : string.

Definition checkHealth (p : probe) : health :=
  match p with
  | responded statusCode body =>
      try_catch
        (data ← JSON_parse body;
         healthy ←
           (if statusCode =? 200 then
              member ← get (Some data) "ok";
              Normal (is_true member)
            else Normal false);
         Normal {| ok := healthy; status := statusCode; timeout := false |})
        (fun _ => {| ok := false; status := statusCode; timeout := false |})
  | timed_out => {| ok := false; status := 0; timeout := true |}
  | failed => {| ok := false; status := 0; timeout := false |}
  end.

Definition frontend : string := "npm run dev".

Definition backend_and_frontend : string :=
  Fixtures.quoted
    "npx concurrently -k -n BACKEND,FRONTEND -c auto 'npm run dev:backend' 'npm run dev'".

(** The body of the script, once the request has ended. *)
Definition main (p : probe) : list event :=
  if ok (checkHealth p) then
    [console_log ("[dev:all] Backend already running at " +:+ backendBase
                  +:+ ". Starting frontend only.");
     runCommand frontend]
  else [runCommand backend_and_frontend].

End Script.

End DevAll.

(** ** More of the page component: history and [stop] *)

(** [s] is white space only. *)
Definition blank (s : string) : bool := String.eqb (trim_start s) EmptyString.

(** [s.trimEnd()] *)
Fixpoint trimEnd (s : string) : string :=
  match s with
  | EmptyString => EmptyString
  | String c rest => if blank s then EmptyString else String c (trimEnd rest)
  end.

(** [s.trim()] *)
Definition trim (s : string) : string := trimEnd (trim_start s).

(** [haystack.includes(needle)] *)
Fixpoint includes (haystack needle : string) : bool :=
  String.prefix needle haystack
  || match haystack with
     | EmptyString => false
     | String _ rest => includes rest needle
     end.

(** The handlers of the component that the model of [checkHealth] and
    [start] leaves out. A handler is run to its end from the state it
    was created in, no other handler running in between; the body of a
    response has the type the handler casts it to, and reading it at
    that type may throw. *)
Module Component.

Definition HISTORY_PAGE : nat := 5.

Record TranscriptItem := {
  id : string;
  createdAt : string;
  seconds : number;
  text : string;
}.

(** The state of the component: the part that [checkHealth] and
    [start] set, and the transcript, the history and the toggles. The
    counters are whole numbers. *)
Record view := {
  page : Page.state;
  transcript : string;
  history : list TranscriptItem;
  historyTotal : Z;
  historyOffset : Z;
  historyLoading : bool;
  historyAll : list TranscriptItem;
  historyAllLoading : bool;
  historyAllError : option string;
  historyAllLoaded : bool;
  historyFilterText : string;
  historyFilterFrom : string;
  historyFilterTo : string;
  autoCopy : bool;
  appendMode : bool;
}.

(** A settled [fetch]. [json_body] is [await r.json()] with the
    reads of its members, at the type the handler gives them. *)
Record response (A : Type) := {
  ok : bool;
  http_status : Z;
  json_body : completion A;
  text_body : completion string;
}.
Arguments ok {A} r.
Arguments http_status {A} r.
Arguments json_body {A} r.
Arguments text_body {A} r.

(** The body of [GET /history] and of [GET /history/all]: [items] and
    [total], each of which may be missing. *)
Record history_data := {
  data_items : option (list TranscriptItem);
  data_total : option Z;
}.

(** The body of [POST /stop]: [text] and [item], each of which may be
    missing. *)
Record stop_data := {
  data_text : option string;
  data_item : option TranscriptItem;
}.

(** What a handler does besides setting state, in order. *)
Inductive effect :=
  | GET_health
  | POST_start
  | POST_stop
  | GET_history (limit : nat) (offset : Z)
  | GET_history_all
  | DELETE_history (itemId : string)
  | clipboard_writeText (data : string)
  | insertIntoFocusedField_call (data : string)
  | focus_transcript.

Definition set_page (f : Page.state -> Page.state) (v : view) : view :=
  {| page := f (page v); transcript := transcript v; history := history v;
     historyTotal := historyTotal v; historyOffset := historyOffset v;
     historyLoading := historyLoading v; historyAll := historyAll v;
     historyAllLoading := historyAllLoading v; historyAllError := historyAllError v;
     historyAllLoaded := historyAllLoaded v;
     historyFilterText := historyFilterText v; historyFilterFrom := historyFilterFrom v;
     historyFilterTo := historyFilterTo v;
     autoCopy := autoCopy v; appendMode := appendMode v |}.

Definition set_transcript (t : string) (v : view) : view :=
  {| page := page v; transcript := t; history := history v;
     historyTotal := historyTotal v; historyOffset := historyOffset v;
     historyLoading := historyLoading v; historyAll := historyAll v;
     historyAllLoading := historyAllLoading v; historyAllError := historyAllError v;
     historyAllLoaded := historyAllLoaded v;
     historyFilterText := historyFilterText v; historyFilterFrom := historyFilterFrom v;
     historyFilterTo := historyFilterTo v;
     autoCopy := autoCopy v; appendMode := appendMode v |}.

(** The history, its total and its offset, set together. *)
Definition set_history (h : list TranscriptItem) (total offset : Z) (v : view) : view :=
  {| page := page v; transcript := transcript v; history := h;
     historyTotal := total; historyOffset := offset;
     historyLoading := historyLoading v; historyAll := historyAll v;
     historyAllLoading := historyAllLoading v; historyAllError := historyAllError v;
     historyAllLoaded := historyAllLoaded v;
     historyFilterText := historyFilterText v; historyFilterFrom := historyFilterFrom v;
     historyFilterTo := historyFilterTo v;
     autoCopy := autoCopy v; appendMode := appendMode v |}.

Definition set_historyLoading (b : bool) (v : view) : view :=
  {| page := page v; transcript := transcript v; history := history v;
     historyTotal := historyTotal v; historyOffset := historyOffset v;
     historyLoading := b; historyAll := historyAll v;
     historyAllLoading := historyAllLoading v; historyAllError := historyAllError v;
     historyAllLoaded := historyAllLoaded v;
     historyFilterText := historyFilterText v; historyFilterFrom := historyFilterFrom v;
     historyFilterTo := historyFilterTo v;
     autoCopy := autoCopy v; appendMode := appendMode v |}.

(** The full history with its flags. *)
Definition set_historyAll (items : list TranscriptItem) (loading : bool)
    (err : option string) (loaded : bool) (v : view) : view :=
  {| page := page v; transcript := transcript v; history := history v;
     historyTotal := historyTotal v; historyOffset := historyOffset v;
     historyLoading := historyLoading v; historyAll := items;
     historyAllLoading := loading; historyAllError := err;
     historyAllLoaded := loaded;
     historyFilterText := historyFilterText v; historyFilterFrom := historyFilterFrom v;
     historyFilterTo := historyFilterTo v;
     autoCopy := autoCopy v; appendMode := appendMode v |}.

(** [if (!r.ok) throw new Error(...)], then the body: the [throw] when
    the response is not OK carries [message r]. *)
Definition body_or_throw {A} (fetched : completion (response A))
    (message : response A -> completion string) : completion A :=
  r ← fetched;
  if negb (ok r) then
    msg ← message r;
    Throw (Error msg)
  else json_body r.

(** [msg || `what failed (${r.status})`], with [msg] the text of the
    response. *)
Definition text_or_status {A} (what : string) (r : response A) : completion string :=
  msg ← text_body r;
  Normal (if String.eqb msg EmptyString
          then what +:+ " failed (" +:+ number_to_string (NInt (http_status r)) +:+ ")"
          else msg).

(** [loadHistory(reset)]; [fetched] is how the request settles, if it
    is made. *)
Definition loadHistory (reset : bool) (fetched : completion (response history_data))
    (v : view) : view * list effect :=
  if historyLoading v then (v, [])
  else
    let offset := if reset then 0 else historyOffset v in
    let loaded :=
      data ← body_or_throw fetched (fun _ => Normal "Failed to load history");
      let items := default [] (data_items data) in
      let total := default 0 (data_total data) in
      Normal
        (if reset then set_history items total (Z.of_nat (length items)) v
         else set_history (history v ++ items) total
                (historyOffset v + Z.of_nat (length items)) v) in
    (set_historyLoading false (try_catch loaded (fun _ => v)),
     [GET_history HISTORY_PAGE offset]).

(** [loadAllHistory()] *)
Definition loadAllHistory (fetched : completion (response history_data)) (v : view)
    : view * list effect :=
  if historyAllLoading v then (v, [])
  else
    let loaded :=
      data ← body_or_throw fetched (fun _ => Normal "Failed to load history");
      let items := default [] (data_items data) in
      Normal
        (set_historyAll items false None true
           (set_history (history v)
              (default (Z.of_nat (length items)) (data_total data))
              (historyOffset v) v)) in
    (try_catch loaded
       (fun e => set_historyAll (historyAll v) false (Some (exn_message e))
                   (historyAllLoaded v) v),
     [GET_history_all]).

Definition without (itemId : string) (items : list TranscriptItem) : list TranscriptItem :=
  List.filter (fun item => negb (String.eqb (id item) itemId)) items.

(** [deleteHistoryItem(itemId)]; [deleted] is how the [DELETE] settles
    and [reloaded] how the request of the [loadHistory(true)] that
    follows does. *)
Definition deleteHistoryItem (itemId : string) (deleted : completion (response unit))
    (reloaded : completion (response history_data)) (v : view) : view * list effect :=
  match body_or_throw
          (r ← deleted;
           Normal {| ok := ok r; http_status := http_status r;
                     json_body := Normal tt; text_body := text_body r |})
          (text_or_status "Delete") with
  | Throw e =>
      (set_historyAll (historyAll v) (historyAllLoading v) (Some (exn_message e))
         (historyAllLoaded v) v,
       [DELETE_history itemId])
  | Normal _ =>
      let v :=
        set_history (without itemId (history v))
          (Z.max (historyTotal v - 1) 0) (Z.max (historyOffset v - 1) 0) v in
      let v :=
        if historyAllLoaded v
        then set_historyAll (without itemId (historyAll v)) (historyAllLoading v)
               (historyAllError v) (historyAllLoaded v) v
        else v in
      let '(v, sent) := loadHistory true reloaded v in
      (v, DELETE_history itemId :: sent)
  end.

Definition fail (e : exn) (v : view) : view :=
  set_page (Page.set_status_error Status.error (Some (JStr (exn_message e)))) v.

(** The request was answered with an OK response whose body reads as
    [data]. *)
Definition answered {A} (fetched : completion (response A)) (data : A) : Prop :=
  exists r, fetched = Normal r /\ ok r = true /\ json_body r = Normal data.

(** [stop()]; [fetched] is how [POST /stop] settles and [inserting] what
    [insertIntoFocusedField] returns or throws, if it is called. *)
Definition stop (fetched : completion (response stop_data)) (inserting : completion bool)
    (v : view) : view * list effect :=
  let v := set_page (Page.set_status_error Status.transcribing None) v in
  match body_or_throw fetched (text_or_status "stop") with
  | Throw e => (fail e v, [POST_stop])
  | Normal data =>
      let text := default EmptyString (data_text data) in
      let has_text := negb (String.eqb text EmptyString) in
      let v :=
        if negb has_text then set_transcript text v
        else if appendMode v then
          let base := trimEnd (transcript v) in
          let spacer := if String.eqb base EmptyString then EmptyString else " " in
          set_transcript (base +:+ spacer +:+ text) v
        else set_transcript text v in
      let v :=
        match data_item data with
        | Some item =>
            let v :=
              set_history (take HISTORY_PAGE (item :: history v))
                (historyTotal v + 1) (historyOffset v + 1) v in
            if historyAllLoaded v
            then set_historyAll (item :: historyAll v) (historyAllLoading v)
                   (historyAllError v) (historyAllLoaded v) v
            else v
        | None => v
        end in
      let v := set_page (Page.set_status_error Status.idle (Page.error (page v))) v in
      let sent :=
        POST_stop
        :: (if autoCopy v && has_text then [clipboard_writeText text] else [])
        ++ (if has_text then [insertIntoFocusedField_call text] else []) in
      match (if has_text then inserting else Normal false) with
      | Throw e => (fail e v, sent)
      | Normal inserted => (v, sent ++ (if inserted then [] else [focus_transcript]))
      end
  end.

Definition of_page_request (r : Page.request) : effect :=
  match r with
  | Page.GET_health => GET_health
  | Page.POST_start => POST_start
  end.

(** [start()], on the whole state. *)
Definition start (health_fetched start_fetched : completion Page.response) (v : view)
    : view * list effect :=
  let '(s, sent) := Page.start health_fetched start_fetched (page v) in
  (set_page (fun _ => s) v, map of_page_request sent).

(** [toggle()] *)
Definition toggle (health_fetched start_fetched : completion Page.response)
    (stop_fetched : completion (response stop_data)) (inserting : completion bool)
    (v : view) : view * list effect :=
  match Page.status (page v) with
  | Status.recording => stop stop_fetched inserting v
  | Status.idle | Status.error => start health_fetched start_fetched v
  | Status.transcribing => (v, [])
  end.

(** [summaryHistory] *)
Definition summaryHistory (v : view) : list TranscriptItem :=
  take HISTORY_PAGE (history v).

(** *** [formatPhaseLabel] *)

(** [\w] *)
Definition is_word (c : ascii) : bool :=
  let n := N_of_ascii c in
  ((48 <=? n) && (n <=? 57) || (65 <=? n) && (n <=? 90)
   || (97 <=? n) && (n <=? 122) || (n =? 95))%N.

(** [c.toUpperCase()] on a character that [\w] matches. *)
Definition toUpperCase_word (c : ascii) : ascii :=
  let n := N_of_ascii c in
  if ((97 <=? n) && (n <=? 122))%N then ascii_of_N (n - 32) else c.

(** [phase.replace(/_/g, " ")] *)
Fixpoint replace_underscores (phase : string) : string :=
  match phase with
  | EmptyString => EmptyString
  | String c rest =>
      String (if Ascii.eqb c "_" then " "%char else c) (replace_underscores rest)
  end.

(** [s.replace(/\b\w/g, (c) => c.toUpperCase())]; [inside] tells
    whether the character before [s] is one that [\w] matches. *)
Fixpoint capitalize_words (inside : bool) (s : string) : string :=
  match s with
  | EmptyString => EmptyString
  | String c rest =>
      String (if is_word c && negb inside then toUpperCase_word c else c)
        (capitalize_words (is_word c) rest)
  end.

Definition formatPhaseLabel (phase : string) : string :=
  capitalize_words false (replace_underscores phase).

(** *** [filteredHistory] *)

Section Filter.

(** The time value of [new Date(text)], [None] for an invalid date. *)
Variable Date_parse : string -> option Z.

(** [text.toLowerCase()] *)
Variable toLowerCase : string -> string.

(** [a < b] on two dates. *)
Definition before (a b : option Z) : bool :=
  match a, b with
  | Some x, Some y => x <? y
  | _, _ => false
  end.

(** [historyFilterFrom ? new Date(`${historyFilterFrom}T00:00:00`) : null],
    and the same for the other bound. *)
Definition bound (field suffix : string) : option (option Z) :=
  if String.eqb field EmptyString then None
  else Some (Date_parse (field +:+ suffix)).

Definition passes (query : string) (fromDate toDate : option (option Z))
    (item : TranscriptItem) : bool :=
  if negb (String.eqb query EmptyString) && negb (includes (toLowerCase (text item)) query)
  then false
  else
    let created := Date_parse (createdAt item) in
    if match fromDate with Some d => before created d | None => false end then false
    else if match toDate with Some d => before d created | None => false end then false
    else true.

Definition filteredHistory (v : view) : list TranscriptItem :=
  let query := toLowerCase (trim (historyFilterText v)) in
  let fromDate := bound (historyFilterFrom v) "T00:00:00" in
  let toDate := bound (historyFilterTo v) "T23:59:59.999" in
  List.filter (passes query fromDate toDate) (historyAll v).

End Filter.

End Component.

(** ** More fixtures *)

Module MoreFixtures.

(** The disk of [Fixtures.disk] after a run that died in its write: the
    temporary file holds the first character of the new document. *)
Definition crashed_disk : FS :=
  <["/app/history/history.json.tmp" := File "["]> Fixtures.disk.

(** A disk whose [settings.json] holds the given text. *)
Definition settings_text (text : string) : FS :=
  {[ "/app/history/settings.json" := File text ]}.

(** The component as it mounts, with the given transcript and summary
    history. *)
Definition opened (transcript : string) (history : list Component.TranscriptItem)
    : Component.view :=
  {| Component.page := Fixtures.mounted;
     Component.transcript := transcript;
     Component.history := history;
     Component.historyTotal := Z.of_nat (length history);
     Component.historyOffset := Z.of_nat (length history);
     Component.historyLoading := false;
     Component.historyAll := [];
     Component.historyAllLoading := false;
     Component.historyAllError := None;
     Component.historyAllLoaded := false;
     Component.historyFilterText := EmptyString;
     Component.historyFilterFrom := EmptyString;
     Component.historyFilterTo := EmptyString;
     Component.autoCopy := true;
     Component.appendMode := true |}.

(** The same with the session in the given status. *)
Definition in_status (st : Status.t) (v : Component.view) : Component.view :=
  Component.set_page (Page.set_status_error st None) v.

(** The same with the full history loaded. *)
Definition with_all (items : list Component.TranscriptItem) (v : Component.view)
    : Component.view :=
  Component.set_historyAll items false None true v.

(** The same with the filters of the full history set. *)
Definition filtered_by (query fromDay toDay : string) (v : Component.view)
    : Component.view :=
  {| Component.page := Component.page v;
     Component.transcript := Component.transcript v;
     Component.history := Component.history v;
     Component.historyTotal := Component.historyTotal v;
     Component.historyOffset := Component.historyOffset v;
     Component.historyLoading := Component.historyLoading v;
     Component.historyAll := Component.historyAll v;
     Component.historyAllLoading := Component.historyAllLoading v;
     Component.historyAllError := Component.historyAllError v;
     Component.historyAllLoaded := Component.historyAllLoaded v;
     Component.historyFilterText := query;
     Component.historyFilterFrom := fromDay;
     Component.historyFilterTo := toDay;
     Component.autoCopy := Component.autoCopy v;
     Component.appendMode := Component.appendMode v |}.

Definition item (id createdAt text : string) : Component.TranscriptItem :=
  {| Component.id := id; Component.createdAt := createdAt;
     Component.seconds := NInt 2; Component.text := text |}.

Definition five_items : list Component.TranscriptItem :=
  [item "e5" "2024-02-25T10:00:00Z" "fifth"; item "d4" "2024-02-20T12:00:00Z" "fourth";
   item "c3" "yesterday" "third"; item "b2" "2024-01-31T00:00:00Z" "second";
   item "a1" "2020-05-17T08:30:00Z" "first"].

(** A [200] response with the given body. *)
Definition ok_with {A} (data : A) : Component.response A :=
  {| Component.ok := true; Component.http_status := 200;
     Component.json_body := Normal data; Component.text_body := Normal EmptyString |}.

(** A response with the given status and text, which is not OK. *)
Definition refused {A} (status : Z) (text : string) : Component.response A :=
  {| Component.ok := false; Component.http_status := status;
     Component.json_body := Throw (SyntaxError "Unexpected token");
     Component.text_body := Normal text |}.

(** [Date.parse] where the local time is universal time: a date-time
    without the [Z] is read as one with it. *)
Definition Date_parse_utc (text : string) : option Z :=
  match Reference.Date_parse text with
  | Some t => Some t
  | None => Reference.Date_parse (text +:+ "Z")
  end.

(** [toLowerCase] on ASCII text. *)
Fixpoint lower (s : string) : string :=
  match s with
  | EmptyString => EmptyString
  | String c rest =>
      let n := N_of_ascii c in
      String (if ((65 <=? n) && (n <=? 90))%N then ascii_of_N (n + 32) else c) (lower rest)
  end.

End MoreFixtures.

(** * Properties *)

#[local] Arguments String.append !_ _ /.

Import PruneHistory Fixtures.

(** ** Numbers and their text *)

Lemma strip_trailing_zeros_pad (s : string) :
  strip_trailing_zeros s
    +:+ zeros (String.length s - String.length (strip_trailing_zeros s))
  = s.
Proof.
  induction s as [|c rest IH]; [reflexivity|].
  cbn [strip_trailing_zeros].
  destruct (strip_trailing_zeros rest) as [|c' rest'] eqn:Hrest.
  - assert (zeros (String.length rest) = rest) as Hz.
    { rewrite <- IH at 2. simpl. f_equal. lia. }
    destruct (Ascii.eqb c "0") eqn:Hc.
    + apply Ascii.eqb_eq in Hc as ->. simpl. by rewrite Hz.
    + simpl. replace (String.length rest - 0)%nat with (String.length rest) by lia.
      by rewrite Hz.
  - simpl in *. by rewrite IH.
Qed.

Lemma strip_trailing_zeros_length (s : string) :
  (String.length (strip_trailing_zeros s) <= String.length s)%nat.
Proof.
  induction s as [|c rest IH]; [done|].
  cbn [strip_trailing_zeros].
  destruct (strip_trailing_zeros rest); [destruct (Ascii.eqb c "0")|]; cbn in *; lia.
Qed.

Lemma leading_digits_string_of_uint (d : Decimal.uint) :
  leading_digits (NilEmpty.string_of_uint d) = d.
Proof. induction d; cbn; by f_equal. Qed.

Lemma to_uint_nonnil (m : N) : N.to_uint m ≠ Decimal.Nil.
Proof. destruct m; [done|]. apply DecimalPos.Unsigned.to_uint_nonnil. Qed.

Lemma digits_of_N_alt (m : N) :
  digits_of_N m = NilEmpty.string_of_uint (N.to_uint m).
Proof.
  unfold digits_of_N, NilZero.string_of_uint.
  pose proof (to_uint_nonnil m). by destruct (N.to_uint m).
Qed.

(** The text of a natural number reads back as that number. *)
Lemma parseInt_digits (m : N) : parseInt (digits_of_N m) = Some (Z.of_N m).
Proof.
  rewrite digits_of_N_alt.
  pose proof (DecimalN.Unsigned.of_to m) as Hof.
  pose proof (to_uint_nonnil m) as Hnil.
  destruct (N.to_uint m) as [|d|d|d|d|d|d|d|d|d|d] eqn:Hm; [done|..];
    unfold parseInt; cbn -[N.of_uint Z.mul];
    rewrite ?leading_digits_string_of_uint, Hof; f_equal; lia.
Qed.

Lemma parseInt_minus_digits (m : N) :
  parseInt ("-" +:+ digits_of_N m) = Some (- Z.of_N m).
Proof.
  rewrite digits_of_N_alt.
  pose proof (DecimalN.Unsigned.of_to m) as Hof.
  pose proof (to_uint_nonnil m) as Hnil.
  destruct (N.to_uint m) as [|d|d|d|d|d|d|d|d|d|d] eqn:Hm; [done|..];
    unfold parseInt; cbn -[N.of_uint Z.mul];
    rewrite ?leading_digits_string_of_uint, Hof; f_equal; lia.
Qed.

(** An integer of at most 21 digits prints as its digits. *)
Lemma number_to_string_integer (n : Z) :
  (String.length (digits_of_N (Z.abs_N n)) <= 21)%nat ->
  number_to_string (NInt n)
  = (if n <? 0 then "-" else "") +:+ digits_of_N (Z.abs_N n).
Proof.
  intros Hlen. destruct n as [|p|p]; [reflexivity|..];
    unfold number_to_string, number_to_string_digits;
    set (all := digits_of_N _) in *;
    pose proof (strip_trailing_zeros_length all);
    pose proof (strip_trailing_zeros_pad all) as Hpad;
    (case_bool_decide || idtac);
    (destruct (Z.leb_spec (Z.of_nat (String.length (strip_trailing_zeros all)))
                          (Z.of_nat (String.length all))); [|lia]);
    (destruct (Z.leb_spec (Z.of_nat (String.length all)) 21); [|lia]);
    cbn [andb];
    replace (Z.to_nat _) with
      (String.length all - String.length (strip_trailing_zeros all))%nat by lia;
    by rewrite Hpad.
Qed.

Lemma parseInt_integer (n : Z) :
  (String.length (digits_of_N (Z.abs_N n)) <= 21)%nat ->
  parseInt (number_to_string (NInt n)) = Some n.
Proof.
  intros Hlen. rewrite number_to_string_integer by done.
  destruct (Z.ltb_spec n 0).
  - rewrite parseInt_minus_digits. f_equal. lia.
  - change (parseInt (digits_of_N (Z.abs_N n)) = Some n).
    rewrite parseInt_digits. f_equal. lia.
Qed.

(** ** Paths *)

Lemma append_nil_r (s : string) : s +:+ "" = s.
Proof. induction s; simpl; by f_equal. Qed.

Lemma append_assoc (a b c : string) : (a +:+ b) +:+ c = a +:+ (b +:+ c).
Proof. induction a; simpl; by f_equal. Qed.

Lemma append_neq (s a b : string) : a ≠ b -> s +:+ a ≠ s +:+ b.
Proof. intros Hab Heq. by apply (inj (String.append s)) in Heq. Qed.

Lemma append_neq_self (s a : string) : a ≠ "" -> s ≠ s +:+ a.
Proof. intros Ha Heq. rewrite <- (append_nil_r s) in Heq at 1. by apply append_neq in Heq. Qed.

(** ** The retention setting *)

Section RetentionFacts.

Variable JSON_parse : string -> completion json.
Variable historyDir : string.

#[local] Abbreviation configured := (PruneHistory.configured JSON_parse historyDir).
#[local] Abbreviation resolveRetentionDays :=
  (PruneHistory.resolveRetentionDays JSON_parse historyDir).

Lemma resolveRetentionDays_text (fs : FS) (text : string) :
  String_ (nullish (configured fs) (Some (JNum (NInt DEFAULT_RETENTION_DAYS))))
    = Normal text ->
  resolveRetentionDays fs
  = Normal match parseInt text with
           | Some value =>
               if (1 <=? value) && (value <=? MAX_RETENTION_DAYS) then value
               else DEFAULT_RETENTION_DAYS
           | None => DEFAULT_RETENTION_DAYS
           end.
Proof.
  intros Htext. unfold PruneHistory.resolveRetentionDays. rewrite Htext. simpl.
  destruct (parseInt text) as [value|]; [|done].
  unfold MAX_RETENTION_DAYS.
  destruct (Z.ltb_spec value 1), (Z.leb_spec 1 value),
    (Z.gtb_spec value 3650), (Z.leb_spec value 3650); simpl; try done; lia.
Qed.

(** C7, as the code has it. The resolved retention is always within
    [1, 3650]. It is 60 when the key is missing or [null]. Otherwise it
    is read off the text form of the configured value by [parseInt]:
    the leading integer when that lies in [1, 3650], and 60 when there
    is no leading integer or it is below 1 or above 3650. For a JSON
    integer of at most 21 digits the leading integer is the integer
    itself, hence the configured integer in [1, 3650] and 60 outside. *)
Theorem resolveRetentionDays_bounded (fs : FS) :
  (forall days, resolveRetentionDays fs = Normal days ->
     1 <= days <= MAX_RETENTION_DAYS)
  /\ (configured fs = None \/ configured fs = Some JNull ->
      resolveRetentionDays fs = Normal DEFAULT_RETENTION_DAYS)
  /\ (forall value text,
        configured fs = Some value -> value ≠ JNull ->
        to_string value = Normal text ->
        resolveRetentionDays fs
        = Normal match parseInt text with
                 | Some n =>
                     if (1 <=? n) && (n <=? MAX_RETENTION_DAYS) then n
                     else DEFAULT_RETENTION_DAYS
                 | None => DEFAULT_RETENTION_DAYS
                 end)
  /\ (forall n,
        configured fs = Some (JNum (NInt n)) ->
        (String.length (digits_of_N (Z.abs_N n)) <= 21)%nat ->
        resolveRetentionDays fs
        = Normal (if (1 <=? n) && (n <=? MAX_RETENTION_DAYS) then n
                  else DEFAULT_RETENTION_DAYS)).
Proof.
  assert (Hvalue : forall value text,
    configured fs = Some value -> value ≠ JNull ->
    to_string value = Normal text ->
    resolveRetentionDays fs
    = Normal match parseInt text with
             | Some n =>
                 if (1 <=? n) && (n <=? MAX_RETENTION_DAYS) then n
                 else DEFAULT_RETENTION_DAYS
             | None => DEFAULT_RETENTION_DAYS
             end).
  { intros value text Hc Hnull Htext. apply resolveRetentionDays_text.
    rewrite Hc. by destruct value. }
  assert (Hbound : forall days, resolveRetentionDays fs = Normal days ->
            1 <= days <= MAX_RETENTION_DAYS).
  { intros days H. unfold PruneHistory.resolveRetentionDays in H.
    destruct (String_ _) as [text|e]; simpl in H; [|done].
    revert H. unfold MAX_RETENTION_DAYS, DEFAULT_RETENTION_DAYS.
    destruct (parseInt text) as [value|]; [|intros [= <-]; lia].
    destruct (Z.ltb_spec value 1), (Z.gtb_spec value 3650); simpl;
      intros [= <-]; lia. }
  split; [exact Hbound|]. split; [|split; [exact Hvalue|]].
  - intros Hc. rewrite (resolveRetentionDays_text fs "60"); [done|].
    by destruct Hc as [-> | ->].
  - intros n Hc Hlen.
    rewrite (Hvalue _ _ Hc ltac:(done) eq_refl).
    by rewrite parseInt_integer.
Qed.

End RetentionFacts.

Lemma resolveRetentionDays_bounded_witness :
  configured Reference.JSON_parse "/app/history" (settings_with "30")
    = Some (JNum (NInt 30))
  /\ resolveRetentionDays Reference.JSON_parse "/app/history" (settings_with "30")
     = Normal 30.
Proof.
  split; [reflexivity|].
  apply (proj2 (proj2 (proj2
    (resolveRetentionDays_bounded Reference.JSON_parse "/app/history"
       (settings_with "30")))) 30).
  - reflexivity.
  - vm_compute. lia.
Defined.

Lemma resolveRetentionDays_fraction_above_max :
  configured Reference.JSON_parse "/app/history" (settings_with "3650.5")
    = Some (JNum (NFrac false 36505 1))
  /\ number_above (NFrac false 36505 1) MAX_RETENTION_DAYS = true
  /\ resolveRetentionDays Reference.JSON_parse "/app/history" (settings_with "3650.5")
     = Normal 3650
  /\ 3650 <> DEFAULT_RETENTION_DAYS.
Proof. repeat split; vm_compute; congruence. Qed.


(** ** The filter of [prune] *)

Section PruneFacts.

Variable JSON_parse : string -> completion json.
Variable JSON_stringify : json -> string.
Variable Date_parse : string -> option Z.
Variable historyDir : string.

#[local] Abbreviation historyFile := (PruneHistory.historyFile historyDir).
#[local] Abbreviation settingsFile := (PruneHistory.settingsFile historyDir).
#[local] Abbreviation tempPath := (PruneHistory.tempPath historyDir).
#[local] Abbreviation readJson := (PruneHistory.readJson JSON_parse).
#[local] Abbreviation resolveRetentionDays :=
  (PruneHistory.resolveRetentionDays JSON_parse historyDir).
#[local] Abbreviation toTimestamp := (PruneHistory.toTimestamp Date_parse).
#[local] Abbreviation prune_callback := (PruneHistory.prune_callback Date_parse).
#[local] Abbreviation older_than := (PruneHistory.older_than Date_parse).
#[local] Abbreviation prune :=
  (PruneHistory.prune JSON_parse JSON_stringify Date_parse historyDir).
#[local] Abbreviation disk_after :=
  (PruneHistory.disk_after JSON_parse JSON_stringify Date_parse historyDir).
#[local] Abbreviation exit_code :=
  (PruneHistory.exit_code JSON_parse JSON_stringify Date_parse historyDir).
#[local] Abbreviation calls_succeed :=
  (PruneHistory.calls_succeed JSON_parse JSON_stringify Date_parse historyDir).

#[local] Abbreviation keeps := (PruneHistory.keeps Date_parse).
#[local] Abbreviation write_calls :=
  (PruneHistory.write_calls JSON_stringify historyDir).

Lemma prune_callback_spec (cutoffMs : Z) (item : json) (removed : Z) :
  match toTimestamp (opt_get (Some item) "createdAt") with
  | Throw e => prune_callback cutoffMs item removed = Throw e
  | Normal _ =>
      prune_callback cutoffMs item removed
      = Normal (keeps cutoffMs item,
                if keeps cutoffMs item then removed else removed + 1)
  end.
Proof.
  unfold PruneHistory.prune_callback, PruneHistory.keeps, PruneHistory.older_than.
  destruct (toTimestamp _) as [[createdAtMs|]|e]; simpl; try done.
  by destruct (createdAtMs <? cutoffMs).
Qed.

(** The filter keeps, in order, the records that are not older than the
    cutoff, and counts the others. *)
Lemma Array_filter_prune (cutoffMs : Z) (items kept : list json) (removed0 removed : Z) :
  Array_filter (prune_callback cutoffMs) items removed0 = Normal (kept, removed) ->
  kept = List.filter (keeps cutoffMs) items
  /\ removed = removed0 + Z.of_nat (length items - length kept)
  /\ (length kept <= length items)%nat.
Proof.
  revert kept removed0 removed.
  induction items as [|item rest IH]; intros kept removed0 removed.
  - intros [= <- <-]. simpl. split; [done|]. split; [lia|done].
  - simpl. pose proof (prune_callback_spec cutoffMs item removed0) as Hcb.
    destruct (toTimestamp _) as [t|e]; rewrite Hcb; simpl; [|done].
    destruct (Array_filter _ rest _) as [[kept' removed']|e] eqn:Hrest; simpl; [|done].
    apply IH in Hrest as (-> & -> & Hlen).
    destruct (keeps cutoffMs item); intros [= <- <-]; simpl.
    + split; [done|]. split; lia.
    + split; [done|]. split; lia.
Qed.

(** The filter throws only where a conversion to text does. *)
Lemma Array_filter_total (cutoffMs : Z) (items : list json) (removed0 : Z) :
  (forall item, In item items ->
     exists t, toTimestamp (opt_get (Some item) "createdAt") = Normal t) ->
  exists kept removed,
    Array_filter (prune_callback cutoffMs) items removed0 = Normal (kept, removed).
Proof.
  revert removed0. induction items as [|item rest IH]; intros removed0 Hall.
  - by eexists _, _.
  - simpl. pose proof (prune_callback_spec cutoffMs item removed0) as Hcb.
    destruct (Hall item) as [t Ht]; [by left|]. rewrite Ht in Hcb. rewrite Hcb. simpl.
    edestruct (IH (if keeps cutoffMs item then removed0 else removed0 + 1))
      as (kept & removed & ->); [intros; apply Hall; by right|].
    simpl. by eexists _, _.
Qed.

Lemma filter_length_lt (f : json -> bool) (items : list json) :
  (length (List.filter f items) < length items)%nat
  <-> exists item, In item items /\ f item = false.
Proof.
  induction items as [|item rest IH]; simpl.
  - split; [lia|]. by intros (? & [] & _).
  - pose proof (List.filter_length_le f rest).
    destruct (f item) eqn:Hf; simpl.
    + rewrite <- Nat.succ_lt_mono, IH. split.
      * intros (x & ? & ?). exists x. auto.
      * intros (x & [<-|?] & Hx); [congruence|]. by exists x.
    + split; [|lia]. intros _. exists item. auto.
Qed.

Lemma filter_length_eq (f : json -> bool) (items : list json) :
  length (List.filter f items) = length items -> List.filter f items = items.
Proof.
  induction items as [|item rest IH]; simpl; [done|].
  pose proof (List.filter_length_le f rest).
  destruct (f item); simpl; [|lia]. intros [= ?]. f_equal. auto.
Qed.

(** A call throws exactly when [exec_ops] stops short. *)
Lemma exec_error_None (ops : list fs_op) (fs : FS) :
  exec_error ops fs = None <-> snd (exec_ops ops fs) = true.
Proof.
  revert fs. induction ops as [|op rest IH]; intros fs; [done|].
  cbn [exec_error exec_ops]. by destruct (apply_op op fs).
Qed.

(** The run, once the history and the setting have been read and the
    filter has returned. *)
Lemma prune_filtered (argv : list string) (now : Z) (fs : FS)
    (history kept : list json) (days removed : Z) :
  existsSync fs historyFile = true ->
  readJson fs historyFile (JArr []) = JArr history ->
  resolveRetentionDays fs = Normal days ->
  Array_filter (prune_callback (cutoff now days)) history 0 = Normal (kept, removed) ->
  prune argv now fs
  = if removed =? 0 then
      {| result := Normal 0; console := [NothingOlder days]; effects := [] |}
    else if dryRun argv then
      {| result := Normal 0; console := [DryRunReport removed (length history) days];
         effects := [] |}
    else
      match exec_error (write_calls kept) fs with
      | Some e => {| result := Throw e; console := []; effects := write_calls kept |}
      | None =>
          {| result := Normal 0; console := [RemovedReport removed (length kept)];
             effects := write_calls kept |}
      end.
Proof.
  intros Hex Hread Hdays Hfilter. unfold PruneHistory.prune.
  by rewrite Hex, Hread, Hdays, Hfilter.
Qed.

(** The same for a run whose calls on the disk go through. *)
Lemma prune_written (argv : list string) (now : Z) (fs : FS)
    (history kept : list json) (days removed : Z) :
  existsSync fs historyFile = true ->
  readJson fs historyFile (JArr []) = JArr history ->
  resolveRetentionDays fs = Normal days ->
  Array_filter (prune_callback (cutoff now days)) history 0 = Normal (kept, removed) ->
  calls_succeed argv now fs ->
  prune argv now fs
  = if removed =? 0 then
      {| result := Normal 0; console := [NothingOlder days]; effects := [] |}
    else if dryRun argv then
      {| result := Normal 0; console := [DryRunReport removed (length history) days];
         effects := [] |}
    else
      {| result := Normal 0; console := [RemovedReport removed (length kept)];
         effects := write_calls kept |}.
Proof.
  intros Hex Hread Hdays Hfilter. unfold PruneHistory.calls_succeed.
  rewrite (prune_filtered argv now fs history kept days removed Hex Hread Hdays Hfilter).
  destruct (removed =? 0); [done|]. destruct (dryRun argv); [done|].
  destruct (exec_error (write_calls kept) fs) as [e|] eqn:Herror; [|done].
  cbn [effects]. intros Hok%exec_error_None. congruence.
Qed.

(** A run makes no call on the disk, or the three calls of a write. *)
Lemma prune_effects (argv : list string) (now : Z) (fs : FS) :
  effects (prune argv now fs) = []
  \/ exists history kept days removed,
       existsSync fs historyFile = true
       /\ readJson fs historyFile (JArr []) = JArr history
       /\ resolveRetentionDays fs = Normal days
       /\ Array_filter (prune_callback (cutoff now days)) history 0 = Normal (kept, removed)
       /\ removed <> 0
       /\ dryRun argv = false
       /\ effects (prune argv now fs) = write_calls kept
       /\ (snd (exec_ops (write_calls kept) fs) = true ->
           prune argv now fs
           = {| result := Normal 0; console := [RemovedReport removed (length kept)];
                effects := write_calls kept |})
       /\ (snd (exec_ops (write_calls kept) fs) = false ->
           exists e,
             prune argv now fs
             = {| result := Throw e; console := []; effects := write_calls kept |}).
Proof.
  destruct (existsSync fs historyFile) eqn:Hex;
    [|left; unfold PruneHistory.prune; by rewrite Hex].
  destruct (readJson fs historyFile (JArr [])) as [| | | |history|] eqn:Hread;
    try (left; unfold PruneHistory.prune; by rewrite Hex, Hread).
  destruct (resolveRetentionDays fs) as [days|e] eqn:Hdays;
    [|left; unfold PruneHistory.prune; by rewrite Hex, Hread, Hdays].
  destruct (Array_filter (prune_callback (cutoff now days)) history 0)
    as [[kept removed]|e] eqn:Hfilter;
    [|left; unfold PruneHistory.prune; by rewrite Hex, Hread, Hdays, Hfilter].
  rewrite (prune_filtered argv now fs history kept days removed Hex Hread Hdays Hfilter).
  destruct (Z.eqb_spec removed 0); [by left|].
  destruct (dryRun argv) eqn:Hdry; [by left|].
  right. exists history, kept, days, removed. repeat (split; [done|]).
  destruct (exec_error (write_calls kept) fs) as [e|] eqn:Herror.
  - split; [done|]. split.
    + intros Hok%exec_error_None. congruence.
    + intros _. by exists e.
  - split; [done|]. split; [done|].
    apply exec_error_None in Herror. congruence.
Qed.

(** ** The disk *)

Lemma historyDir_ne_historyFile : historyDir ≠ historyFile.
Proof. by apply append_neq_self. Qed.

Lemma historyDir_ne_settingsFile : historyDir ≠ settingsFile.
Proof. by apply append_neq_self. Qed.

Lemma historyFile_ne_tempPath : historyFile ≠ tempPath.
Proof. by apply append_neq_self. Qed.

Lemma settingsFile_ne_historyFile : settingsFile ≠ historyFile.
Proof. by apply append_neq. Qed.

Lemma settingsFile_ne_tempPath : settingsFile ≠ tempPath.
Proof.
  unfold PruneHistory.tempPath, PruneHistory.historyFile. rewrite append_assoc.
  by apply append_neq.
Qed.

Lemma readJson_lookup (fs fs' : FS) (p : string) (fallback : json) :
  fs' !! p = fs !! p -> readJson fs' p fallback = readJson fs p fallback.
Proof.
  intros Hp. unfold PruneHistory.readJson, existsSync, readFileSync. by rewrite Hp.
Qed.

Lemma readJson_file (fs : FS) (p : string) (fallback v : json) :
  readJson fs p fallback = v -> v ≠ fallback ->
  exists raw, fs !! p = Some (File raw) /\ JSON_parse raw = Normal v.
Proof.
  unfold PruneHistory.readJson, existsSync, readFileSync.
  destruct (fs !! p) as [[raw|]|]; simpl; try congruence.
  destruct (JSON_parse raw) as [v'|e] eqn:Hparse; simpl; try congruence.
  intros -> _. by exists raw.
Qed.

Lemma resolveRetentionDays_lookup (fs fs' : FS) :
  fs' !! settingsFile = fs !! settingsFile ->
  resolveRetentionDays fs' = resolveRetentionDays fs.
Proof.
  intros Hp. unfold PruneHistory.resolveRetentionDays, PruneHistory.configured.
  by rewrite (readJson_lookup fs fs').
Qed.

Lemma apply_mkdir_lookup (fs fs' : FS) (d p : string) :
  apply_op (mkdirSync_recursive d) fs = Some fs' -> d ≠ p -> fs' !! p = fs !! p.
Proof.
  simpl. destruct (fs !! d) as [[c|]|]; intros [= <-] Hne; try done.
  by rewrite lookup_insert_ne.
Qed.

Lemma apply_write_eq (fs fs' : FS) (p data : string) :
  apply_op (writeFileSync p data) fs = Some fs' -> fs' = <[p := File data]> fs.
Proof. simpl. destruct (fs !! p) as [[c|]|]; by intros [= <-]. Qed.

Lemma apply_rename_eq (fs fs' : FS) (a b : string) :
  apply_op (renameSync a b) fs = Some fs' ->
  exists n, fs !! a = Some n /\ fs' = <[b := n]> (delete a fs).
Proof.
  simpl. destruct (fs !! a) as [[c|]|], (fs !! b) as [[c'|]|];
    intros [= <-]; by eexists.
Qed.

(** What the three calls leave when none of them throws. *)
Lemma exec_write_calls (fs fs' : FS) (kept : list json) :
  exec_ops (write_calls kept) fs = (fs', true) ->
  fs' !! historyFile = Some (File (JSON_stringify (JArr kept)))
  /\ fs' !! settingsFile = fs !! settingsFile.
Proof.
  unfold PruneHistory.write_calls. cbn [exec_ops].
  destruct (apply_op (mkdirSync_recursive historyDir) fs) as [fs1|] eqn:H1; [|done].
  destruct (apply_op (writeFileSync tempPath _) fs1) as [fs2|] eqn:H2; [|done].
  destruct (apply_op (renameSync tempPath historyFile) fs2) as [fs3|] eqn:H3; [|done].
  intros [= <-].
  apply apply_write_eq in H2 as ->.
  apply apply_rename_eq in H3 as (n & Hn & ->).
  rewrite lookup_insert_eq in Hn. injection Hn as <-.
  split.
  - by rewrite lookup_insert_eq.
  - rewrite lookup_insert_ne by (apply not_eq_sym, settingsFile_ne_historyFile).
    rewrite lookup_delete_ne by (apply not_eq_sym, settingsFile_ne_tempPath).
    rewrite lookup_insert_ne by (apply not_eq_sym, settingsFile_ne_tempPath).
    apply (apply_mkdir_lookup _ _ _ _ H1), historyDir_ne_settingsFile.
Qed.

(** ** Pruning *)

Lemma prune_returns_filtered (argv : list string) (now : Z) (fs : FS)
    (history : list json) (days code : Z) :
  existsSync fs historyFile = true ->
  readJson fs historyFile (JArr []) = JArr history ->
  resolveRetentionDays fs = Normal days ->
  result (prune argv now fs) = Normal code ->
  exists removed,
    Array_filter (prune_callback (cutoff now days)) history 0
    = Normal (List.filter (keeps (cutoff now days)) history, removed)
    /\ removed = Z.of_nat (length history
                           - length (List.filter (keeps (cutoff now days)) history)).
Proof.
  intros Hex Hread Hdays. unfold PruneHistory.prune. rewrite Hex, Hread, Hdays. simpl.
  destruct (Array_filter _ history 0) as [[kept removed]|e] eqn:Hfilter; [|done].
  intros _. apply Array_filter_prune in Hfilter as (-> & -> & _). by eexists.
Qed.

Lemma older_than_spec (cutoffMs : Z) (item : json) :
  older_than cutoffMs item = true
  <-> exists createdAtMs,
        toTimestamp (opt_get (Some item) "createdAt") = Normal (Some createdAtMs)
        /\ createdAtMs < cutoffMs.
Proof.
  unfold PruneHistory.older_than.
  destruct (toTimestamp _) as [[createdAtMs|]|e].
  - rewrite Z.ltb_lt. split; [by exists createdAtMs|]. by intros (? & [= <-] & ?).
  - split; [done|]. by intros (? & [=] & _).
  - split; [done|]. by intros (? & [=] & _).
Qed.

(** C2. On a run without [--dry-run] that ends without an exception, the
    records left in the history document are exactly those of the
    collection that are not older than the cutoff, a record being older
    when its [createdAt] parses and lies strictly before [now] minus the
    retention: the document is rewritten with these records when some
    record is older, and the disk is untouched when none is. A record
    whose [createdAt] is the cutoff itself is kept. *)
Theorem prune_removes_exactly_the_expired (argv : list string) (now : Z) (fs : FS)
    (history : list json) (days : Z) :
  existsSync fs historyFile = true ->
  readJson fs historyFile (JArr []) = JArr history ->
  resolveRetentionDays fs = Normal days ->
  dryRun argv = false ->
  result (prune argv now fs) = Normal 0 ->
  calls_succeed argv now fs ->
  let kept := List.filter (keeps (cutoff now days)) history in
  (forall item,
     In item kept
     <-> In item history
         /\ ~ exists createdAtMs,
               toTimestamp (opt_get (Some item) "createdAt") = Normal (Some createdAtMs)
               /\ createdAtMs < cutoff now days)
  /\ (forall item,
        In item history ->
        toTimestamp (opt_get (Some item) "createdAt") = Normal (Some (cutoff now days)) ->
        In item kept)
  /\ ((kept = history /\ disk_after argv now fs = fs)
      \/ ((length kept < length history)%nat
          /\ disk_after argv now fs !! historyFile
             = Some (File (JSON_stringify (JArr kept))))).
Proof.
  intros Hex Hread Hdays Hdry Hres Hcalls kept.
  assert (Hkept : forall item,
    In item kept
    <-> In item history
        /\ ~ exists createdAtMs,
              toTimestamp (opt_get (Some item) "createdAt") = Normal (Some createdAtMs)
              /\ createdAtMs < cutoff now days).
  { intros item. unfold kept. rewrite List.filter_In. unfold PruneHistory.keeps.
    rewrite <- older_than_spec.
    destruct (older_than _ item); simpl; intuition congruence. }
  split; [exact Hkept|]. split.
  - intros item Hin Hat. apply Hkept. split; [done|].
    intros (createdAtMs & Hat' & Hlt). rewrite Hat in Hat'. injection Hat' as <-. lia.
  - destruct (prune_returns_filtered _ _ _ _ _ _ Hex Hread Hdays Hres)
      as (removed & Hfilter & Hremoved).
    pose proof (List.filter_length_le (keeps (cutoff now days)) history) as Hle.
    subst kept.
    pose proof (prune_written _ _ _ _ _ _ _ Hex Hread Hdays Hfilter Hcalls) as Hrun.
    unfold PruneHistory.calls_succeed in Hcalls. unfold PruneHistory.disk_after.
    rewrite Hrun in Hcalls |- *.
    rewrite Hdry in Hcalls |- *.
    destruct (Z.eqb_spec removed 0) as [Hzero|Hnonzero]; cbn [effects] in *.
    + left. split; [|done]. apply filter_length_eq. lia.
    + right. split; [lia|].
      destruct (exec_ops (write_calls _) fs) as [fs' ok] eqn:Hexec.
      cbn [fst snd] in *. subst ok. by apply exec_write_calls in Hexec as [? _].
Qed.

(** C4. A record whose [createdAt] does not parse passes the filter for
    every cutoff, and so for every retention setting: a run leaves the
    disk untouched, or writes a collection that holds the record. *)
Theorem prune_keeps_unparseable (argv : list string) (now : Z) (fs : FS)
    (history : list json) (item : json) :
  existsSync fs historyFile = true ->
  readJson fs historyFile (JArr []) = JArr history ->
  In item history ->
  toTimestamp (opt_get (Some item) "createdAt") = Normal None ->
  (forall cutoffMs removed,
     prune_callback cutoffMs item removed = Normal (true, removed))
  /\ ((effects (prune argv now fs) = [] /\ disk_after argv now fs = fs)
      \/ exists kept,
           In item kept /\ effects (prune argv now fs) = write_calls kept).
Proof.
  intros Hex Hread Hin Hat. split.
  - intros cutoffMs removed. unfold PruneHistory.prune_callback. by rewrite Hat.
  - unfold PruneHistory.disk_after.
    destruct (prune_effects argv now fs)
      as [->|(history' & kept & days & removed & _ & Hread' & _ & Hfilter & _ & _
               & Heffects & _)].
    + by left.
    + right. exists kept. split; [|done].
      rewrite Hread in Hread'. injection Hread' as <-.
      apply Array_filter_prune in Hfilter as (-> & _ & _).
      apply List.filter_In. split; [done|].
      unfold PruneHistory.keeps, PruneHistory.older_than. by rewrite Hat.
Qed.

(** A run returns when the setting and every [createdAt] have a text
    form and no call on the disk throws. *)
Lemma prune_returns (argv : list string) (now : Z) (fs : FS)
    (history : list json) (days : Z) :
  existsSync fs historyFile = true ->
  readJson fs historyFile (JArr []) = JArr history ->
  resolveRetentionDays fs = Normal days ->
  (forall item, In item history ->
     exists t, toTimestamp (opt_get (Some item) "createdAt") = Normal t) ->
  calls_succeed argv now fs ->
  result (prune argv now fs) = Normal 0.
Proof.
  intros Hex Hread Hdays Htotal Hcalls.
  destruct (Array_filter_total (cutoff now days) history 0 Htotal)
    as (kept & removed & Hfilter).
  rewrite (prune_written _ _ _ _ _ _ _ Hex Hread Hdays Hfilter Hcalls).
  by destruct (removed =? 0), (dryRun argv).
Qed.

(** The three calls go through when the directory is not a file and the
    temporary path is not a directory. *)
Lemma write_calls_succeed (fs : FS) (kept : list json) (old : string) :
  fs !! historyFile = Some (File old) ->
  (forall content, fs !! historyDir <> Some (File content)) ->
  fs !! tempPath <> Some Dir ->
  snd (exec_ops (write_calls kept) fs) = true.
Proof.
  intros Hold Hdir Htemp. unfold PruneHistory.write_calls. cbn [exec_ops].
  assert (exists fs1, apply_op (mkdirSync_recursive historyDir) fs = Some fs1
                      /\ fs1 !! historyFile = Some (File old)
                      /\ fs1 !! tempPath = fs !! tempPath) as (fs1 & -> & Hold1 & Htemp1).
  { cbn. destruct (fs !! historyDir) as [[content|]|] eqn:Hd.
    - by destruct (Hdir content).
    - by exists fs.
    - eexists. split; [done|].
      rewrite !lookup_insert_ne; [done|..].
      + unfold PruneHistory.tempPath. intros Heq.
        apply (append_neq_self historyDir ("/history.json" +:+ ".tmp")); [done|].
        by rewrite <- append_assoc.
      + apply historyDir_ne_historyFile. }
  assert (apply_op (writeFileSync tempPath (JSON_stringify (JArr kept))) fs1
          = Some (<[tempPath := File (JSON_stringify (JArr kept))]> fs1)) as ->.
  { cbn. rewrite Htemp1. by destruct (fs !! tempPath) as [[|]|]. }
  cbn [apply_op]. rewrite lookup_insert_eq.
  rewrite lookup_insert_ne by (apply not_eq_sym, historyFile_ne_tempPath).
  by rewrite Hold1.
Qed.

Lemma Array_filter_normal_inv (cutoffMs : Z) (items kept : list json)
    (removed0 removed : Z) :
  Array_filter (prune_callback cutoffMs) items removed0 = Normal (kept, removed) ->
  forall item, In item items ->
    exists t, toTimestamp (opt_get (Some item) "createdAt") = Normal t.
Proof.
  revert kept removed0 removed.
  induction items as [|first rest IH]; intros kept removed0 removed; [by intros _ ? []|].
  simpl. pose proof (prune_callback_spec cutoffMs first removed0) as Hcb.
  destruct (toTimestamp (opt_get (Some first) "createdAt")) as [t|e] eqn:Hfirst;
    rewrite Hcb; simpl; [|done].
  destruct (Array_filter _ rest _) as [[kept' removed']|e] eqn:Hrest; simpl; [|done].
  intros _ item [<-|Hin]; [by exists t|]. by eapply IH.
Qed.

(** A run over a collection in which no record is older than the cutoff
    reports so and makes no call on the disk. *)
Lemma prune_nothing_older (argv : list string) (now : Z) (fs : FS)
    (history : list json) (days : Z) :
  existsSync fs historyFile = true ->
  readJson fs historyFile (JArr []) = JArr history ->
  resolveRetentionDays fs = Normal days ->
  (forall item, In item history ->
     exists t, toTimestamp (opt_get (Some item) "createdAt") = Normal t) ->
  (forall item, In item history -> older_than (cutoff now days) item = false) ->
  prune argv now fs
  = {| result := Normal 0; console := [NothingOlder days]; effects := [] |}.
Proof.
  intros Hex Hread Hdays Htotal Hfresh.
  destruct (Array_filter_total (cutoff now days) history 0 Htotal)
    as (kept & removed & Hfilter).
  rewrite (prune_filtered _ _ _ _ _ _ _ Hex Hread Hdays Hfilter).
  apply Array_filter_prune in Hfilter as (-> & -> & Hlen).
  assert (~ (length (List.filter (keeps (cutoff now days)) history) < length history)%nat)
    as Hnot.
  { rewrite filter_length_lt. intros (item & Hin & Hkeeps).
    unfold PruneHistory.keeps in Hkeeps. by rewrite (Hfresh item Hin) in Hkeeps. }
  destruct (Z.eqb_spec (0 + Z.of_nat (length history
              - length (List.filter (keeps (cutoff now days)) history))) 0); [done|lia].
Qed.

(** What the three calls leave of the history document when one of
    them throws: the document as it was. *)
Lemma exec_write_calls_fail (fs : FS) (kept : list json) :
  snd (exec_ops (write_calls kept) fs) = false ->
  fst (exec_ops (write_calls kept) fs) !! historyFile = fs !! historyFile.
Proof.
  unfold PruneHistory.write_calls. cbn [exec_ops].
  destruct (apply_op (mkdirSync_recursive historyDir) fs) as [fs1|] eqn:H1; [|done].
  assert (Hfile1 : fs1 !! historyFile = fs !! historyFile)
    by apply (apply_mkdir_lookup _ _ _ _ H1), historyDir_ne_historyFile.
  destruct (apply_op (writeFileSync tempPath _) fs1) as [fs2|] eqn:H2; [|done].
  apply apply_write_eq in H2 as ->.
  destruct (apply_op (renameSync tempPath historyFile) _) as [fs3|] eqn:H3; [done|].
  intros _. cbn [fst].
  rewrite lookup_insert_ne by (apply not_eq_sym, historyFile_ne_tempPath). done.
Qed.

(** C10. A run calls the disk exactly when [--dry-run] is not given and
    the filter has dropped a record: the history file exists and reads
    as an array, the setting and every [createdAt] have a text form, and
    some record of the array is older than the cutoff. Such a run
    returns 0 exactly when none of its calls throws; when one does, the
    exception escapes, the exit code is 1 and the history document is as
    it was. A run that makes no call leaves the whole disk as it was;
    this is every other branch. A history document that reads as a JSON
    value other than an array makes [prune] return 1, the exit code,
    with no call on the disk; a history file that is not JSON at all is
    read as the empty collection: no call is made and the exit code is
    0 when the setting resolves. *)
Theorem prune_writes_iff (argv : list string) (now : Z) (fs : FS) :
  (effects (prune argv now fs) <> []
   <-> dryRun argv = false
       /\ exists history days,
            existsSync fs historyFile = true
            /\ readJson fs historyFile (JArr []) = JArr history
            /\ resolveRetentionDays fs = Normal days
            /\ (forall item, In item history ->
                  exists t, toTimestamp (opt_get (Some item) "createdAt") = Normal t)
            /\ exists item, In item history /\ older_than (cutoff now days) item = true)
  /\ (effects (prune argv now fs) <> [] ->
      (result (prune argv now fs) = Normal 0 <-> calls_succeed argv now fs)
      /\ (~ calls_succeed argv now fs ->
          (exists e, result (prune argv now fs) = Throw e)
          /\ exit_code argv now fs = 1
          /\ disk_after argv now fs !! historyFile = fs !! historyFile))
  /\ (effects (prune argv now fs) = [] -> disk_after argv now fs = fs)
  /\ (existsSync fs historyFile = false ->
      effects (prune argv now fs) = [] /\ exit_code argv now fs = 0)
  /\ (forall document,
        existsSync fs historyFile = true ->
        readJson fs historyFile (JArr []) = document ->
        (forall items, document <> JArr items) ->
        effects (prune argv now fs) = []
        /\ result (prune argv now fs) = Normal 1
        /\ exit_code argv now fs = 1
        /\ disk_after argv now fs = fs)
  /\ (forall raw e,
        fs !! historyFile = Some (File raw) ->
        JSON_parse raw = Throw e ->
        effects (prune argv now fs) = []
        /\ disk_after argv now fs = fs
        /\ forall days, resolveRetentionDays fs = Normal days -> exit_code argv now fs = 0).
Proof.
  split; [|split; [|split; [|split; [|split]]]].
  - split.
    + intros Hne.
      destruct (prune_effects argv now fs)
        as [?|(history & kept & days & removed & Hex & Hread & Hdays & Hfilter
               & Hremoved & Hdry & _)]; [done|].
      split; [done|]. exists history, days. repeat (split; [done|]).
      split; [by eapply Array_filter_normal_inv|].
      apply Array_filter_prune in Hfilter as (-> & -> & Hlen).
      destruct (proj1 (filter_length_lt (keeps (cutoff now days)) history))
        as (item & Hin & Hkeeps); [lia|].
      exists item. split; [done|]. unfold PruneHistory.keeps in Hkeeps.
      by destruct (older_than _ item).
    + intros (Hdry & history & days & Hex & Hread & Hdays & Htotal & item & Hin & Hold).
      destruct (Array_filter_total (cutoff now days) history 0 Htotal)
        as (kept & removed & Hfilter).
      rewrite (prune_filtered _ _ _ _ _ _ _ Hex Hread Hdays Hfilter), Hdry.
      apply Array_filter_prune in Hfilter as (-> & -> & Hlen).
      assert (length (List.filter (keeps (cutoff now days)) history) < length history)%nat.
      { apply filter_length_lt. exists item. split; [done|].
        unfold PruneHistory.keeps. by rewrite Hold. }
      destruct (Z.eqb_spec (0 + Z.of_nat (length history
                  - length (List.filter (keeps (cutoff now days)) history))) 0); [lia|].
      by destruct (exec_error _ fs).
  - intros Hne.
    destruct (prune_effects argv now fs)
      as [?|(history & kept & days & removed & _ & _ & _ & _ & _ & _
             & Heffects & Hok & Hfail)]; [done|].
    unfold PruneHistory.calls_succeed, PruneHistory.exit_code, PruneHistory.disk_after.
    rewrite Heffects.
    destruct (snd (exec_ops (write_calls kept) fs)) eqn:Hcalls.
    + rewrite (Hok eq_refl). cbn [result]. split; [done|]. by intros [].
    + destruct (Hfail eq_refl) as [e ->]. cbn [result]. split; [done|]. intros _.
      split; [by exists e|]. split; [done|]. by apply exec_write_calls_fail.
  - unfold PruneHistory.disk_after. by intros ->.
  - intros Hex. unfold PruneHistory.exit_code, PruneHistory.prune. by rewrite Hex.
  - intros document Hex Hread Harr.
    unfold PruneHistory.exit_code, PruneHistory.disk_after, PruneHistory.prune.
    rewrite Hex, Hread. destruct document; try done. by destruct (Harr items).
  - intros raw e Hfile Hparse.
    assert (Hex : existsSync fs historyFile = true)
      by (unfold existsSync; by rewrite Hfile).
    assert (Hread : readJson fs historyFile (JArr []) = JArr []).
    { unfold PruneHistory.readJson, readFileSync. rewrite Hex, Hfile. simpl.
      by rewrite Hparse. }
    assert (Hnone : effects (prune argv now fs) = []).
    { destruct (prune_effects argv now fs)
        as [?|(history & kept & days & removed & _ & Hread' & _ & Hfilter & Hremoved & _)];
        [done|].
      rewrite Hread in Hread'. injection Hread' as <-.
      injection Hfilter as <- <-. done. }
    split; [done|]. split; [unfold PruneHistory.disk_after; by rewrite Hnone|].
    intros days Hdays. unfold PruneHistory.exit_code.
    by rewrite (prune_nothing_older argv now fs [] days Hex Hread Hdays)
      by (by intros ? []).
Qed.

(** C3. A run that writes makes three calls: it makes sure of the
    directory, writes the whole kept collection to [history.json.tmp], a
    path other than that of the history document, and renames that file
    onto the document. If the process dies anywhere in these calls, also
    inside the write, the document holds its old text or the whole new
    one. *)
Theorem prune_replaces_atomically (argv : list string) (now : Z) (fs : FS) :
  effects (prune argv now fs) <> [] ->
  exists old history days,
    fs !! historyFile = Some (File old)
    /\ readJson fs historyFile (JArr []) = JArr history
    /\ resolveRetentionDays fs = Normal days
    /\ let kept := List.filter (keeps (cutoff now days)) history in
       let new := JSON_stringify (JArr kept) in
       effects (prune argv now fs)
       = [ mkdirSync_recursive historyDir;
           writeFileSync tempPath new;
           renameSync tempPath historyFile ]
       /\ tempPath <> historyFile
       /\ forall fs',
            crash_state fs (effects (prune argv now fs)) fs' ->
            fs' !! historyFile = Some (File old)
            \/ fs' !! historyFile = Some (File new).
Proof.
  intros Hne.
  destruct (prune_effects argv now fs)
    as [?|(history & kept & days & removed & Hex & Hread & Hdays & Hfilter
           & Hremoved & Hdry & Hrun & _)]; [done|].
  apply Array_filter_prune in Hfilter as (-> & -> & Hlen).
  destruct (readJson_file fs historyFile (JArr []) (JArr history) Hread)
    as (old & Hold & _).
  { intros [= ->]. simpl in Hremoved. lia. }
  exists old, history, days. do 3 (split; [done|]).
  intros kept new. rewrite Hrun. split; [done|].
  split; [apply not_eq_sym, historyFile_ne_tempPath|].
  intros fs' Hcrash. unfold PruneHistory.write_calls in Hcrash. fold kept new in Hcrash.
  inversion Hcrash as [| |? ? ? fs1 ? Hmk Hcrash1]; subst; [by left|].
  assert (Hold1 : fs1 !! historyFile = Some (File old)).
  { rewrite <- Hold. apply (apply_mkdir_lookup _ _ _ _ Hmk), historyDir_ne_historyFile. }
  inversion Hcrash1 as [|? ? ? written ? ? ? Hdir|? ? ? fs2 ? Hwr Hcrash2]; subst.
  - by left.
  - left. rewrite lookup_insert_ne; [done|]. apply not_eq_sym, historyFile_ne_tempPath.
  - apply apply_write_eq in Hwr as ->.
    inversion Hcrash2 as [| |? ? ? fs3 ? Hmv Hcrash3]; subst.
    + left. rewrite lookup_insert_ne; [done|]. apply not_eq_sym, historyFile_ne_tempPath.
    + apply apply_rename_eq in Hmv as (n & Hn & ->).
      rewrite lookup_insert_eq in Hn. injection Hn as <-.
      inversion Hcrash3; subst. right. by rewrite lookup_insert_eq.
Qed.


End PruneFacts.

(** ** The fixtures, run *)

#[local] Abbreviation ref_prune :=
  (PruneHistory.prune Reference.JSON_parse Reference.JSON_stringify
     Reference.Date_parse "/app/history").
#[local] Abbreviation ref_disk_after :=
  (PruneHistory.disk_after Reference.JSON_parse Reference.JSON_stringify
     Reference.Date_parse "/app/history").
#[local] Abbreviation ref_toTimestamp := (PruneHistory.toTimestamp Reference.Date_parse).

Lemma prune_removes_exactly_the_expired_witness :
  readJson Reference.JSON_parse disk (historyFile "/app/history") (JArr [])
    = JArr [old_record; boundary_record; undated_record; recent_record]
  /\ ref_toTimestamp (opt_get (Some boundary_record) "createdAt")
     = Normal (Some (cutoff now 30))
  /\ ref_disk_after argv now disk !! historyFile "/app/history"
     = Some (File (Reference.JSON_stringify
                     (JArr [boundary_record; undated_record; recent_record]))).
Proof.
  split; [reflexivity|]. split; [reflexivity|].
  pose proof (prune_removes_exactly_the_expired
                Reference.JSON_parse Reference.JSON_stringify Reference.Date_parse
                "/app/history" argv now disk
                [old_record; boundary_record; undated_record; recent_record] 30)
    as Hrun.
  destruct Hrun as (_ & _ & [[Hall _]|[_ Hdisk]]);
    [vm_compute; reflexivity..| |].
  - vm_compute in Hall. discriminate.
  - exact Hdisk.
Defined.

(** A collection in which a record that is older than the cutoff comes
    before one on whose [createdAt] [String] throws: the run ends in the
    exception, makes no call on the disk, and the older record stays. *)
Lemma prune_throws_and_keeps_the_expired :
  let expired :=
    JObj [("id", JStr "a1"); ("createdAt", JStr "2020-05-17T08:30:00.000Z")] in
  let poisoned :=
    JObj [("id", JStr "b2"); ("createdAt", JObj [("toString", JNum (NInt 1))])] in
  dryRun argv = false
  /\ readJson Reference.JSON_parse poisoned_disk (historyFile "/app/history") (JArr [])
     = JArr [expired; poisoned]
  /\ resolveRetentionDays Reference.JSON_parse "/app/history" poisoned_disk = Normal 30
  /\ ref_toTimestamp (opt_get (Some expired) "createdAt") = Normal (Some 1589704200000)
  /\ 1589704200000 < cutoff now 30
  /\ result (ref_prune argv now poisoned_disk)
     = Throw (TypeError "Cannot convert object to primitive value")
  /\ effects (ref_prune argv now poisoned_disk) = []
  /\ ref_disk_after argv now poisoned_disk = poisoned_disk.
Proof.
  intros expired poisoned.
  assert (Hnone : effects (ref_prune argv now poisoned_disk) = [])
    by (vm_compute; reflexivity).
  split; [reflexivity|]. split; [vm_compute; reflexivity|].
  split; [vm_compute; reflexivity|]. split; [vm_compute; reflexivity|].
  split; [vm_compute; reflexivity|]. split; [vm_compute; reflexivity|].
  split; [exact Hnone|]. unfold PruneHistory.disk_after. by rewrite Hnone.
Qed.

Lemma prune_keeps_unparseable_witness :
  In undated_record [old_record; boundary_record; undated_record; recent_record]
  /\ ref_toTimestamp (opt_get (Some undated_record) "createdAt") = Normal None
  /\ exists kept,
       In undated_record kept
       /\ effects (ref_prune argv now disk)
          = PruneHistory.write_calls Reference.JSON_stringify "/app/history" kept.
Proof.
  split; [right; right; by left|]. split; [reflexivity|].
  pose proof (prune_keeps_unparseable
                Reference.JSON_parse Reference.JSON_stringify Reference.Date_parse
                "/app/history" argv now disk
                [old_record; boundary_record; undated_record; recent_record]
                undated_record)
    as Hrun.
  destruct Hrun as (_ & [[Hnone _]|Hkept]);
    [vm_compute; reflexivity | vm_compute; reflexivity | right; right; by left
    | vm_compute; reflexivity | |].
  - vm_compute in Hnone. discriminate.
  - exact Hkept.
Defined.

Lemma prune_writes_iff_witness :
  effects (ref_prune argv now disk) <> []
  /\ ref_disk_after ("--dry-run" :: argv) now disk = disk.
Proof.
  split.
  - apply (proj1 (prune_writes_iff
                    Reference.JSON_parse Reference.JSON_stringify Reference.Date_parse
                    "/app/history" argv now disk)).
    split; [reflexivity|].
    exists [old_record; boundary_record; undated_record; recent_record], 30.
    do 3 (split; [vm_compute; reflexivity|]). split.
    + intros item Hin. cbn [In] in Hin.
      destruct Hin as [<-|[<-|[<-|[<-|[]]]]]; eexists; vm_compute; reflexivity.
    + exists old_record. split; [by left|reflexivity].
  - apply (proj1 (proj2 (proj2 (prune_writes_iff
                    Reference.JSON_parse Reference.JSON_stringify Reference.Date_parse
                    "/app/history" ("--dry-run" :: argv) now disk)))).
    vm_compute. reflexivity.
Defined.

(** A history file that is not JSON: the document is not a JSON array,
    and the run reads it as the empty collection, makes no call on the
    disk and ends with the exit code 0. *)
Lemma prune_exits_0_on_unparseable_history :
  truncated_disk !! historyFile "/app/history"
    = Some (File (quoted "[{'id': 'a1', 'crea"))
  /\ Reference.JSON_parse (quoted "[{'id': 'a1', 'crea")
     = Throw (SyntaxError "Unexpected token")
  /\ readJson Reference.JSON_parse truncated_disk (historyFile "/app/history") (JArr [])
     = JArr []
  /\ result (ref_prune argv now truncated_disk) = Normal 0
  /\ effects (ref_prune argv now truncated_disk) = []
  /\ PruneHistory.exit_code Reference.JSON_parse Reference.JSON_stringify
       Reference.Date_parse "/app/history" argv now truncated_disk = 0.
Proof. repeat split; vm_compute; reflexivity. Qed.

Lemma prune_replaces_atomically_witness :
  effects (ref_prune argv now disk) <> []
  /\ forall fs',
       crash_state disk (effects (ref_prune argv now disk)) fs' ->
       fs' !! historyFile "/app/history" = Some (File history_text)
       \/ fs' !! historyFile "/app/history"
          = Some (File (Reference.JSON_stringify
                          (JArr [boundary_record; undated_record; recent_record]))).
Proof.
  assert (Hwrites : effects (ref_prune argv now disk) <> []) by (vm_compute; discriminate).
  split; [exact Hwrites|].
  destruct (prune_replaces_atomically
              Reference.JSON_parse Reference.JSON_stringify Reference.Date_parse
              "/app/history" argv now disk Hwrites)
    as (old & history & days & Hold & Hread & Hdays & _ & _ & Hcrash).
  vm_compute in Hold. injection Hold as <-.
  vm_compute in Hread. injection Hread as <-.
  vm_compute in Hdays. injection Hdays as <-.
  exact Hcrash.
Defined.


(** ** The launcher *)

(** C9. Whatever the environment, the arguments and the outcome of the
    prune script, the launcher's first act is the [spawnSync] of the
    prune script, which returns once that child has ended; the [spawn]
    of the backend is its last, made once, on the disk as the prune
    child left it; between the two the launcher only prints. *)
Theorem prune_runs_before_backend (env : gmap string string) (argv : list string)
    (execPath cwd : string) (run_child : string -> list string -> FS -> FS * option Z)
    (disk : FS) :
  exists between,
    Launcher.main env argv execPath cwd run_child disk
    = Launcher.spawnSync_returned execPath [Launcher.pruneScript cwd]
        (snd (run_child execPath [Launcher.pruneScript cwd] disk))
      :: between
      ++ [Launcher.spawn "python" (Launcher.args env argv)
            (fst (run_child execPath [Launcher.pruneScript cwd] disk))]
    /\ forallb (fun e => negb (Launcher.is_spawn e) && negb (Launcher.is_spawnSync e))
         between = true.
Proof.
  unfold Launcher.main.
  destruct (run_child execPath [Launcher.pruneScript cwd] disk) as [disk' status].
  cbn [fst snd]. destruct (decide (status = Some 0)).
  - by eexists [_].
  - by eexists [_; _].
Qed.

(** On the fixture the backend starts on the pruned disk. *)
Example launcher_on_fixture :
  last (Launcher.main ∅ ["node"; "scripts/dev-backend.mjs"] "node" "/app"
          Fixtures.run_prune_script Fixtures.disk)
  = Some (Launcher.spawn "python"
            ["-m"; "uvicorn"; "papagei_backend.server:app";
             "--host"; "127.0.0.1"; "--port"; "4380"]
            (ref_disk_after ["node"; "/app/scripts/prune-history.mjs"] now Fixtures.disk)).
Proof. vm_compute. reflexivity. Qed.

(** ** The session controller *)

Module SessionFacts.
Import SessionController.

Lemma consistent_step (c : controller) (caller : nat) (what : call) :
  consistent c -> consistent (fst (step c caller what)).
Proof.
  unfold consistent, active. destruct c as [st ss]. cbn [state sessions].
  destruct what as [[]| | |]; cbn [step negb state sessions];
    destruct st; cbn [fst state sessions]; try done.
  - intros Hnone. eexists _, _. split; [reflexivity|exact Hnone].
  - intros Hnone. eexists _, _. split; [reflexivity|exact Hnone].
  - intros (o & rest & -> & Hrest). eexists _, _. split; [reflexivity|exact Hrest].
  - intros (o & rest & -> & Hrest). exact Hrest.
  - intros (o & rest & -> & Hrest). exact Hrest.
Qed.

Lemma consistent_run (calls : list (nat * call)) (c : controller) :
  consistent c -> consistent (run c calls).
Proof.
  revert c. induction calls as [|[caller what] rest IH]; intros c Hc; [done|].
  apply IH. by apply consistent_step.
Qed.

Lemma consistent_active (c : controller) :
  consistent c -> (length (active c) <= 1)%nat.
Proof.
  unfold consistent, active.
  destruct (state c); [intros ->; cbn; lia|..|intros ->; cbn; lia];
    intros (o & rest & -> & Hrest); cbn; rewrite Hrest; cbn; lia.
Qed.

End SessionFacts.

(** C1. Whatever calls to [start()] and [stop()] the callers make and
    however they and the engine's answers are interleaved, each entering
    the critical section in turn, at most one session is capturing or
    transcribing, and there is one exactly when the state is [Recording]
    or [Transcribing]. *)
Theorem at_most_one_session_in_progress (calls : list (nat * SessionController.call)) :
  let c := SessionController.run SessionController.initial calls in
  (length (SessionController.active c) <= 1)%nat
  /\ (length (SessionController.active c) = 1%nat
      <-> SessionController.state c = SessionController.Recording
          \/ SessionController.state c = SessionController.Transcribing).
Proof.
  intros c.
  assert (Hc : SessionController.consistent c) by by apply SessionFacts.consistent_run.
  split; [by apply SessionFacts.consistent_active|].
  unfold SessionController.consistent, SessionController.active in *.
  destruct (SessionController.state c).
  - rewrite Hc. cbn. intuition congruence.
  - destruct Hc as (o & rest & -> & Hrest). cbn. rewrite Hrest. cbn. intuition.
  - destruct Hc as (o & rest & -> & Hrest). cbn. rewrite Hrest. cbn. intuition.
  - rewrite Hc. cbn. intuition congruence.
Qed.

(** Two callers race to start and to stop: the second of each is refused. *)
Example two_callers_race :
  let calls :=
    [(1%nat, SessionController.start true); (2%nat, SessionController.start true);
     (2%nat, SessionController.stop); (1%nat, SessionController.stop)] in
  snd (SessionController.step
         (SessionController.run SessionController.initial (take 1 calls))
         2 (SessionController.start true))
    = Some SessionController.AlreadyRecording
  /\ snd (SessionController.step
            (SessionController.run SessionController.initial (take 3 calls))
            1 SessionController.stop)
     = Some SessionController.AlreadyTranscribing
  /\ SessionController.active (SessionController.run SessionController.initial calls)
     = [ {| SessionController.owner := 1; SessionController.stage := SessionController.transcribing |} ].
Proof. repeat split. Qed.

(** ** The page component *)

(** The health read off a reachable body, as [checkHealth] does it: the
    [status] member decides when it is there, [ready] when it is not. *)
Lemma checkHealth_reachable (r : Page.response) (data : json) (s : Page.state) :
  Page.ok r = true ->
  Page.json_body r = Normal data ->
  data <> JNull ->
  exists s',
    Page.checkHealth (Normal r) s
    = Normal ({| Page.ready := truthy (opt_get (Some data) "ready");
                 Page.health_status :=
                   Page.normalize
                     (nullish (opt_get (Some data) "status")
                        (Some (JStr (if truthy (opt_get (Some data) "ready")
                                     then "ready" else "loading"))));
                 Page.message :=
                   default (JStr EmptyString)
                     (nullish (opt_get (Some data) "message")
                        (nullish (opt_get (Some data) "error")
                           (Some (JStr EmptyString)))) |}, s')
    /\ Page.backendState s'
       = Page.normalize
           (nullish (opt_get (Some data) "status")
              (Some (JStr (if truthy (opt_get (Some data) "ready")
                           then "ready" else "loading")))).
Proof.
  intros Hok Hbody Hnull. unfold Page.checkHealth, Page.checkHealth_try.
  unfold mbind at 1, completion_bind at 1. rewrite Hok, Hbody. cbn [negb].
  destruct data; try done; cbn; eexists; split; reflexivity.
Qed.

Lemma checkHealth_unreachable (fetched : completion Page.response) (s : Page.state) :
  match fetched with
  | Throw _ => True
  | Normal r =>
      Page.ok r = false
      \/ match Page.json_body r with
         | Throw _ | Normal JNull => True
         | Normal _ => False
         end
  end ->
  Page.checkHealth fetched s = Normal (Page.unreachable s).
Proof.
  unfold Page.checkHealth, Page.checkHealth_try.
  destruct fetched as [r|e]; [|reflexivity].
  unfold mbind, completion_bind.
  destruct (Page.ok r); cbn [negb]; [|reflexivity].
  intros [?|Hbody]; [done|].
  by destruct (Page.json_body r) as [[]|].
Qed.

(** What [checkHealth] resolves to, case by case. *)
Lemma checkHealth_cases (fetched : completion Page.response) (s : Page.state) :
  exists polled s',
    Page.checkHealth fetched s = Normal (polled, s')
    /\ Page.backendState s' = Page.health_status polled
    /\ Page.polled_as fetched polled.
Proof.
  unfold Page.polled_as.
  destruct fetched as [r|e].
  - destruct (Page.ok r) eqn:Hok.
    + destruct (Page.json_body r) as [data|e] eqn:Hbody.
      * assert (data = JNull \/ data <> JNull) as [->|Hnull]
          by (destruct data; auto).
        { eexists _, _. split; [apply checkHealth_unreachable; right; by rewrite Hbody|].
          done. }
        destruct (checkHealth_reachable r data s Hok Hbody Hnull)
          as (s' & -> & Hstate).
        eexists _, _. split; [reflexivity|]. split; [exact Hstate|].
        cbn [Page.ready Page.health_status].
        destruct data as [| | | | |members]; [done|..]; (split; [reflexivity|]);
          cbn; try reflexivity.
        destruct (own_property members "status") as [[]|]; cbn; try reflexivity;
          by destruct (truthy _).
      * eexists _, _. split; [apply checkHealth_unreachable; right; by rewrite Hbody|].
        done.
    + eexists _, _. split; [apply checkHealth_unreachable; by left|]. done.
  - eexists _, _. split; [by apply checkHealth_unreachable|]. done.
Qed.

(** C6, as the code has it. [checkHealth] always resolves, never
    rejects, and the state it sets is the status it returns. The status
    is [offline] when the request fails, the response is not OK, or the
    body is not JSON or is [null]. Otherwise the [status] member of the
    body decides when it is there: [error] and [ready] as they are, any
    other value [loading]; when it is missing or [null], [ready] decides:
    [ready] if it is truthy, [loading] if not. The [ready] flag returned
    is the truthiness of the body's [ready], [false] when offline. *)
Theorem checkHealth_never_throws (fetched : completion Page.response) (s : Page.state) :
  exists polled s',
    Page.checkHealth fetched s = Normal (polled, s')
    /\ Page.backendState s' = Page.health_status polled
    /\ Page.polled_as fetched polled.
Proof. exact (checkHealth_cases fetched s). Qed.

Lemma checkHealth_loading_while_ready :
  Page.json_body (ok_response loading_but_ready)
    = Normal (JObj [("status", JStr "loading"); ("ready", JBool true);
                    ("recording", JBool false)])
  /\ exists s',
       Page.checkHealth (Normal (ok_response loading_but_ready)) mounted
       = Normal ({| Page.ready := true;
                    Page.health_status := BackendState.loading;
                    Page.message := JStr EmptyString |}, s')
       /\ Page.backendState s' = BackendState.loading.
Proof. split; [reflexivity|]. eexists. split; reflexivity. Qed.

(** What [checkHealth] returns does not depend on the state it is called
    in. *)
Lemma checkHealth_polled (fetched : completion Page.response) (s1 s2 : Page.state) :
  exists polled s1' s2',
    Page.checkHealth fetched s1 = Normal (polled, s1')
    /\ Page.checkHealth fetched s2 = Normal (polled, s2').
Proof.
  assert (Hoff : forall fetched',
    Page.checkHealth fetched' s1 = Normal (Page.unreachable s1) ->
    Page.checkHealth fetched' s2 = Normal (Page.unreachable s2) ->
    exists polled s1' s2',
      Page.checkHealth fetched' s1 = Normal (polled, s1')
      /\ Page.checkHealth fetched' s2 = Normal (polled, s2')).
  { intros fetched' -> ->. eexists _, _, _. split; reflexivity. }
  destruct fetched as [r|e];
    [|apply Hoff; by apply checkHealth_unreachable].
  destruct (Page.ok r) eqn:Hok;
    [|apply Hoff; apply checkHealth_unreachable; by left].
  destruct (Page.json_body r) as [data|e] eqn:Hbody;
    [|apply Hoff; apply checkHealth_unreachable; right; by rewrite Hbody].
  assert (data = JNull \/ data <> JNull) as [->|Hnull] by (destruct data; auto);
    [apply Hoff; apply checkHealth_unreachable; right; by rewrite Hbody|].
  destruct (checkHealth_reachable r data s1 Hok Hbody Hnull) as (s1' & -> & _).
  destruct (checkHealth_reachable r data s2 Hok Hbody Hnull) as (s2' & -> & _).
  eexists _, _, _. split; reflexivity.
Qed.

(** C8, as the code has it. [start()] polls the health first, and sends
    [POST /start] exactly when the [ready] flag of what it polled is
    true, whatever state the component is in. When the flag is false,
    as it is whenever the polled status is [offline], it sends no such
    request and ends in the [error] status with a reason set. *)
Theorem start_gated_by_ready (health_fetched start_fetched : completion Page.response)
    (s : Page.state) :
  exists polled s',
    Page.checkHealth health_fetched (Page.set_status_error (Page.status s) None s)
    = Normal (polled, s')
    /\ (In Page.POST_start (snd (Page.start health_fetched start_fetched s))
        <-> Page.ready polled = true)
    /\ (Page.ready polled = false ->
        snd (Page.start health_fetched start_fetched s) = [Page.GET_health]
        /\ Page.status (fst (Page.start health_fetched start_fetched s)) = Status.error
        /\ exists reason,
             Page.error (fst (Page.start health_fetched start_fetched s)) = Some reason)
    /\ (Page.health_status polled = BackendState.offline -> Page.ready polled = false)
    /\ (forall other,
          snd (Page.start health_fetched start_fetched other)
          = snd (Page.start health_fetched start_fetched s)).
Proof.
  destruct (checkHealth_cases health_fetched
              (Page.set_status_error (Page.status s) None s))
    as (polled & s' & Hcheck & _ & Hcases).
  unfold Page.polled_as in Hcases.
  exists polled, s'. split; [exact Hcheck|].
  assert (Hrequests : forall other,
    snd (Page.start health_fetched start_fetched other)
    = Page.GET_health :: (if Page.ready polled then [Page.POST_start] else [])).
  { intros other.
    destruct (checkHealth_polled health_fetched
                (Page.set_status_error (Page.status s) None s)
                (Page.set_status_error (Page.status other) None other))
      as (polled' & s1 & s2 & Hs & Hother).
    rewrite Hcheck in Hs. injection Hs as <- <-.
    unfold Page.start. rewrite Hother. by destruct (Page.ready polled). }
  split; [|split; [|split]].
  - rewrite Hrequests. destruct (Page.ready polled); cbn; [intuition|].
    split; [|done]. by intros [[=]|[]].
  - intros Hready. split; [by rewrite Hrequests, Hready|].
    unfold Page.start. rewrite Hcheck, Hready. cbn. split; [done|].
    destruct (Page.health_status polled); by eexists.
  - intros Hoffline.
    destruct health_fetched as [r|e]; [|by destruct Hcases].
    destruct (Page.ok r); [|by destruct Hcases].
    destruct (Page.json_body r) as [data|e]; [|by destruct Hcases].
    destruct data; try (by destruct Hcases);
      destruct Hcases as [_ Hstatus]; rewrite Hstatus in Hoffline;
      cbn in Hoffline; try done.
    destruct (own_property members "status") as [[]|]; try done;
      repeat (destruct (String.eqb _ _) || destruct (truthy _)); done.
  - intros other. by rewrite !Hrequests.
Qed.

Lemma start_gated_by_ready_witness :
  snd (Page.start (Normal (ok_response (quoted "{'status': 'loading', 'ready': false}")))
         (Normal (ok_response EmptyString)) mounted)
  = [Page.GET_health].
Proof.
  destruct (start_gated_by_ready
              (Normal (ok_response (quoted "{'status': 'loading', 'ready': false}")))
              (Normal (ok_response EmptyString)) mounted)
    as (polled & s' & Hcheck & _ & Hnot_ready & _).
  vm_compute in Hcheck. injection Hcheck as <- _.
  by apply Hnot_ready.
Defined.

Lemma start_posts_while_loading :
  (exists s',
     Page.checkHealth (Normal (ok_response loading_but_ready))
       (Page.set_status_error (Page.status mounted) None mounted)
     = Normal ({| Page.ready := true;
                  Page.health_status := BackendState.loading;
                  Page.message := JStr EmptyString |}, s'))
  /\ snd (Page.start (Normal (ok_response loading_but_ready))
            (Normal (ok_response EmptyString)) mounted)
     = [Page.GET_health; Page.POST_start]
  /\ Page.status (fst (Page.start (Normal (ok_response loading_but_ready))
                         (Normal (ok_response EmptyString)) mounted))
     = Status.recording.
Proof. split; [eexists; reflexivity|]. split; reflexivity. Qed.

(** * More of the code *)

(** ** Calls on the disk *)

Lemma apply_op_frame (op : fs_op) (fs fs' : FS) (p : string) :
  apply_op op fs = Some fs' -> ~ In p (targets op) -> fs' !! p = fs !! p.
Proof.
  destruct op as [d|q data|a b]; cbn [targets In]; intros Hop Hp.
  - apply (apply_mkdir_lookup _ _ _ _ Hop). tauto.
  - apply apply_write_eq in Hop as ->. rewrite lookup_insert_ne; [done|tauto].
  - apply apply_rename_eq in Hop as (n & _ & ->).
    rewrite lookup_insert_ne, lookup_delete_ne; [done|tauto..].
Qed.

Lemma exec_ops_frame (ops : list fs_op) (fs : FS) (p : string) :
  (forall op, In op ops -> ~ In p (targets op)) ->
  fst (exec_ops ops fs) !! p = fs !! p.
Proof.
  revert fs. induction ops as [|op rest IH]; intros fs Hp; [done|].
  cbn [exec_ops]. destruct (apply_op op fs) as [fs'|] eqn:Hop; [|done].
  rewrite IH by (intros; apply Hp; by right).
  apply (apply_op_frame _ _ _ _ Hop), Hp. by left.
Qed.

Lemma crash_state_frame (ops : list fs_op) (fs fs' : FS) (p : string) :
  crash_state fs ops fs' ->
  (forall op, In op ops -> ~ In p (targets op)) ->
  fs' !! p = fs !! p.
Proof.
  induction 1 as [|fs q data written rest ops Hdata Hdir|fs op ops fs1 fs2 Hop Hcrash IH];
    intros Hp; [done|..].
  - rewrite lookup_insert_ne; [done|]. intros <-.
    apply (Hp (writeFileSync q data)); by left.
  - rewrite IH by (intros; apply Hp; by right).
    apply (apply_op_frame _ _ _ _ Hop), Hp. by left.
Qed.

(** ** More of [scripts/prune-history.mjs] *)

Section PruneMore.

Variable JSON_parse : string -> completion json.
Variable JSON_stringify : json -> string.
Variable Date_parse : string -> option Z.
Variable historyDir : string.

#[local] Abbreviation historyFile := (PruneHistory.historyFile historyDir).
#[local] Abbreviation settingsFile := (PruneHistory.settingsFile historyDir).
#[local] Abbreviation tempPath := (PruneHistory.tempPath historyDir).
#[local] Abbreviation readJson := (PruneHistory.readJson JSON_parse).
#[local] Abbreviation configured := (PruneHistory.configured JSON_parse historyDir).
#[local] Abbreviation resolveRetentionDays :=
  (PruneHistory.resolveRetentionDays JSON_parse historyDir).
#[local] Abbreviation toTimestamp := (PruneHistory.toTimestamp Date_parse).
#[local] Abbreviation prune_callback := (PruneHistory.prune_callback Date_parse).
#[local] Abbreviation prune :=
  (PruneHistory.prune JSON_parse JSON_stringify Date_parse historyDir).
#[local] Abbreviation disk_after :=
  (PruneHistory.disk_after JSON_parse JSON_stringify Date_parse historyDir).
#[local] Abbreviation exit_code :=
  (PruneHistory.exit_code JSON_parse JSON_stringify Date_parse historyDir).
#[local] Abbreviation calls_succeed :=
  (PruneHistory.calls_succeed JSON_parse JSON_stringify Date_parse historyDir).
#[local] Abbreviation keeps := (PruneHistory.keeps Date_parse).
#[local] Abbreviation write_calls :=
  (PruneHistory.write_calls JSON_stringify historyDir).
#[local] Abbreviation effects_cases :=
  (prune_effects JSON_parse JSON_stringify Date_parse historyDir).

Lemma write_calls_targets (kept : list json) (p : string) :
  p <> historyDir -> p <> tempPath -> p <> historyFile ->
  forall op, In op (write_calls kept) -> ~ In p (targets op).
Proof.
  intros Hd Ht Hf op. unfold PruneHistory.write_calls. cbn [In].
  intros [<-|[<-|[<-|[]]]]; cbn [targets In]; intuition congruence.
Qed.

Lemma prune_targets (argv : list string) (now : Z) (fs : FS) (p : string) :
  p <> historyDir -> p <> tempPath -> p <> historyFile ->
  forall op, In op (effects (prune argv now fs)) -> ~ In p (targets op).
Proof.
  intros Hd Ht Hf.
  destruct (effects_cases argv now fs)
    as [->|(h & kept & d & r & _ & _ & _ & _ & _ & _ & -> & _)].
  - by intros ? [].
  - by apply write_calls_targets.
Qed.

(** X1. A run changes nothing on the disk but the history directory,
    [history.json.tmp] and [history.json]: every other path, the
    settings among them, holds what it held, after the run and in every
    state in which the run can die. *)
Theorem prune_touches_only_history (argv : list string) (now : Z) (fs : FS) (p : string) :
  p <> historyDir -> p <> tempPath -> p <> historyFile ->
  disk_after argv now fs !! p = fs !! p
  /\ forall fs', crash_state fs (effects (prune argv now fs)) fs' -> fs' !! p = fs !! p.
Proof.
  intros Hd Ht Hf. pose proof (prune_targets argv now fs p Hd Ht Hf) as Htargets. split.
  - by apply exec_ops_frame.
  - intros fs' Hcrash. by eapply crash_state_frame.
Qed.

Lemma exec_write_calls_temp (fs fs' : FS) (kept : list json) :
  exec_ops (write_calls kept) fs = (fs', true) -> fs' !! tempPath = None.
Proof.
  unfold PruneHistory.write_calls. cbn [exec_ops].
  destruct (apply_op (mkdirSync_recursive historyDir) fs) as [fs1|]; [|done].
  destruct (apply_op (writeFileSync tempPath _) fs1) as [fs2|]; [|done].
  destruct (apply_op (renameSync tempPath historyFile) fs2) as [fs3|] eqn:H3; [|done].
  intros [= <-]. apply apply_rename_eq in H3 as (n & _ & ->).
  rewrite lookup_insert_ne by apply historyFile_ne_tempPath.
  by rewrite lookup_delete_eq.
Qed.

(** X2. A run that writes and whose calls all succeed leaves no
    [history.json.tmp] behind, also when one lay there before. *)
Theorem prune_leaves_no_temp (argv : list string) (now : Z) (fs : FS) :
  effects (prune argv now fs) <> [] ->
  calls_succeed argv now fs ->
  disk_after argv now fs !! tempPath = None.
Proof.
  intros Hne. unfold PruneHistory.calls_succeed, PruneHistory.disk_after.
  destruct (effects_cases argv now fs)
    as [?|(h & kept & d & r & _ & _ & _ & _ & _ & _ & -> & _)]; [done|].
  destruct (exec_ops (write_calls kept) fs) as [fs' ok] eqn:Hexec.
  cbn [fst snd]. intros ->. by eapply exec_write_calls_temp.
Qed.

(** X3. A dry run reports what the run without [--dry-run] does: when
    that run writes and none of its calls throws, so that it prints
    that it removed [n] records and kept [k], the dry run prints that
    it would remove [n] of [n + k] and makes no call on the disk. *)
Theorem dry_run_reports_the_removal (argv : list string) (now : Z) (fs : FS) :
  effects (prune argv now fs) <> [] ->
  calls_succeed argv now fs ->
  exists (n : Z) (k : nat) (days : Z),
    console (prune argv now fs) = [RemovedReport n k]
    /\ console (prune ("--dry-run" :: argv) now fs)
       = [DryRunReport n (Z.to_nat n + k) days]
    /\ 0 < n
    /\ resolveRetentionDays fs = Normal days
    /\ effects (prune ("--dry-run" :: argv) now fs) = []
    /\ disk_after ("--dry-run" :: argv) now fs = fs.
Proof.
  intros Hne Hcalls.
  destruct (effects_cases argv now fs)
    as [?|(h & kept & d & r & Hex & Hread & Hdays & Hfilter & Hr & _ & Heffects & Hrun & _)];
    [done|].
  unfold PruneHistory.calls_succeed in Hcalls. rewrite Heffects in Hcalls.
  specialize (Hrun Hcalls).
  pose proof (Array_filter_prune _ _ _ _ _ _ Hfilter) as (Hkept & Hremoved & Hlen).
  exists r, (length kept), d. rewrite Hrun. cbn [console]. split; [done|].
  unfold PruneHistory.disk_after.
  rewrite (prune_filtered _ _ _ _ ("--dry-run" :: argv) _ _ _ _ _ _ Hex Hread Hdays Hfilter).
  destruct (Z.eqb_spec r 0); [done|].
  assert (dryRun ("--dry-run" :: argv) = true) as -> by reflexivity.
  cbn [console effects exec_ops fst].
  replace (Z.to_nat r + length kept)%nat with (length h) by lia.
  repeat split; try done. lia.
Qed.

Lemma configured_without_object (fs : FS) :
  match fs !! settingsFile with
  | Some (File raw) =>
      match JSON_parse raw with
      | Normal (JObj _) => False
      | _ => True
      end
  | _ => True
  end ->
  configured fs = None.
Proof.
  unfold PruneHistory.configured, PruneHistory.readJson, existsSync, readFileSync.
  destruct (fs !! settingsFile) as [[raw|]|]; cbn; try done.
  by destruct (JSON_parse raw) as [[]|].
Qed.

(** X4. Without a usable settings document the retention is the
    default of 60 days: when [settings.json] is missing, is a directory,
    is not JSON, or holds a JSON value that is not an object. *)
Theorem resolveRetentionDays_without_settings (fs : FS) :
  (fs !! settingsFile = None
   \/ fs !! settingsFile = Some Dir
   \/ (exists raw e, fs !! settingsFile = Some (File raw) /\ JSON_parse raw = Throw e)
   \/ (exists raw v,
         fs !! settingsFile = Some (File raw) /\ JSON_parse raw = Normal v
         /\ forall members, v <> JObj members)) ->
  resolveRetentionDays fs = Normal DEFAULT_RETENTION_DAYS.
Proof.
  intros Hcases.
  rewrite (resolveRetentionDays_text JSON_parse historyDir fs "60"); [done|].
  rewrite configured_without_object; [done|].
  destruct Hcases as [->|[->|[(raw & e & -> & ->)|(raw & v & -> & -> & Hv)]]]; try done.
  destruct v; try done. by destruct (Hv members).
Qed.

Lemma Array_filter_throws (cutoffMs : Z) (items : list json) (removed0 : Z) (e : exn) :
  Array_filter (prune_callback cutoffMs) items removed0 = Throw e ->
  exists item e', In item items
    /\ toTimestamp (opt_get (Some item) "createdAt") = Throw e'.
Proof.
  revert removed0 e. induction items as [|first rest IH]; intros removed0 e; [done|].
  simpl. pose proof (prune_callback_spec Date_parse cutoffMs first removed0) as Hcb.
  destruct (toTimestamp (opt_get (Some first) "createdAt")) as [t|e'] eqn:Hfirst.
  - rewrite Hcb. simpl.
    destruct (Array_filter _ rest _) as [[kept' removed']|e''] eqn:Hrest; simpl; [done|].
    intros _. destruct (IH _ _ Hrest) as (item & e' & Hin & Hitem).
    exists item, e'. split; [by right|done].
  - intros _. exists first, e'. split; [by left|done].
Qed.

(** X5. [prune] ends in an uncaught exception exactly when the history
    reads as an array and [String] throws on the retention setting or
    on the [createdAt] of some record (an object with a member named
    [toString], or an array that holds one), or when one of the calls on
    the disk throws. The exit code is then 1 and the history document
    is as it was; when it is [String] that throws, the run has made no
    call on the disk at all, whatever the other records are. *)
Theorem prune_uncaught_iff (argv : list string) (now : Z) (fs : FS) :
  ((exists e, result (prune argv now fs) = Throw e)
   <-> (existsSync fs historyFile = true
        /\ exists history,
             readJson fs historyFile (JArr []) = JArr history
             /\ ((exists e, resolveRetentionDays fs = Throw e)
                 \/ exists item e,
                      In item history
                      /\ toTimestamp (opt_get (Some item) "createdAt") = Throw e))
       \/ ~ calls_succeed argv now fs)
  /\ (forall e, result (prune argv now fs) = Throw e ->
        exit_code argv now fs = 1
        /\ disk_after argv now fs !! historyFile = fs !! historyFile
        /\ (calls_succeed argv now fs ->
            effects (prune argv now fs) = [] /\ disk_after argv now fs = fs)).
Proof.
  unfold PruneHistory.calls_succeed, PruneHistory.exit_code, PruneHistory.disk_after.
  destruct (existsSync fs historyFile) eqn:Hex.
  2: { assert (prune argv now fs
               = {| result := Normal 0; console := [NoHistoryFile]; effects := [] |}) as ->
         by (unfold PruneHistory.prune; by rewrite Hex).
       cbn. split; [|by intros e [=]]. split; [by intros [e [=]]|].
       intros [[[=] _]|Hno]. by destruct Hno. }
  destruct (readJson fs historyFile (JArr [])) as [| | | |history|] eqn:Hread.
  1-4, 6:
    assert (prune argv now fs
            = {| result := Normal 1; console := [InvalidHistory]; effects := [] |}) as ->
      by (unfold PruneHistory.prune; by rewrite Hex, Hread);
    cbn; (split; [|by intros e [=]]); (split; [by intros [e [=]]|]);
    intros [(_ & h & [=] & _)|Hno]; by destruct Hno.
  destruct (resolveRetentionDays fs) as [days|e] eqn:Hdays.
  2: { assert (prune argv now fs = uncaught e) as ->
         by (unfold PruneHistory.prune; by rewrite Hex, Hread, Hdays).
       cbn. split; [|done]. split; [|intros _; by exists e].
       intros _. left. split; [done|]. exists history. split; [done|]. left. by exists e. }
  destruct (Array_filter (prune_callback (cutoff now days)) history 0)
    as [[kept removed]|e] eqn:Hfilter.
  2: { assert (prune argv now fs = uncaught e) as ->
         by (unfold PruneHistory.prune; by rewrite Hex, Hread, Hdays, Hfilter).
       cbn. split; [|done]. split; [|intros _; by exists e].
       intros _. left. split; [done|]. exists history. split; [done|]. right.
       by eapply Array_filter_throws. }
  assert (Hreturns : forall item e,
            In item history ->
            toTimestamp (opt_get (Some item) "createdAt") = Throw e -> False).
  { intros item e Hin Hitem.
    destruct (Array_filter_normal_inv _ _ _ _ _ _ Hfilter item Hin) as [t Ht].
    congruence. }
  rewrite (prune_filtered _ _ _ _ argv now fs history kept days removed
             Hex Hread Hdays Hfilter).
  destruct (removed =? 0); [|destruct (dryRun argv)].
  1, 2: cbn; (split; [|by intros e [=]]); (split; [by intros [e [=]]|]);
    intros [(_ & h & [= <-] & [[e [=]]|(item & e & Hin & Hitem)])|Hno];
    [by destruct (Hreturns item e Hin Hitem)|by destruct Hno].
  destruct (exec_error (write_calls kept) fs) as [e|] eqn:Herror; cbn [result effects].
  - assert (Hfails : snd (exec_ops (write_calls kept) fs) = false).
    { destruct (snd (exec_ops (write_calls kept) fs)) eqn:Hok; [|done].
      apply exec_error_None in Hok. congruence. }
    split.
    + split; [|intros _; by exists e]. intros _. right. by rewrite Hfails.
    + intros _ _. split; [done|]. split; [by apply exec_write_calls_fail|].
      by rewrite Hfails.
  - apply exec_error_None in Herror.
    split; [|by intros e [=]]. split; [by intros [e [=]]|].
    intros [(_ & h & [= <-] & [[e [=]]|(item & e & Hin & Hitem)])|Hno];
    [by destruct (Hreturns item e Hin Hitem)|by destruct Hno].
Qed.

Lemma keeps_mono (c c' : Z) (item : json) :
  c' <= c -> keeps c item = true -> keeps c' item = true.
Proof.
  unfold PruneHistory.keeps, PruneHistory.older_than. intros Hc.
  destruct (toTimestamp _) as [[ms|]|]; try done.
  destruct (Z.ltb_spec ms c), (Z.ltb_spec ms c'); try done. lia.
Qed.

Lemma prune_callback_keeps (c : Z) (item : json) (removed : Z) :
  prune_callback c item removed = Normal (true, removed)
  <-> keeps c item = true
      /\ exists t, toTimestamp (opt_get (Some item) "createdAt") = Normal t.
Proof.
  pose proof (prune_callback_spec Date_parse c item removed) as Hcb.
  destruct (toTimestamp _) as [t|e]; rewrite Hcb.
  - split.
    + intros [= -> _]. split; [done|by exists t].
    + intros [-> _]. done.
  - split; [done|]. by intros (_ & t & [=]).
Qed.

(** X6. Keeping is monotone in the time of the run and in the number
    of days that the run uses: a record that the filter keeps at some
    time with some number of days, it keeps at every earlier time and
    with every greater number of days. The number of days is the one
    that [resolveRetentionDays] returns. *)
Theorem longer_retention_keeps_more (now now' days days' : Z) (item : json)
    (removed removed' : Z) :
  now' <= now -> days <= days' ->
  prune_callback (cutoff now days) item removed = Normal (true, removed) ->
  prune_callback (cutoff now' days') item removed' = Normal (true, removed').
Proof.
  intros Hnow Hdays. rewrite !prune_callback_keeps. intros [Hkeeps Ht]. split; [|done].
  apply (keeps_mono (cutoff now days)); [unfold cutoff; lia|done].
Qed.

Lemma filter_keeps_compose (c1 c2 : Z) (items : list json) :
  c1 <= c2 ->
  List.filter (keeps c2) (List.filter (keeps c1) items) = List.filter (keeps c2) items.
Proof.
  intros Hc. induction items as [|item rest IH]; [done|]. cbn [List.filter].
  destruct (keeps c1 item) eqn:H1; cbn [List.filter].
  - by rewrite IH.
  - destruct (keeps c2 item) eqn:H2; [|done].
    by rewrite (keeps_mono c2 c1 item Hc H2) in H1.
Qed.

Lemma filter_keeps_idem (c : Z) (items : list json) :
  List.filter (keeps c) (List.filter (keeps c) items) = List.filter (keeps c) items.
Proof. apply filter_keeps_compose. lia. Qed.

(** The calls that a run sets out to make depend on the disk through
    the history file and the settings file only. *)
Lemma prune_lookup (argv : list string) (now : Z) (fs fs' : FS) :
  fs' !! historyFile = fs !! historyFile ->
  fs' !! settingsFile = fs !! settingsFile ->
  effects (prune argv now fs') = effects (prune argv now fs).
Proof.
  intros Hh Hs. unfold PruneHistory.prune.
  rewrite (readJson_lookup JSON_parse fs fs' historyFile (JArr []) Hh).
  rewrite (resolveRetentionDays_lookup JSON_parse historyDir fs fs' Hs).
  unfold existsSync. rewrite Hh.
  destruct (fs !! historyFile); cbn [negb]; [|done].
  destruct (readJson fs historyFile (JArr [])); try done.
  destruct (resolveRetentionDays fs) as [days|]; [|done].
  destruct (Array_filter _ _ 0) as [[kept removed]|]; [|done].
  destruct (removed =? 0); [done|]. destruct (dryRun argv); [done|].
  cbv zeta. by destruct (exec_error _ fs'), (exec_error _ fs).
Qed.

(** The history document after a run without [--dry-run] that returns
    and whose calls succeed. *)
Lemma history_after_run (argv : list string) (now : Z) (fs : FS)
    (history : list json) (days : Z) :
  existsSync fs historyFile = true ->
  readJson fs historyFile (JArr []) = JArr history ->
  resolveRetentionDays fs = Normal days ->
  dryRun argv = false ->
  result (prune argv now fs) = Normal 0 ->
  calls_succeed argv now fs ->
  let kept := List.filter (keeps (cutoff now days)) history in
  (kept = history /\ disk_after argv now fs = fs)
  \/ ((length kept < length history)%nat
      /\ disk_after argv now fs !! historyFile = Some (File (JSON_stringify (JArr kept)))
      /\ disk_after argv now fs !! settingsFile = fs !! settingsFile
      /\ disk_after argv now fs !! tempPath = None).
Proof.
  intros Hex Hread Hdays Hdry Hres Hcalls kept.
  destruct (prune_returns_filtered _ _ _ _ _ _ _ _ _ _ Hex Hread Hdays Hres)
    as (removed & Hfilter & Hremoved).
  pose proof (List.filter_length_le (keeps (cutoff now days)) history) as Hle.
  subst kept.
  pose proof (prune_written _ _ _ _ _ _ _ _ _ _ _ Hex Hread Hdays Hfilter Hcalls) as Hrun.
  unfold PruneHistory.calls_succeed in Hcalls. unfold PruneHistory.disk_after.
  rewrite Hrun in Hcalls |- *.
  rewrite Hdry in Hcalls |- *.
  destruct (Z.eqb_spec removed 0) as [Hzero|Hnonzero]; cbn [effects] in *.
  - left. split; [|done]. apply filter_length_eq. lia.
  - right. split; [lia|].
    destruct (exec_ops (write_calls _) fs) as [fs' ok] eqn:Hexec.
    cbn [fst snd] in *. subst ok.
    pose proof (exec_write_calls_temp _ _ _ Hexec).
    by apply exec_write_calls in Hexec as [? ?].
Qed.

Lemma filter_total (c : Z) (items : list json) :
  (forall item, In item items ->
     exists t, toTimestamp (opt_get (Some item) "createdAt") = Normal t) ->
  forall item, In item (List.filter (keeps c) items) ->
    exists t, toTimestamp (opt_get (Some item) "createdAt") = Normal t.
Proof. intros Hall item [Hin _]%List.filter_In. by apply Hall. Qed.

(** X7. Runs compose: a run at [now1] followed by a run at a later
    [now2] leaves the history document that a single run at [now2]
    leaves, when the runs end without an exception and the document
    written by the first reads back as the collection it holds. *)
Theorem prune_twice_is_prune_later (argv : list string) (now1 now2 : Z) (fs : FS)
    (history : list json) (days : Z) :
  existsSync fs historyFile = true ->
  readJson fs historyFile (JArr []) = JArr history ->
  resolveRetentionDays fs = Normal days ->
  dryRun argv = false ->
  now1 <= now2 ->
  result (prune argv now1 fs) = Normal 0 ->
  calls_succeed argv now1 fs ->
  calls_succeed argv now2 fs ->
  calls_succeed argv now2 (disk_after argv now1 fs) ->
  JSON_parse (JSON_stringify (JArr (List.filter (keeps (cutoff now1 days)) history)))
    = Normal (JArr (List.filter (keeps (cutoff now1 days)) history)) ->
  disk_after argv now2 (disk_after argv now1 fs) !! historyFile
  = disk_after argv now2 fs !! historyFile.
Proof.
  intros Hex Hread Hdays Hdry Hnow Hres Hcalls1 Hcalls2 Hcalls12 Hparse.
  destruct (prune_returns_filtered _ _ _ _ _ _ _ _ _ _ Hex Hread Hdays Hres)
    as (removed & Hfilter & _).
  pose proof (Array_filter_normal_inv _ _ _ _ _ _ Hfilter) as Htotal.
  assert (Hres2 : result (prune argv now2 fs) = Normal 0)
    by (by eapply prune_returns).
  destruct (history_after_run argv now1 fs history days Hex Hread Hdays Hdry Hres Hcalls1)
    as [[_ ->]|(Hlt1 & Hfile1 & Hsettings1 & _)]; [done|].
  set (kept1 := List.filter (keeps (cutoff now1 days)) history) in *.
  set (fs1 := disk_after argv now1 fs) in *.
  assert (Hex1 : existsSync fs1 historyFile = true)
    by (unfold existsSync; by rewrite Hfile1).
  assert (Hread1 : readJson fs1 historyFile (JArr []) = JArr kept1).
  { unfold PruneHistory.readJson, existsSync, readFileSync. rewrite Hfile1. simpl.
    by rewrite Hparse. }
  assert (Hdays1 : resolveRetentionDays fs1 = Normal days)
    by (by rewrite (resolveRetentionDays_lookup JSON_parse historyDir fs fs1)).
  assert (Hres12 : result (prune argv now2 fs1) = Normal 0).
  { eapply prune_returns; try done. by apply filter_total. }
  assert (Hc : cutoff now1 days <= cutoff now2 days) by (unfold cutoff; lia).
  pose proof (filter_keeps_compose _ _ history Hc) as Hcompose. fold kept1 in Hcompose.
  pose proof (List.filter_length_le (keeps (cutoff now2 days)) kept1) as Hle.
  destruct (history_after_run argv now2 fs history days Hex Hread Hdays Hdry Hres2 Hcalls2)
    as [[Heq _]|(_ & -> & _)].
  { rewrite <- Hcompose in Heq. rewrite <- Heq in Hlt1. lia. }
  destruct (history_after_run argv now2 fs1 kept1 days Hex1 Hread1 Hdays1 Hdry Hres12 Hcalls12)
    as [[Heq ->]|(_ & -> & _)].
  - by rewrite Hfile1, <- Hcompose, Heq.
  - by rewrite Hcompose.
Qed.

(** The states in which a write can die: the document still holds its
    old text, or it holds the new one and the temporary file is gone. *)
Lemma crash_state_write_calls (fs fs' : FS) (kept : list json) (old : string) :
  fs !! historyFile = Some (File old) ->
  crash_state fs (write_calls kept) fs' ->
  fs' !! historyFile = Some (File old)
  \/ (fs' !! historyFile = Some (File (JSON_stringify (JArr kept)))
      /\ fs' !! tempPath = None).
Proof.
  intros Hold Hcrash. unfold PruneHistory.write_calls in Hcrash.
  inversion Hcrash as [| |? ? ? fs1 ? Hmk Hcrash1]; subst; [by left|].
  assert (Hold1 : fs1 !! historyFile = Some (File old)).
  { rewrite <- Hold. apply (apply_mkdir_lookup _ _ _ _ Hmk), historyDir_ne_historyFile. }
  inversion Hcrash1 as [|? ? ? written ? ? ? Hdir|? ? ? fs2 ? Hwr Hcrash2]; subst.
  - by left.
  - left. rewrite lookup_insert_ne; [done|]. apply not_eq_sym, historyFile_ne_tempPath.
  - apply apply_write_eq in Hwr as ->.
    inversion Hcrash2 as [| |? ? ? fs3 ? Hmv Hcrash3]; subst.
    + left. rewrite lookup_insert_ne; [done|]. apply not_eq_sym, historyFile_ne_tempPath.
    + apply apply_rename_eq in Hmv as (n & Hn & ->).
      rewrite lookup_insert_eq in Hn. injection Hn as <-.
      inversion Hcrash3; subst. right. split.
      * by rewrite lookup_insert_eq.
      * rewrite lookup_insert_ne by apply historyFile_ne_tempPath.
        by rewrite lookup_delete_eq.
Qed.

(** X8. Recovery: when a run that writes dies at any point, running the
    script again at the same time leaves the history document that the
    uninterrupted run leaves, and no temporary file, provided the calls
    of the new run succeed and the written document reads back as the
    collection it holds. *)
Theorem prune_recovers_after_crash (argv : list string) (now : Z) (fs fs' : FS)
    (history : list json) (days : Z) :
  effects (prune argv now fs) <> [] ->
  readJson fs historyFile (JArr []) = JArr history ->
  resolveRetentionDays fs = Normal days ->
  crash_state fs (effects (prune argv now fs)) fs' ->
  calls_succeed argv now fs' ->
  JSON_parse (JSON_stringify (JArr (List.filter (keeps (cutoff now days)) history)))
    = Normal (JArr (List.filter (keeps (cutoff now days)) history)) ->
  disk_after argv now fs' !! historyFile
    = Some (File (JSON_stringify (JArr (List.filter (keeps (cutoff now days)) history))))
  /\ disk_after argv now fs' !! tempPath = None.
Proof.
  intros Hne Hread Hdays Hcrash Hcalls Hparse.
  destruct (effects_cases argv now fs)
    as [?|(h & kept & d & r & Hex & Hread' & Hdays' & Hfilter & Hr & Hdry & Hrun & _)];
    [done|].
  rewrite Hread in Hread'. injection Hread' as <-.
  rewrite Hdays in Hdays'. injection Hdays' as <-.
  pose proof (Array_filter_normal_inv _ _ _ _ _ _ Hfilter) as Htotal.
  apply Array_filter_prune in Hfilter as (-> & -> & Hlen).
  set (kept := List.filter (keeps (cutoff now days)) history) in *.
  destruct (readJson_file JSON_parse fs historyFile (JArr []) (JArr history) Hread)
    as (old & Hold & _).
  { intros [= ->]. cbn in Hr. lia. }
  assert (Hsettings : fs' !! settingsFile = fs !! settingsFile).
  { eapply crash_state_frame; [exact Hcrash|]. apply prune_targets.
    - apply not_eq_sym, historyDir_ne_settingsFile.
    - apply settingsFile_ne_tempPath.
    - apply settingsFile_ne_historyFile. }
  rewrite Hrun in Hcrash.
  destruct (crash_state_write_calls fs fs' kept old Hold Hcrash) as [Hold'|[Hnew Htemp]].
  - (* the document is still the old one: the run is repeated *)
    assert (Hsame : effects (prune argv now fs') = effects (prune argv now fs))
      by (apply prune_lookup; [by rewrite Hold', Hold|done]).
    unfold PruneHistory.calls_succeed in Hcalls. unfold PruneHistory.disk_after.
    rewrite Hsame, Hrun in Hcalls |- *.
    destruct (exec_ops (write_calls kept) fs') as [fs'' ok] eqn:Hexec.
    cbn [fst snd] in *. subst ok.
    pose proof (exec_write_calls_temp _ _ _ Hexec).
    by apply exec_write_calls in Hexec as [? _].
  - (* the document is the new one: nothing is left to remove *)
    unfold PruneHistory.disk_after.
    rewrite (prune_nothing_older JSON_parse JSON_stringify Date_parse historyDir
               argv now fs' kept days).
    + done.
    + unfold existsSync. by rewrite Hnew.
    + unfold PruneHistory.readJson, existsSync, readFileSync. rewrite Hnew. simpl.
      by rewrite Hparse.
    + by rewrite (resolveRetentionDays_lookup JSON_parse historyDir fs fs').
    + by apply filter_total.
    + intros item [_ Hkeeps]%List.filter_In. unfold PruneHistory.keeps in Hkeeps.
      by destruct (PruneHistory.older_than Date_parse (cutoff now days) item).
Qed.

End PruneMore.

Lemma prune_touches_only_history_witness :
  ref_disk_after Fixtures.argv now disk !! settingsFile "/app/history"
  = disk !! settingsFile "/app/history".
Proof.
  apply (proj1 (prune_touches_only_history
                  Reference.JSON_parse Reference.JSON_stringify Reference.Date_parse
                  "/app/history" Fixtures.argv now disk (settingsFile "/app/history")
                  ltac:(vm_compute; discriminate) ltac:(vm_compute; discriminate)
                  ltac:(vm_compute; discriminate))).
Defined.

Lemma prune_leaves_no_temp_witness :
  MoreFixtures.crashed_disk !! tempPath "/app/history" = Some (File "[")
  /\ ref_disk_after Fixtures.argv now MoreFixtures.crashed_disk !! tempPath "/app/history"
     = None.
Proof.
  split; [reflexivity|].
  apply (prune_leaves_no_temp
           Reference.JSON_parse Reference.JSON_stringify Reference.Date_parse
           "/app/history" Fixtures.argv now MoreFixtures.crashed_disk).
  - vm_compute. discriminate.
  - vm_compute. reflexivity.
Defined.

Lemma dry_run_reports_the_removal_witness :
  console (ref_prune Fixtures.argv now disk) = [RemovedReport 1 3]
  /\ console (ref_prune ("--dry-run" :: Fixtures.argv) now disk) = [DryRunReport 1 4 30].
Proof.
  assert (Hwrites : effects (ref_prune Fixtures.argv now disk) <> [])
    by (vm_compute; discriminate).
  destruct (dry_run_reports_the_removal
              Reference.JSON_parse Reference.JSON_stringify Reference.Date_parse
              "/app/history" Fixtures.argv now disk Hwrites)
    as (n & k & days & Hreal & Hdry & _ & Hdays & _); [vm_compute; reflexivity|].
  vm_compute in Hdays. injection Hdays as <-.
  assert (Hconsole : console (ref_prune Fixtures.argv now disk) = [RemovedReport 1 3])
    by (vm_compute; reflexivity).
  rewrite Hconsole in Hreal. injection Hreal as <- <-.
  split; [exact Hconsole|exact Hdry].
Defined.

Lemma resolveRetentionDays_without_settings_witness :
  resolveRetentionDays Reference.JSON_parse "/app/history" (MoreFixtures.settings_text "[90]")
  = Normal 60.
Proof.
  apply (resolveRetentionDays_without_settings Reference.JSON_parse "/app/history").
  right; right; right. exists "[90]", (JArr [JNum (NInt 90)]).
  split; [reflexivity|]. split; [reflexivity|]. discriminate.
Defined.

Lemma prune_uncaught_iff_witness :
  (exists e, result (ref_prune Fixtures.argv now Fixtures.poisoned_disk) = Throw e)
  /\ ref_disk_after Fixtures.argv now Fixtures.poisoned_disk
     = Fixtures.poisoned_disk.
Proof.
  assert (Hthrow : exists e,
    result (ref_prune Fixtures.argv now Fixtures.poisoned_disk) = Throw e).
  { apply (proj1 (prune_uncaught_iff
                    Reference.JSON_parse Reference.JSON_stringify Reference.Date_parse
                    "/app/history" Fixtures.argv now Fixtures.poisoned_disk)).
    left. split; [reflexivity|]. eexists. split; [vm_compute; reflexivity|]. right.
    eexists (JObj [("id", JStr "b2"); ("createdAt", JObj [("toString", JNum (NInt 1))])]), _.
    split; [right; by left|reflexivity]. }
  split; [exact Hthrow|]. destruct Hthrow as [e He].
  apply (proj2 (prune_uncaught_iff
                  Reference.JSON_parse Reference.JSON_stringify Reference.Date_parse
                  "/app/history" Fixtures.argv now Fixtures.poisoned_disk) e He).
  vm_compute. reflexivity.
Defined.

Lemma longer_retention_keeps_more_witness :
  PruneHistory.prune_callback Reference.Date_parse (cutoff now 30) boundary_record 0
    = Normal (true, 0)
  /\ PruneHistory.prune_callback Reference.Date_parse (cutoff (now - 1000) 60)
       boundary_record 7
     = Normal (true, 7).
Proof.
  split; [reflexivity|].
  apply (longer_retention_keeps_more Reference.Date_parse
           now (now - 1000) 30 60 boundary_record 0 7).
  - unfold now. lia.
  - lia.
  - reflexivity.
Defined.

Lemma prune_twice_is_prune_later_witness :
  ref_disk_after Fixtures.argv (now + 1) (ref_disk_after Fixtures.argv (now - 5000) disk)
    !! historyFile "/app/history"
  = ref_disk_after Fixtures.argv (now + 1) disk !! historyFile "/app/history".
Proof.
  apply (prune_twice_is_prune_later
           Reference.JSON_parse Reference.JSON_stringify Reference.Date_parse
           "/app/history" Fixtures.argv (now - 5000) (now + 1) disk
           [old_record; boundary_record; undated_record; recent_record] 30);
    try (vm_compute; reflexivity).
  unfold now. lia.
Defined.

Lemma prune_recovers_after_crash_witness :
  crash_state disk (effects (ref_prune Fixtures.argv now disk)) MoreFixtures.crashed_disk
  /\ ref_disk_after Fixtures.argv now MoreFixtures.crashed_disk !! historyFile "/app/history"
     = Some (File (Reference.JSON_stringify
                     (JArr [boundary_record; undated_record; recent_record])))
  /\ ref_disk_after Fixtures.argv now MoreFixtures.crashed_disk !! tempPath "/app/history"
     = None.
Proof.
  assert (Hcrash : crash_state disk (effects (ref_prune Fixtures.argv now disk))
                     MoreFixtures.crashed_disk).
  { assert (effects (ref_prune Fixtures.argv now disk)
            = PruneHistory.write_calls Reference.JSON_stringify "/app/history"
                [boundary_record; undated_record; recent_record]) as ->
      by (vm_compute; reflexivity).
    apply (crash_after _ _ _ disk); [reflexivity|].
    apply (crash_in_write disk _ _ "[" _ _ eq_refl). vm_compute. discriminate. }
  split; [exact Hcrash|].
  apply (prune_recovers_after_crash
           Reference.JSON_parse Reference.JSON_stringify Reference.Date_parse
           "/app/history" Fixtures.argv now disk MoreFixtures.crashed_disk
           [old_record; boundary_record; undated_record; recent_record] 30);
    try (vm_compute; reflexivity).
  - vm_compute. discriminate.
  - exact Hcrash.
Defined.

(** ** More of the page component *)

(** X9. Health polling leaves the session alone: [checkHealth] never
    changes the recording status or the error shown. It sets
    [backendOk] to true exactly when the status is not [offline], and
    when the status is [offline] it keeps the phases, the progress, the
    start time, the uptime and the process id of the last answer. *)
Theorem checkHealth_leaves_session (fetched : completion Page.response) (s : Page.state) :
  exists polled s',
    Page.checkHealth fetched s = Normal (polled, s')
    /\ Page.status s' = Page.status s
    /\ Page.error s' = Page.error s
    /\ Page.backendMessage s' = Page.message polled
    /\ match Page.health_status polled with
       | BackendState.offline =>
           Page.backendOk s' = Some false
           /\ Page.backendPhases s' = Page.backendPhases s
           /\ Page.backendPhaseIndex s' = Page.backendPhaseIndex s
           /\ Page.backendProgress s' = Page.backendProgress s
           /\ Page.backendStartedAt s' = Page.backendStartedAt s
           /\ Page.backendUptime s' = Page.backendUptime s
           /\ Page.backendPid s' = Page.backendPid s
       | _ => Page.backendOk s' = Some true
       end.
Proof.
  assert (Hoff : forall fetched',
    Page.checkHealth fetched' s = Normal (Page.unreachable s) ->
    exists polled s',
      Page.checkHealth fetched' s = Normal (polled, s')
      /\ Page.status s' = Page.status s
      /\ Page.error s' = Page.error s
      /\ Page.backendMessage s' = Page.message polled
      /\ match Page.health_status polled with
         | BackendState.offline =>
             Page.backendOk s' = Some false
             /\ Page.backendPhases s' = Page.backendPhases s
             /\ Page.backendPhaseIndex s' = Page.backendPhaseIndex s
             /\ Page.backendProgress s' = Page.backendProgress s
             /\ Page.backendStartedAt s' = Page.backendStartedAt s
             /\ Page.backendUptime s' = Page.backendUptime s
             /\ Page.backendPid s' = Page.backendPid s
         | _ => Page.backendOk s' = Some true
         end).
  { intros fetched' ->. eexists _, _. split; [reflexivity|]. by cbn. }
  destruct fetched as [r|e]; [|apply Hoff; by apply checkHealth_unreachable].
  destruct (Page.ok r) eqn:Hok;
    [|apply Hoff; apply checkHealth_unreachable; by left].
  destruct (Page.json_body r) as [data|e] eqn:Hbody;
    [|apply Hoff; apply checkHealth_unreachable; right; by rewrite Hbody].
  destruct data as [| | | | |members];
    [apply Hoff; apply checkHealth_unreachable; right; by rewrite Hbody|..];
    unfold Page.checkHealth, Page.checkHealth_try;
    unfold mbind at 1, completion_bind at 1; rewrite Hok, Hbody; cbn;
    eexists _, _; (split; [reflexivity|]); cbn; try done.
  repeat (split; [done|]).
  destruct (own_property members "status") as [[]|]; cbn; try done;
    repeat (destruct (String.eqb _ _) || destruct (truthy _)); done.
Qed.

(** X10. [start()] ends in [recording] or in [error], never in [idle]
    or [transcribing]: in [recording], with no error shown, exactly when
    the polled health is ready and [POST /start] is answered with an OK
    response; in every other case in [error] with a reason, which for a
    refused [POST /start] is the text of the response, or
    [start failed (status)] when the text is empty. *)
Theorem start_ends_recording_or_error
    (health_fetched start_fetched : completion Page.response) (s : Page.state) :
  let after := fst (Page.start health_fetched start_fetched s) in
  let sent := snd (Page.start health_fetched start_fetched s) in
  (Page.status after = Status.recording /\ Page.error after = None
   \/ Page.status after = Status.error /\ exists reason, Page.error after = Some reason)
  /\ (Page.status after = Status.recording
      <-> In Page.POST_start sent
          /\ exists r, start_fetched = Normal r /\ Page.ok r = true)
  /\ (forall r msg,
        In Page.POST_start sent ->
        start_fetched = Normal r -> Page.ok r = false ->
        Page.text_body r = Normal msg ->
        Page.error after
        = Some (JStr (if String.eqb msg EmptyString
                      then "start failed (" +:+ number_to_string (NInt (Page.http_status r))
                           +:+ ")"
                      else msg))).
Proof.
  intros after sent. subst after sent. unfold Page.start.
  destruct (checkHealth_polled health_fetched
              (Page.set_status_error (Page.status s) None s)
              (Page.set_status_error (Page.status s) None s))
    as (polled & s1 & _ & -> & _).
  destruct (Page.ready polled); cbn [negb fst snd].
  - destruct start_fetched as [r|e]; cbn.
    + destruct (Page.ok r) eqn:Hok; cbn.
      * split; [by left|]. split; [|by intros ? ? _ [= <-]; congruence].
        split; [|done]. intros _. split; [by right; left|]. by exists r.
      * destruct (Page.text_body r) as [msg|e] eqn:Htext; cbn.
        -- split; [right; split; [done|by eexists]|]. split.
           ++ split; [done|]. intros (_ & r' & [= <-] & ?). congruence.
           ++ intros r' msg' _ [= <-] _ Hmsg. rewrite Htext in Hmsg.
              by injection Hmsg as <-.
        -- split; [right; split; [done|by eexists]|]. split.
           ++ split; [done|]. intros (_ & r' & [= <-] & ?). congruence.
           ++ intros r' msg' _ [= <-] _ Hmsg. by rewrite Htext in Hmsg.
    + split; [right; split; [done|by eexists]|]. split.
      * split; [done|]. by intros (_ & r & [=] & _).
      * by intros r msg _ [=].
  - split; [right; split; [done|]; destruct (Page.health_status polled); by eexists|].
    split.
    + split; [done|]. by intros ([[=]|[]] & _).
    + by intros r msg [[=]|[]].
Qed.

(** ** Stopping a recording *)

Lemma body_or_throw_answered {A} (fetched : completion (Component.response A))
    (message : Component.response A -> completion string) (data : A) :
  Component.body_or_throw fetched message = Normal data <-> Component.answered fetched data.
Proof.
  unfold Component.body_or_throw, Component.answered. split.
  - destruct fetched as [r|e]; cbn; [|done].
    destruct (Component.ok r) eqn:Hok; cbn.
    + intros Hbody. by exists r.
    + by destruct (message r).
  - intros (r & -> & Hok & Hbody). cbn. by rewrite Hok.
Qed.

Lemma body_or_throw_cases {A} (fetched : completion (Component.response A))
    (message : Component.response A -> completion string) :
  (exists data, Component.body_or_throw fetched message = Normal data
                /\ Component.answered fetched data)
  \/ (exists e, Component.body_or_throw fetched message = Throw e
                /\ forall data, ~ Component.answered fetched data).
Proof.
  destruct (Component.body_or_throw fetched message) as [data|e] eqn:Hbody.
  - left. exists data. split; [done|]. by apply (body_or_throw_answered fetched message).
  - right. exists e. split; [done|]. intros data Hdata.
    apply (body_or_throw_answered fetched message) in Hdata. congruence.
Qed.

Lemma answered_unique {A} (fetched : completion (Component.response A)) (d1 d2 : A) :
  Component.answered fetched d1 -> Component.answered fetched d2 -> d1 = d2.
Proof. intros (r & -> & _ & H1) (r' & [= <-] & _ & H2). congruence. Qed.

(** X11. [stop()] sends [POST /stop] first and ends in [idle] with no
    error shown or in [error] with a reason, never in [recording] or
    [transcribing]: in [idle] exactly when the request is answered and
    the insertion of a text that is not empty does not throw. When the
    request is not answered, nothing else is sent and the transcript,
    the histories and their counters are as they were. *)
Theorem stop_ends_idle_or_error
    (fetched : completion (Component.response Component.stop_data))
    (inserting : completion bool) (v : Component.view) :
  let after := fst (Component.stop fetched inserting v) in
  let sent := snd (Component.stop fetched inserting v) in
  (Page.status (Component.page after) = Status.idle
   /\ Page.error (Component.page after) = None
   \/ Page.status (Component.page after) = Status.error
      /\ exists reason, Page.error (Component.page after) = Some (JStr reason))
  /\ (Page.status (Component.page after) = Status.idle
      <-> exists data,
            Component.answered fetched data
            /\ (default EmptyString (Component.data_text data) = EmptyString
                \/ exists inserted, inserting = Normal inserted))
  /\ (exists rest,
        sent = Component.POST_stop :: rest
        /\ Forall (fun e => exists data,
                     e = Component.clipboard_writeText data
                     \/ e = Component.insertIntoFocusedField_call data
                     \/ e = Component.focus_transcript) rest)
  /\ ((forall data, ~ Component.answered fetched data) ->
      sent = [Component.POST_stop]
      /\ Component.transcript after = Component.transcript v
      /\ Component.history after = Component.history v
      /\ Component.historyTotal after = Component.historyTotal v
      /\ Component.historyOffset after = Component.historyOffset v
      /\ Component.historyAll after = Component.historyAll v).
Proof.
  intros after sent. subst after sent. unfold Component.stop.
  destruct (body_or_throw_cases fetched (Component.text_or_status "stop"))
    as [(data & -> & Hdata)|(e & -> & Hnone)].
  - destruct (default EmptyString (Component.data_text data)) as [|c text] eqn:Htext;
      cbn [String.eqb negb andb app].
    + rewrite andb_false_r. cbn [app fst snd]. split; [|split; [|split]].
      * left. destruct (Component.data_item data); [destruct (Component.historyAllLoaded _)|];
          done.
      * split; [|by destruct (Component.data_item data);
                    [destruct (Component.historyAllLoaded _)|]].
        intros _. exists data. split; [done|by left].
      * eexists. split; [reflexivity|]. repeat constructor. by exists EmptyString; right; right.
      * intros Hno. by destruct (Hno data).
    + destruct inserting as [inserted|e]; cbn [fst snd].
      * split; [|split; [|split]].
        -- left. destruct (Component.appendMode _), (Component.data_item data);
             try destruct (Component.historyAllLoaded _); done.
        -- split.
           ++ intros _. exists data. split; [done|]. right. by exists inserted.
           ++ intros _. destruct (Component.appendMode _), (Component.data_item data);
                try destruct (Component.historyAllLoaded _); done.
        -- eexists. split; [reflexivity|].
           apply Forall_app. split; [apply Forall_app; split|].
           ++ match goal with |- context [if ?b then _ else _] => destruct b end;
                repeat constructor. by eexists; left.
           ++ repeat constructor. by eexists; right; left.
           ++ destruct inserted; repeat constructor. by exists EmptyString; right; right.
        -- intros Hno. by destruct (Hno data).
      * split; [|split; [|split]].
        -- right. split; [done|]. by eexists.
        -- split; [done|]. intros (data' & Hdata' & [Hempty|[inserted [=]]]).
           rewrite (answered_unique _ _ _ Hdata' Hdata) in Hempty. congruence.
        -- eexists. split; [reflexivity|]. apply Forall_app. split.
           ++ match goal with |- context [if ?b then _ else _] => destruct b end;
                repeat constructor. by eexists; left.
           ++ repeat constructor. by eexists; right; left.
        -- intros Hno. by destruct (Hno data).
  - cbn [fst snd]. split; [|split; [|split]].
    + right. split; [done|]. by eexists.
    + split; [done|]. intros (data & Hdata & _). by destruct (Hnone data).
    + eexists. split; [reflexivity|]. constructor.
    + done.
Qed.

(** X12. An answer to [POST /stop] whose text is missing or empty
    clears the transcript, in append mode too: what earlier recordings
    appended is gone. Nothing is copied or inserted, the transcript
    field takes the focus, and the session is [idle]. *)
Theorem stop_without_text_clears_transcript
    (fetched : completion (Component.response Component.stop_data))
    (inserting : completion bool) (v : Component.view) (data : Component.stop_data) :
  Component.answered fetched data ->
  default EmptyString (Component.data_text data) = EmptyString ->
  let after := fst (Component.stop fetched inserting v) in
  Component.transcript after = EmptyString
  /\ Page.status (Component.page after) = Status.idle
  /\ snd (Component.stop fetched inserting v)
     = [Component.POST_stop; Component.focus_transcript].
Proof.
  intros Hdata Htext after. subst after. unfold Component.stop.
  apply (body_or_throw_answered fetched (Component.text_or_status "stop")) in Hdata as ->.
  rewrite Htext. cbn [String.eqb negb]. rewrite andb_false_r. cbn [app fst snd].
  by destruct (Component.data_item data); [destruct (Component.historyAllLoaded _)|].
Qed.

Lemma stop_without_text_clears_transcript_witness :
  let v := MoreFixtures.in_status Status.recording (MoreFixtures.opened "first note" []) in
  let fetched :=
    Normal (MoreFixtures.ok_with
              {| Component.data_text := None; Component.data_item := None |}) in
  Component.appendMode v = true
  /\ Component.transcript v = "first note"
  /\ Component.transcript (fst (Component.stop fetched (Normal true) v)) = EmptyString.
Proof.
  intros v fetched. split; [reflexivity|]. split; [reflexivity|].
  refine (proj1 (stop_without_text_clears_transcript fetched (Normal true) v
                   {| Component.data_text := None; Component.data_item := None |} _ _)).
  - eexists. split; [reflexivity|]. split; reflexivity.
  - reflexivity.
Defined.

(** X13. [stop()] keeps the summary history within [HISTORY_PAGE]: a
    history of at most five items has at most five afterwards, also
    when the insertion throws. An item that comes with the answer is
    its first item, and the total and the offset grow by one, so that
    the offset exceeds the length of a history that was full. *)
Theorem stop_keeps_history_within_page
    (fetched : completion (Component.response Component.stop_data))
    (inserting : completion bool) (v : Component.view) :
  (length (Component.history v) <= Component.HISTORY_PAGE)%nat ->
  let after := fst (Component.stop fetched inserting v) in
  (length (Component.history after) <= Component.HISTORY_PAGE)%nat
  /\ Component.summaryHistory after = Component.history after
  /\ forall data item,
       Component.answered fetched data -> Component.data_item data = Some item ->
       Component.history after
       = item :: take (Component.HISTORY_PAGE - 1)%nat (Component.history v)
       /\ Component.historyTotal after = Component.historyTotal v + 1
       /\ Component.historyOffset after = Component.historyOffset v + 1.
Proof.
  intros Hlen after.
  assert (Hhist :
    (Component.history after = Component.history v
     /\ forall data item, Component.answered fetched data ->
                          Component.data_item data <> Some item)
    \/ exists data item,
         Component.answered fetched data /\ Component.data_item data = Some item
         /\ Component.history after
            = take Component.HISTORY_PAGE (item :: Component.history v)
         /\ Component.historyTotal after = Component.historyTotal v + 1
         /\ Component.historyOffset after = Component.historyOffset v + 1).
  { subst after. unfold Component.stop.
    destruct (body_or_throw_cases fetched (Component.text_or_status "stop"))
      as [(data & -> & Hdata)|(e & -> & Hnone)].
    - destruct (Component.data_item data) as [item|] eqn:Hitem.
      + right. exists data, item. split; [done|]. split; [done|].
        destruct (negb (String.eqb _ _)), (Component.appendMode _), inserting;
          cbn; destruct (Component.historyAllLoaded v); done.
      + left. split.
        * destruct (negb (String.eqb _ _)), (Component.appendMode _), inserting; done.
        * intros data' item Hdata'. rewrite (answered_unique _ _ _ Hdata' Hdata). congruence.
    - left. split; [done|]. intros data item Hdata. by destruct (Hnone data). }
  destruct Hhist as [[Hsame Hnone]|(data & item & Hdata & Hitem & Hhist & Htotal & Hoffset)].
  - split; [by rewrite Hsame|]. split.
    + unfold Component.summaryHistory. rewrite Hsame. by apply take_ge.
    + intros data item Hdata Hitem. by destruct (Hnone data item Hdata).
  - split; [rewrite Hhist, length_take; lia|]. split.
    + unfold Component.summaryHistory. rewrite Hhist. apply take_ge.
      rewrite length_take. lia.
    + intros data' item' Hdata' Hitem'.
      rewrite (answered_unique _ _ _ Hdata' Hdata) in Hitem'.
      assert (item' = item) as -> by congruence. done.
Qed.

Lemma stop_keeps_history_within_page_witness :
  let v := MoreFixtures.in_status Status.recording
             (MoreFixtures.opened EmptyString MoreFixtures.five_items) in
  let item := MoreFixtures.item "f6" "2024-03-01T00:00:00Z" "sixth" in
  let fetched :=
    Normal (MoreFixtures.ok_with
              {| Component.data_text := Some "sixth"; Component.data_item := Some item |}) in
  let after := fst (Component.stop fetched (Normal true) v) in
  length (Component.history v) = 5%nat
  /\ (length (Component.history after) <= 5)%nat
  /\ Component.historyOffset after = 6.
Proof.
  intros v item fetched after. split; [reflexivity|].
  pose proof (stop_keeps_history_within_page fetched (Normal true) v) as Hstop.
  destruct Hstop as (Hlen & _ & Hitem); [vm_compute; lia|].
  split; [exact Hlen|].
  destruct (Hitem {| Component.data_text := Some "sixth"; Component.data_item := Some item |}
              item) as (_ & _ & Hoffset).
  - eexists. split; [reflexivity|]. split; reflexivity.
  - reflexivity.
  - exact Hoffset.
Defined.

(** ** The toggle *)

Lemma start_never_stops (health_fetched start_fetched : completion Page.response)
    (v : Component.view) :
  ~ In Component.POST_stop (snd (Component.start health_fetched start_fetched v)).
Proof.
  unfold Component.start.
  destruct (Page.start health_fetched start_fetched (Component.page v)) as [s sent].
  cbn [snd]. intros ([] & [=] & _)%in_map_iff.
Qed.

Lemma stop_never_starts (fetched : completion (Component.response Component.stop_data))
    (inserting : completion bool) (v : Component.view) :
  In Component.POST_stop (snd (Component.stop fetched inserting v))
  /\ ~ In Component.POST_start (snd (Component.stop fetched inserting v))
  /\ ~ In Component.GET_health (snd (Component.stop fetched inserting v)).
Proof.
  unfold Component.stop.
  destruct (Component.body_or_throw fetched _) as [data|e]; cbn [snd].
  - destruct (negb (String.eqb _ _)), (Component.autoCopy _), inserting as [[]|];
      cbn; intuition congruence.
  - cbn. intuition congruence.
Qed.

(** X14. [toggle()] does nothing while the session is [transcribing]:
    the state is as it was and nothing is sent. It sends [POST /stop]
    exactly when the session is [recording], and then neither polls the
    health nor sends [POST /start]; from [idle] and from [error] it is
    [start()], which polls the health first. *)
Theorem toggle_follows_status
    (health_fetched start_fetched : completion Page.response)
    (stop_fetched : completion (Component.response Component.stop_data))
    (inserting : completion bool) (v : Component.view) :
  let done := Component.toggle health_fetched start_fetched stop_fetched inserting v in
  (Page.status (Component.page v) = Status.transcribing <-> snd done = [])
  /\ (Page.status (Component.page v) = Status.transcribing -> fst done = v)
  /\ (Page.status (Component.page v) = Status.recording
      <-> In Component.POST_stop (snd done))
  /\ (Page.status (Component.page v) = Status.recording ->
      ~ In Component.POST_start (snd done) /\ ~ In Component.GET_health (snd done))
  /\ (Page.status (Component.page v) = Status.idle
      \/ Page.status (Component.page v) = Status.error
      <-> exists rest, snd done = Component.GET_health :: rest).
Proof.
  intros done. subst done. unfold Component.toggle.
  pose proof (stop_never_starts stop_fetched inserting v) as (Hstop & Hnostart & Hnoget).
  pose proof (start_never_stops health_fetched start_fetched v) as Hnostop.
  assert (Hfirst : exists rest,
            snd (Component.start health_fetched start_fetched v)
            = Component.GET_health :: rest).
  { unfold Component.start, Page.start.
    destruct (Page.checkHealth _ _) as [[polled s]|e]; cbn; [|by eexists].
    destruct (negb (Page.ready polled)); cbn; by eexists. }
  assert (Hstopfirst : forall rest,
            snd (Component.stop stop_fetched inserting v) <> Component.GET_health :: rest).
  { intros rest Heq. apply Hnoget. rewrite Heq. by left. }
  destruct (Page.status (Component.page v)); cbn [fst snd].
  - destruct Hfirst as [rest Hrest]. rewrite Hrest.
    repeat split; try done; try (by intros [[=]|?]); try (by intros [? [=]]).
    + intros Hin. destruct Hnostop. by rewrite Hrest.
    + intros _. by exists rest.
    + intros _. by left.
  - repeat split; try done; try (by intros [[=]|[=]]).
    + intros Hnil. rewrite Hnil in Hstop. by destruct Hstop.
    + intros [rest Hrest]. by destruct (Hstopfirst rest).
  - repeat split; try done; try (by intros [[=]|[=]]); try (by intros []);
      try (by intros [? [=]]).
  - destruct Hfirst as [rest Hrest]. rewrite Hrest.
    repeat split; try done; try (by intros [[=]|?]); try (by intros [? [=]]).
    + intros Hin. destruct Hnostop. by rewrite Hrest.
    + intros _. by exists rest.
    + intros _. by right.
Qed.

(** ** The history *)

Lemma without_spec (itemId : string) (items : list Component.TranscriptItem)
    (item : Component.TranscriptItem) :
  In item (Component.without itemId items)
  <-> In item items /\ Component.id item <> itemId.
Proof.
  unfold Component.without. rewrite List.filter_In, negb_true_iff.
  by rewrite String.eqb_neq.
Qed.

(** X15. A [DELETE] that fails, or that is answered with a response
    that is not OK, changes nothing but the error of the full history:
    the histories, their counters, the transcript and the session are
    as they were, and the history is not loaded again. The error is
    the text of the response, or [Delete failed (status)] when the text
    is empty. *)
Theorem deleteHistoryItem_refused (itemId : string)
    (deleted : completion (Component.response unit))
    (reloaded : completion (Component.response Component.history_data))
    (v : Component.view) :
  (forall r, deleted = Normal r -> Component.ok r = false) ->
  let after := fst (Component.deleteHistoryItem itemId deleted reloaded v) in
  snd (Component.deleteHistoryItem itemId deleted reloaded v)
  = [Component.DELETE_history itemId]
  /\ (exists reason, Component.historyAllError after = Some reason)
  /\ (forall r msg,
        deleted = Normal r -> Component.text_body r = Normal msg ->
        Component.historyAllError after
        = Some (if String.eqb msg EmptyString
                then "Delete failed (" +:+ number_to_string (NInt (Component.http_status r))
                     +:+ ")"
                else msg))
  /\ Component.history after = Component.history v
  /\ Component.historyAll after = Component.historyAll v
  /\ Component.historyTotal after = Component.historyTotal v
  /\ Component.historyOffset after = Component.historyOffset v
  /\ Component.historyLoading after = Component.historyLoading v
  /\ Component.transcript after = Component.transcript v
  /\ Component.page after = Component.page v.
Proof.
  intros Hrefused after. subst after. unfold Component.deleteHistoryItem.
  destruct deleted as [r|e]; cbn.
  - rewrite (Hrefused r eq_refl). cbn.
    destruct (Component.text_body r) as [msg|e] eqn:Htext; cbn.
    + split; [done|]. split; [by eexists|]. split; [|done].
      intros r' msg' [= <-] Hmsg. rewrite Htext in Hmsg. by injection Hmsg as <-.
    + split; [done|]. split; [by eexists|]. split; [|done].
      intros r' msg' [= <-] Hmsg. by rewrite Htext in Hmsg.
  - split; [done|]. split; [by eexists|]. split; [|done]. by intros r msg [=].
Qed.

Lemma deleteHistoryItem_refused_witness :
  let v := MoreFixtures.with_all MoreFixtures.five_items
             (MoreFixtures.opened EmptyString MoreFixtures.five_items) in
  let after :=
    fst (Component.deleteHistoryItem "c3" (Normal (MoreFixtures.refused 404 EmptyString))
           (Throw (TypeError "fetch failed")) v) in
  Component.historyAllError after = Some "Delete failed (404)"
  /\ Component.history after = MoreFixtures.five_items.
Proof.
  intros v after.
  pose proof (deleteHistoryItem_refused "c3" (Normal (MoreFixtures.refused 404 EmptyString))
                (Throw (TypeError "fetch failed")) v) as Hrefused.
  destruct Hrefused as (_ & _ & Hreason & Hhistory & _).
  - by intros r [= <-].
  - split; [|exact Hhistory].
    exact (Hreason (MoreFixtures.refused 404 EmptyString) EmptyString eq_refl eq_refl).
Defined.

Lemma loadHistory_reset_cases
    (fetched : completion (Component.response Component.history_data))
    (v : Component.view) :
  (Component.historyLoading v = true
   /\ Component.loadHistory true fetched v = (v, []))
  \/ (Component.historyLoading v = false
      /\ (forall data, ~ Component.answered fetched data)
      /\ Component.loadHistory true fetched v
         = (Component.set_historyLoading false v,
            [Component.GET_history Component.HISTORY_PAGE 0]))
  \/ (Component.historyLoading v = false
      /\ exists data,
           Component.answered fetched data
           /\ Component.loadHistory true fetched v
              = (Component.set_historyLoading false
                   (Component.set_history (default [] (Component.data_items data))
                      (default 0 (Component.data_total data))
                      (Z.of_nat (length (default [] (Component.data_items data)))) v),
                 [Component.GET_history Component.HISTORY_PAGE 0])).
Proof.
  unfold Component.loadHistory.
  destruct (Component.historyLoading v); [by left|right].
  destruct (body_or_throw_cases fetched (fun _ => Normal "Failed to load history"))
    as [(data & -> & Hdata)|(e & -> & Hnone)]; cbn.
  - right. split; [done|]. by exists data.
  - left. done.
Qed.

(** X16. A [DELETE] answered with an OK response removes every item
    with that identifier from the full history, when that is loaded, and
    asks for the first page of the history again unless a load is under
    way. When the page is not loaded again, because a load is under way
    or the request fails, the summary history holds no item with that
    identifier either and its counters are one less, but not below
    zero; when it is, the summary history, its total and its offset are
    those of the answer. *)
Theorem deleteHistoryItem_removes (itemId : string)
    (deleted : completion (Component.response unit))
    (reloaded : completion (Component.response Component.history_data))
    (v : Component.view) (r : Component.response unit) :
  deleted = Normal r -> Component.ok r = true ->
  let after := fst (Component.deleteHistoryItem itemId deleted reloaded v) in
  snd (Component.deleteHistoryItem itemId deleted reloaded v)
  = Component.DELETE_history itemId
    :: (if Component.historyLoading v then []
        else [Component.GET_history Component.HISTORY_PAGE 0])
  /\ Component.historyAll after
     = (if Component.historyAllLoaded v
        then Component.without itemId (Component.historyAll v)
        else Component.historyAll v)
  /\ (Component.historyAllLoaded v = true ->
      forall item, In item (Component.historyAll after) -> Component.id item <> itemId)
  /\ (Component.historyLoading v = true
      \/ (forall data, ~ Component.answered reloaded data) ->
      (forall item, In item (Component.history after) <->
                    In item (Component.history v) /\ Component.id item <> itemId)
      /\ Component.historyTotal after = Z.max (Component.historyTotal v - 1) 0
      /\ Component.historyOffset after = Z.max (Component.historyOffset v - 1) 0)
  /\ (forall data,
        Component.historyLoading v = false -> Component.answered reloaded data ->
        Component.history after = default [] (Component.data_items data)
        /\ Component.historyTotal after = default 0 (Component.data_total data)
        /\ Component.historyOffset after
           = Z.of_nat (length (default [] (Component.data_items data))))
  /\ Component.historyAllError after = Component.historyAllError v.
Proof.
  intros -> Hok after. subst after. unfold Component.deleteHistoryItem.
  cbn. rewrite Hok. cbn.
  match goal with
  | |- context [Component.loadHistory true reloaded ?v1] => remember v1 as w eqn:Hw
  end.
  assert (Hloading : Component.historyLoading w = Component.historyLoading v)
    by (subst w; by destruct (Component.historyAllLoaded v)).
  assert (Hall : Component.historyAll w
                 = if Component.historyAllLoaded v
                   then Component.without itemId (Component.historyAll v)
                   else Component.historyAll v)
    by (subst w; by destruct (Component.historyAllLoaded v)).
  assert (Hsummary : Component.history w = Component.without itemId (Component.history v)
                     /\ Component.historyTotal w = Z.max (Component.historyTotal v - 1) 0
                     /\ Component.historyOffset w = Z.max (Component.historyOffset v - 1) 0
                     /\ Component.historyAllError w = Component.historyAllError v)
    by (subst w; by destruct (Component.historyAllLoaded v)).
  clear Hw. destruct Hsummary as (Hhistory & Htotal & Hoffset & Herror).
  destruct (loadHistory_reset_cases reloaded w)
    as [[Hbusy ->]|[(Hfree & Hnone & ->)|(Hfree & data & Hdata & ->)]];
    cbn [fst snd Component.history Component.historyAll Component.historyTotal
         Component.historyOffset Component.historyAllError Component.set_historyLoading
         Component.set_history].
  all: rewrite <- Hloading.
  all: try rewrite Hbusy; try rewrite Hfree.
  all: split; [done|]; split; [done|]; split;
         [intros Hloaded item; rewrite Hall, Hloaded; by intros [_ ?]%without_spec|].
  - split; [|split; [by intros data [=]|done]].
    intros _. split; [|done]. intros item. rewrite Hhistory. apply without_spec.
  - split; [|split; [intros data _ Hdata; by destruct (Hnone data)|done]].
    intros _. split; [|done]. intros item. rewrite Hhistory. apply without_spec.
  - split; [|split; [|done]].
    + intros [[=]|Hnone]. by destruct (Hnone data).
    + intros data' _ Hdata'. by rewrite (answered_unique _ _ _ Hdata' Hdata).
Qed.

Lemma deleteHistoryItem_removes_witness :
  let v := MoreFixtures.with_all MoreFixtures.five_items
             (MoreFixtures.opened EmptyString MoreFixtures.five_items) in
  let after :=
    fst (Component.deleteHistoryItem "c3" (Normal (MoreFixtures.ok_with tt))
           (Throw (TypeError "fetch failed")) v) in
  length (Component.historyAll after) = 4%nat
  /\ Component.historyTotal after = 4.
Proof.
  intros v after.
  pose proof (deleteHistoryItem_removes "c3" (Normal (MoreFixtures.ok_with tt))
                (Throw (TypeError "fetch failed")) v (MoreFixtures.ok_with tt)
                eq_refl eq_refl) as Hremoved.
  destruct Hremoved as (_ & Hall & _ & Hsummary & _).
  split.
  - fold after in Hall. rewrite Hall. reflexivity.
  - destruct Hsummary as (_ & Htotal & _).
    + right. by intros data (r & [=] & _).
    + exact Htotal.
Defined.

(** X17. [loadHistory] keeps the offset in step with the summary
    history: when the offset is the number of items shown, it is so
    afterwards, whether the page replaces the history or is appended to
    it. A request that is not answered leaves the history, its total
    and its offset as they were, and no load is under way afterwards. *)
Theorem loadHistory_keeps_offset (reset : bool)
    (fetched : completion (Component.response Component.history_data))
    (v : Component.view) :
  Component.historyOffset v = Z.of_nat (length (Component.history v)) ->
  let after := fst (Component.loadHistory reset fetched v) in
  Component.historyOffset after = Z.of_nat (length (Component.history after))
  /\ (Component.historyLoading v = false -> Component.historyLoading after = false)
  /\ ((forall data, ~ Component.answered fetched data) ->
      Component.history after = Component.history v
      /\ Component.historyTotal after = Component.historyTotal v
      /\ Component.historyOffset after = Component.historyOffset v).
Proof.
  intros Hoffset after. subst after. unfold Component.loadHistory.
  destruct (Component.historyLoading v); cbn [fst]; [done|].
  destruct (body_or_throw_cases fetched (fun _ => Normal "Failed to load history"))
    as [(data & -> & Hdata)|(e & -> & Hnone)]; cbn.
  - split; [|split; [done|]].
    + destruct reset; cbn; [done|]. rewrite length_app, Hoffset. lia.
    + intros Hno. by destruct (Hno data).
  - done.
Qed.

Lemma loadHistory_keeps_offset_witness :
  let v := MoreFixtures.opened EmptyString MoreFixtures.five_items in
  let page :=
    {| Component.data_items := Some [MoreFixtures.item "z0" "2019-01-01T00:00:00Z" "zeroth"];
       Component.data_total := Some 6 |} in
  let after := fst (Component.loadHistory false (Normal (MoreFixtures.ok_with page)) v) in
  Component.historyOffset v = 5
  /\ Component.historyOffset after = Z.of_nat (length (Component.history after))
  /\ length (Component.history after) = 6%nat.
Proof.
  intros v page after. split; [reflexivity|]. split; [|reflexivity].
  exact (proj1 (loadHistory_keeps_offset false (Normal (MoreFixtures.ok_with page)) v
                  eq_refl)).
Defined.

(** ** The label of a phase *)

Lemma is_word_toUpperCase_word (c : ascii) :
  Component.is_word (Component.toUpperCase_word c) = Component.is_word c.
Proof. by destruct c as [[] [] [] [] [] [] [] []]. Qed.

Lemma toUpperCase_word_idem (c : ascii) :
  Component.toUpperCase_word (Component.toUpperCase_word c) = Component.toUpperCase_word c.
Proof. by destruct c as [[] [] [] [] [] [] [] []]. Qed.

Lemma toUpperCase_word_underscore (c : ascii) :
  Component.toUpperCase_word c = "_"%char -> c = "_"%char.
Proof. by destruct c as [[] [] [] [] [] [] [] []]. Qed.

Lemma capitalize_words_idem (inside : bool) (s : string) :
  Component.capitalize_words inside (Component.capitalize_words inside s)
  = Component.capitalize_words inside s.
Proof.
  revert inside. induction s as [|c rest IH]; intros inside; [done|].
  cbn [Component.capitalize_words].
  destruct (Component.is_word c && negb inside) eqn:Hstart.
  - rewrite is_word_toUpperCase_word, Hstart, toUpperCase_word_idem. by rewrite IH.
  - rewrite Hstart. by rewrite IH.
Qed.

Lemma capitalize_words_chars (inside : bool) (s : string) :
  ~ In "_"%char (list_ascii_of_string s) ->
  ~ In "_"%char (list_ascii_of_string (Component.capitalize_words inside s)).
Proof.
  revert inside. induction s as [|c rest IH]; intros inside; [done|].
  cbn [Component.capitalize_words list_ascii_of_string In]. intros Hno [Hc|Hin].
  - apply Hno. left. destruct (Component.is_word c && negb inside); [|done].
    by apply toUpperCase_word_underscore.
  - apply (IH (Component.is_word c)); [|done]. intros ?. apply Hno. by right.
Qed.

Lemma replace_underscores_chars (s : string) :
  ~ In "_"%char (list_ascii_of_string (Component.replace_underscores s)).
Proof.
  induction s as [|c rest IH]; [by intros []|].
  cbn [Component.replace_underscores list_ascii_of_string In]. intros [Hc|Hin]; [|done].
  by destruct (Ascii.eqb_spec c "_").
Qed.

Lemma replace_underscores_none (s : string) :
  ~ In "_"%char (list_ascii_of_string s) -> Component.replace_underscores s = s.
Proof.
  induction s as [|c rest IH]; [done|].
  cbn [Component.replace_underscores list_ascii_of_string In]. intros Hno.
  rewrite IH by tauto. destruct (Ascii.eqb_spec c "_") as [->|]; [|done].
  destruct Hno. by left.
Qed.

Lemma capitalize_words_length (inside : bool) (s : string) :
  String.length (Component.capitalize_words inside s) = String.length s.
Proof.
  revert inside. induction s as [|c rest IH]; intros inside; [done|].
  cbn [Component.capitalize_words String.length]. by rewrite IH.
Qed.

Lemma replace_underscores_length (s : string) :
  String.length (Component.replace_underscores s) = String.length s.
Proof.
  induction s as [|c rest IH]; [done|].
  cbn [Component.replace_underscores String.length]. by rewrite IH.
Qed.

(** X18. The label of a phase has the length of the phase's name and
    no underscore, and labelling is idempotent: the label of a label is
    that label. *)
Theorem formatPhaseLabel_idempotent (phase : string) :
  String.length (Component.formatPhaseLabel phase) = String.length phase
  /\ ~ In "_"%char (list_ascii_of_string (Component.formatPhaseLabel phase))
  /\ Component.formatPhaseLabel (Component.formatPhaseLabel phase)
     = Component.formatPhaseLabel phase.
Proof.
  unfold Component.formatPhaseLabel. split; [|split].
  - by rewrite capitalize_words_length, replace_underscores_length.
  - apply capitalize_words_chars, replace_underscores_chars.
  - rewrite replace_underscores_none
      by apply capitalize_words_chars, replace_underscores_chars.
    apply capitalize_words_idem.
Qed.

(** ** The filters of the full history *)

Section FilterMore.

Variable Date_parse : string -> option Z.
Variable toLowerCase : string -> string.

#[local] Abbreviation filteredHistory := (Component.filteredHistory Date_parse toLowerCase).

(** X19. Without filters the full history is shown as it is: when the
    text filter is empty or white space and no day is chosen,
    [filteredHistory] is [historyAll], whatever the dates of the items
    are. *)
Theorem filteredHistory_without_filters (v : Component.view) :
  toLowerCase EmptyString = EmptyString ->
  trim (Component.historyFilterText v) = EmptyString ->
  Component.historyFilterFrom v = EmptyString ->
  Component.historyFilterTo v = EmptyString ->
  filteredHistory v = Component.historyAll v.
Proof.
  intros Hlower Htext Hfrom Hto. unfold Component.filteredHistory, Component.bound.
  rewrite Htext, Hlower, Hfrom, Hto. cbn [String.eqb].
  induction (Component.historyAll v) as [|item rest IH]; [done|].
  cbn [List.filter]. unfold Component.passes at 1. cbn. by rewrite IH.
Qed.

(** X20. The day filters fail open: an item of the full history whose
    [createdAt] is not a date is shown whatever days are chosen, as
    soon as its text matches the text filter. *)
Theorem filteredHistory_keeps_undated (v : Component.view)
    (item : Component.TranscriptItem) :
  In item (Component.historyAll v) ->
  Date_parse (Component.createdAt item) = None ->
  (In item (filteredHistory v)
   <-> toLowerCase (trim (Component.historyFilterText v)) = EmptyString
       \/ includes (toLowerCase (Component.text item))
            (toLowerCase (trim (Component.historyFilterText v))) = true).
Proof.
  intros Hin Hdate. unfold Component.filteredHistory.
  rewrite List.filter_In. unfold Component.passes. rewrite Hdate.
  destruct (String.eqb_spec (toLowerCase (trim (Component.historyFilterText v))) EmptyString)
    as [->|Hquery]; cbn [negb andb].
  - assert (forall d, Component.before None d = false) as Hnone by done.
    assert (forall d, Component.before d None = false) as Hnone' by (by intros [d|]).
    destruct (Component.bound _ _ "T00:00:00"), (Component.bound _ _ "T23:59:59.999");
      rewrite ?Hnone, ?Hnone'; intuition.
  - destruct (includes _ _); cbn [negb].
    + assert (forall d, Component.before d None = false) as Hnone' by (by intros [d|]).
      destruct (Component.bound _ _ "T00:00:00"), (Component.bound _ _ "T23:59:59.999");
        cbn [Component.before]; rewrite ?Hnone'; intuition.
    + intuition congruence.
Qed.

End FilterMore.

Lemma filteredHistory_without_filters_witness :
  let v := MoreFixtures.filtered_by "  " EmptyString EmptyString
             (MoreFixtures.with_all MoreFixtures.five_items
                (MoreFixtures.opened EmptyString [])) in
  Component.historyFilterText v = "  "
  /\ Component.filteredHistory MoreFixtures.Date_parse_utc MoreFixtures.lower v
     = MoreFixtures.five_items.
Proof.
  intros v. split; [reflexivity|].
  exact (filteredHistory_without_filters MoreFixtures.Date_parse_utc MoreFixtures.lower v
           eq_refl eq_refl eq_refl eq_refl).
Defined.

Lemma filteredHistory_keeps_undated_witness :
  let v := MoreFixtures.filtered_by "THIRD" "2024-02-01" "2024-02-28"
             (MoreFixtures.with_all MoreFixtures.five_items
                (MoreFixtures.opened EmptyString [])) in
  MoreFixtures.Date_parse_utc "yesterday" = None
  /\ MoreFixtures.Date_parse_utc "2024-02-01T00:00:00" = Some 1706745600000
  /\ MoreFixtures.Date_parse_utc "2024-02-28T23:59:59.999" = Some 1709164799999
  /\ In (MoreFixtures.item "c3" "yesterday" "third")
       (Component.filteredHistory MoreFixtures.Date_parse_utc MoreFixtures.lower v).
Proof.
  intros v. split; [reflexivity|]. split; [reflexivity|]. split; [reflexivity|].
  apply (filteredHistory_keeps_undated MoreFixtures.Date_parse_utc MoreFixtures.lower v
           (MoreFixtures.item "c3" "yesterday" "third")).
  - vm_compute. tauto.
  - reflexivity.
  - right. reflexivity.
Defined.

(** ** Loading the full history *)

(** X21. A load of the full history that is not answered keeps the
    list that was loaded, its flag and the total, and shows an error; a
    load that is answered replaces the list, clears the error and sets
    the total to the answer's, or to the number of items when the
    answer has none. Either way the summary history and its offset are
    as they were, the full history stays loaded once it is, and no load
    is under way afterwards. *)
Theorem loadAllHistory_keeps_loaded
    (fetched : completion (Component.response Component.history_data))
    (v : Component.view) :
  Component.historyAllLoading v = false ->
  let after := fst (Component.loadAllHistory fetched v) in
  Component.historyAllLoading after = false
  /\ Component.history after = Component.history v
  /\ Component.historyOffset after = Component.historyOffset v
  /\ (Component.historyAllLoaded v = true -> Component.historyAllLoaded after = true)
  /\ ((forall data, ~ Component.answered fetched data) ->
      Component.historyAll after = Component.historyAll v
      /\ Component.historyAllLoaded after = Component.historyAllLoaded v
      /\ Component.historyTotal after = Component.historyTotal v
      /\ exists reason, Component.historyAllError after = Some reason)
  /\ (forall data,
        Component.answered fetched data ->
        Component.historyAll after = default [] (Component.data_items data)
        /\ Component.historyAllLoaded after = true
        /\ Component.historyAllError after = None
        /\ Component.historyTotal after
           = default (Z.of_nat (length (default [] (Component.data_items data))))
               (Component.data_total data)).
Proof.
  intros Hidle after. subst after. unfold Component.loadAllHistory. rewrite Hidle.
  destruct (body_or_throw_cases fetched (fun _ => Normal "Failed to load history"))
    as [(data & -> & Hdata)|(e & -> & Hnone)]; cbn.
  - repeat (split; [done|]). split.
    + intros Hno. by destruct (Hno data).
    + intros data' Hdata'. by rewrite (answered_unique _ _ _ Hdata' Hdata).
  - repeat (split; [done|]). split.
    + intros _. repeat (split; [done|]). by eexists.
    + intros data Hdata. by destruct (Hnone data).
Qed.

Lemma loadAllHistory_keeps_loaded_witness :
  let v := MoreFixtures.with_all MoreFixtures.five_items
             (MoreFixtures.opened EmptyString []) in
  let after :=
    fst (Component.loadAllHistory (Normal (MoreFixtures.refused 500 "Internal Server Error"))
           v) in
  Component.historyAll after = MoreFixtures.five_items
  /\ Component.historyAllError after = Some "Failed to load history".
Proof.
  intros v after.
  pose proof (loadAllHistory_keeps_loaded
                (Normal (MoreFixtures.refused 500 "Internal Server Error")) v eq_refl)
    as (_ & _ & _ & _ & Hkept & _).
  destruct Hkept as (Hall & _).
  - intros data (r & [= <-] & [=] & _).
  - split; [exact Hall|reflexivity].
Defined.

(** ** More of the launcher *)

(** X22. An environment variable that is set to the empty text counts
    as unset: the launcher does the same with it as without it. *)
Theorem launcher_empty_variable_is_unset (env : gmap string string) (key : string)
    (argv : list string) (execPath cwd : string)
    (run_child : string -> list string -> FS -> FS * option Z) (disk : FS) :
  Launcher.main (<[key := EmptyString]> env) argv execPath cwd run_child disk
  = Launcher.main (delete key env) argv execPath cwd run_child disk.
Proof.
  assert (Hvalue : forall name fallback,
            Launcher.or_default (<[key := EmptyString]> env !! name) fallback
            = Launcher.or_default (delete key env !! name) fallback).
  { intros name fallback. destruct (decide (key = name)) as [->|Hne].
    - by rewrite lookup_insert_eq, lookup_delete_eq.
    - by rewrite lookup_insert_ne, lookup_delete_ne. }
  unfold Launcher.main, Launcher.args, Launcher.backendHost, Launcher.backendPort.
  by rewrite !Hvalue.
Qed.

Section LaunchMore.

Variable JSON_parse : string -> completion json.
Variable JSON_stringify : json -> string.
Variable Date_parse : string -> option Z.
Variable historyDir : string.

(** X23. The launcher on the prune script: it warns exactly when the
    script does not end with the code 0, which is when [prune] returns
    1 or throws or one of its calls on the disk fails, and it starts
    the backend all the same, on the disk as the script left it. *)
Theorem launcher_warns_when_prune_fails (env : gmap string string)
    (argv : list string) (execPath cwd : string) (now : Z) (disk : FS) :
  let script := [execPath; Launcher.pruneScript cwd] in
  let events :=
    Launcher.main env argv execPath cwd
      (prune_child JSON_parse JSON_stringify Date_parse historyDir now) disk in
  (In (Launcher.console_warn
         "[dev:backend] History pruning failed. Continuing backend startup.") events
   <-> ~ (result (prune JSON_parse JSON_stringify Date_parse historyDir script now disk)
          = Normal 0
          /\ calls_succeed JSON_parse JSON_stringify Date_parse historyDir script now disk))
  /\ exists first,
       events
       = first
         ++ [Launcher.spawn "python" (Launcher.args env argv)
               (disk_after JSON_parse JSON_stringify Date_parse historyDir script now disk)].
Proof.
  intros script events. subst events. unfold Launcher.main, prune_child.
  fold script. split.
  - unfold PruneHistory.exit_code, PruneHistory.calls_succeed.
    destruct (result (prune JSON_parse JSON_stringify Date_parse historyDir script now disk))
      as [code|e] eqn:Hresult;
      destruct (snd (exec_ops _ disk)) eqn:Hcalls.
    + destruct (decide (Some code = Some 0)) as [[= ->]|Hcode]; cbn.
      * split; [|intros Hno; by destruct Hno]. intros [[=]|[[=]|[[=]|[]]]].
      * split; [|by right; left]. intros _ [[= ->] _]. by destruct Hcode.
    + destruct (decide (Some 1 = Some 0)) as [[=]|_]. cbn.
      split; [|by right; left]. by intros _ [_ [=]].
    + destruct (decide (Some 1 = Some 0)) as [[=]|_]. cbn.
      split; [|by right; left]. by intros _ [[=] _].
    + destruct (decide (Some 1 = Some 0)) as [[=]|_]. cbn.
      split; [|by right; left]. by intros _ [[=] _].
  - destruct (decide (_ = Some 0)); [eexists [_; _]|eexists [_; _; _]]; reflexivity.
Qed.

End LaunchMore.

(** ** Starting everything *)

(** X24. [dev-all] runs one command: the frontend alone exactly when
    the health request is answered with the status 200 and a JSON
    object whose member [ok] is [true] itself, and the backend with the
    frontend in every other case: a time out, a failed request, another
    status, a body that is not JSON or is [null], a member that is
    missing or is another value. *)
Theorem dev_all_starts_backend_unless_healthy
    (JSON_parse : string -> completion json) (backendBase : string) (p : DevAll.probe) :
  let events := DevAll.main JSON_parse backendBase p in
  let healthy :=
    exists body members,
      p = DevAll.responded 200 body
      /\ JSON_parse body = Normal (JObj members)
      /\ own_property members "ok" = Some (JBool true) in
  (exists command,
     List.filter (fun e => match e with DevAll.runCommand _ => true | _ => false end) events
     = [DevAll.runCommand command])
  /\ (In (DevAll.runCommand DevAll.frontend) events <-> healthy)
  /\ (In (DevAll.runCommand DevAll.backend_and_frontend) events <-> ~ healthy).
Proof.
  intros events healthy. subst events.
  assert (Hok : DevAll.ok (DevAll.checkHealth JSON_parse p) = true <-> healthy).
  { subst healthy. split.
    - destruct p as [statusCode body| |]; cbn; [|done..].
      destruct (JSON_parse body) as [data|e] eqn:Hparse; cbn; [|done].
      destruct (Z.eqb_spec statusCode 200) as [->|]; cbn; [|done].
      destruct data as [| | | | |members]; cbn; try done.
      destruct (own_property members "ok") as [[|[]| | | |]|] eqn:Hmember; cbn; try done.
      intros _. by exists body, members.
    - intros (body & members & -> & Hparse & Hmember). cbn.
      rewrite Hparse. cbn. by rewrite Hmember. }
  unfold DevAll.main.
  destruct (DevAll.ok (DevAll.checkHealth JSON_parse p)); cbn.
  - split; [by eexists|]. split.
    + split; [intros _; by apply Hok|]. intros _. by right; left.
    + split; [by intros [[=]|[[=]|[]]]|]. intros Hno. destruct Hno. by apply Hok.
  - split; [by eexists|]. split.
    + split; [by intros [[=]|[]]|]. intros Hyes. by apply Hok in Hyes.
    + split; [|intros _; by left]. intros _ Hyes. by apply Hok in Hyes.
Qed.
